(** * pyreactor: equilibrium conversion of a single gas-phase reaction

    A shallow embedding of [src/pyreactor/component.py],
    [src/pyreactor/reaction.py] and of the bracket computation of the
    top-level copy [src/reaction.py], followed by the properties of the
    specification that are proved about them.

    Number model.  A Python [float] is modelled by a real number: the
    arithmetic is exact, without rounding, and a real beyond the largest
    float stands for the infinity a float computation overflows to.
    Underflow is modelled at the two places where the code hands on, or
    tests, the sign of a result that binary64 rounds to zero: the result of
    [np.exp] in [calculate_rxn_k] and the product [f_min * f_max] that
    [calculate_conversion] compares with zero.  Temperatures, pressures and
    amounts are Python numbers; a NumPy scalar in their place follows
    NumPy's rules (no exception on a division by zero) and is not modelled.
    A Python [int] is an integer of [Z]: the stoichiometric [order], an
    [int] by the docstring of [Component], and the running [delta_mols].
    What Python does besides computing a value is kept:
    - [x / y] raises [ZeroDivisionError] when [y] is zero, and so does
      [x ** n] for a zero base and a negative integer exponent;
    - [l[i]] raises [IndexError] out of range, [max] and [min] of an empty
      sequence raise [ValueError];
    - [np.log] of a non-positive number is a NaN that propagates through
      the arithmetic without raising.
    The collaborators that are not part of the repository ([np.isfinite],
    SciPy's [root_scalar], the module [constants]) are parameters. *)

From Stdlib Require Import Reals Lra Lia ZArith List String.
From Stdlib Require Import FunctionalExtensionality.
Import ListNotations.
Local Open Scope R_scope.

(** ** Exceptions and results *)

(** The two [RuntimeError]s of [calculate_conversion], with the values the
    message of the first one is formatted from. *)
Inductive message : Type :=
| NoSignChange (chi_min f_min chi_max f_max : R)
| NotConverged.

Inductive exn : Type :=
| ZeroDivisionError
| IndexError
| ValueError
| RuntimeError (msg : message).

Inductive result (A : Type) : Type :=
| Ok (a : A)
| Raise (e : exn).
Arguments Ok {A} a.
Arguments Raise {A} e.

Definition bind {A B : Type} (m : result A) (k : A -> result B) : result B :=
  match m with
  | Ok a => k a
  | Raise e => Raise e
  end.

Declare Scope py_scope.
Delimit Scope py_scope with py.
Notation "x <- m ;; k" := (bind m (fun x => k))
  (at level 61, m at next level, right associativity) : py_scope.
Notation "' p <- m ;; k" := (bind m (fun x => match x with p => k end))
  (at level 61, p pattern, m at next level, right associativity) : py_scope.
Local Open Scope py_scope.

(** A [for] loop whose body may raise: the state is threaded from left to
    right and the first exception leaves the loop. *)
Fixpoint foldM {A S : Type} (body : S -> A -> result S) (l : list A) (s : S)
  : result S :=
  match l with
  | [] => Ok s
  | a :: l' => s' <- body s a ;; foldM body l' s'
  end.

(** A generator expression consumed from left to right. *)
Fixpoint mapM {A B : Type} (f : A -> result B) (l : list A) : result (list B) :=
  match l with
  | [] => Ok []
  | a :: l' => b <- f a ;; bs <- mapM f l' ;; Ok (b :: bs)
  end.

(** ** Python built-ins *)

Module py.

(** [x / y] on floats. *)
Definition truediv (x y : R) : result R :=
  if Req_dec_T y 0 then Raise ZeroDivisionError else Ok (x / y).

(** [x ** n] for a float [x] and an int [n]. *)
Definition pow (x : R) (n : Z) : result R :=
  if (n <? 0)%Z then
    if Req_dec_T x 0 then Raise ZeroDivisionError else Ok (powerRZ x n)
  else Ok (powerRZ x n).

(** Half of the smallest positive binary64 number, [2 ^ -1075]: a result
    of that size or less is rounded to zero. *)
Definition underflow_limit : R := / 2 ^ 1075.

(** Rounding of an exact result as far as its sign goes: zero when the
    result underflows, itself otherwise. *)
Definition flush (x : R) : R :=
  if Rle_dec (Rabs x) underflow_limit then 0 else x.

(** [x * y] on floats, where the code tests the sign of the product. *)
Definition mul (x y : R) : R := flush (x * y).

(** [l[i]] for an index counted from zero. *)
Definition getitem {A : Type} (l : list A) (i : nat) : result A :=
  match nth_error l i with
  | Some a => Ok a
  | None => Raise IndexError
  end.

Fixpoint enumerate_from {A : Type} (start : nat) (l : list A) : list (nat * A) :=
  match l with
  | [] => []
  | a :: l' => (start, a) :: enumerate_from (S start) l'
  end.

Definition enumerate {A : Type} (l : list A) : list (nat * A) :=
  enumerate_from 0 l.

(** [zip] stops at the end of the shorter sequence. *)
Definition zip {A B : Type} (l : list A) (l' : list B) : list (A * B) :=
  combine l l'.

(** [max]: the first item, replaced by each later item that compares
    greater. *)
Definition max (l : list R) : result R :=
  match l with
  | [] => Raise ValueError
  | x :: l' =>
      Ok (fold_left (fun max_item item =>
                       if Rgt_dec item max_item then item else max_item) l' x)
  end.

(** [min]: the first item, replaced by each later item that compares
    smaller. *)
Definition min (l : list R) : result R :=
  match l with
  | [] => Raise ValueError
  | x :: l' =>
      Ok (fold_left (fun min_item item =>
                       if Rlt_dec item min_item then item else min_item) l' x)
  end.

End py.

(** ** NumPy scalars *)

Module np.

(** A value that went through [np.log]: a real, or NaN. *)
Inductive float64 : Type :=
| Fin (x : R)
| NaN.

Definition lift1 (f : R -> R) (a : float64) : float64 :=
  match a with
  | Fin x => Fin (f x)
  | NaN => NaN
  end.

Definition lift2 (f : R -> R -> R) (a b : float64) : float64 :=
  match a, b with
  | Fin x, Fin y => Fin (f x y)
  | _, _ => NaN
  end.

Definition add := lift2 Rplus.
Definition sub := lift2 Rminus.
Definition mul := lift2 Rmult.
Definition neg := lift1 Ropp.

(** [np.log]: a warning and NaN for a negative argument.  At zero NumPy
    gives minus infinity; the only caller divides by [2 * t ** 2] in the
    same expression and raises there, so that value never leaves it. *)
Definition log (x : R) : float64 :=
  if Rlt_dec 0 x then Fin (ln x) else NaN.

(** [np.exp]: the exponential, and 0.0 where it is too small for a
    positive binary64 number (an argument below about -745.13).  For an
    argument above about 709.78 NumPy gives inf; the model keeps the real
    value, which lies beyond every float as inf does. *)
Definition exp (a : float64) : float64 :=
  lift1 (fun x => py.flush (Rtrigo_def.exp x)) a.

(** [a / y], raising on a zero divisor as the Python floats of
    [calculate_rxn_k] do. *)
Definition truediv (a : float64) (y : R) : result float64 :=
  if Req_dec_T y 0 then Raise ZeroDivisionError
  else Ok (lift1 (fun x => x / y) a).

(** [np.isfinite] on a Python float.  The reals of the model stand for the
    finite floats and for what a float computation may overflow to, so the
    test is a parameter rather than the constant [true]. *)
Class predicates : Type := {
  isfinite : R -> bool
}.

End np.

Declare Scope np_scope.
Delimit Scope np_scope with np.
Notation "a + b" := (np.add a b) : np_scope.
Notation "a - b" := (np.sub a b) : np_scope.
Notation "a * b" := (np.mul a b) : np_scope.
Notation "- a" := (np.neg a) : np_scope.
Coercion np.Fin : R >-> np.float64.

(** ** component.py *)

Module component.

Record Component : Type := {
  name : string;
  order : Z;
  (** the Shomate coefficients [A, B, C, D, E] *)
  cp_coeffs : R * R * R * R * R
}.

Definition enthalpy_change (self : Component) (initial_temp final_temp : R)
  : result R :=
  let t_1 := initial_temp / 1000 in
  let t_2 := final_temp / 1000 in
  let '(A, B, C, D, E) := cp_coeffs self in
  e_1 <- py.truediv E t_1 ;;
  let term_1 := (A * t_1) + (B * t_1 ^ 2 / 2) + (C * t_1 ^ 3 / 3)
                + (D * t_1 ^ 4 / 4) - e_1 in
  e_2 <- py.truediv E t_2 ;;
  let term_2 := (A * t_2) + (B * t_2 ^ 2 / 2) + (C * t_2 ^ 3 / 3)
                + (D * t_2 ^ 4 / 4) - e_2 in
  Ok (term_2 - term_1).

Definition entropy_change (self : Component) (initial_temp final_temp : R)
  : result np.float64 :=
  let t_1 := initial_temp / 1000 in
  let t_2 := final_temp / 1000 in
  let '(A, B, C, D, E) := cp_coeffs self in
  let l_1 := (A * np.log t_1)%np in
  e_1 <- py.truediv E (2 * t_1 ^ 2) ;;
  let term_1 := (l_1 + (B * t_1)%R + (C * t_1 ^ 2 / 2)%R
                 + (D * t_1 ^ 3 / 3)%R - e_1)%np in
  let l_2 := (A * np.log t_2)%np in
  e_2 <- py.truediv E (2 * t_2 ^ 2) ;;
  let term_2 := (l_2 + (B * t_2)%R + (C * t_2 ^ 2 / 2)%R
                 + (D * t_2 ^ 3 / 3)%R - e_2)%np in
  Ok (term_2 - term_1)%np.

End component.

(** ** Collaborators outside the repository *)

Module constants.

(** The module [pyreactor/constants.py] is not part of the sources: its two
    constants, the gas constant [R] and the default reference temperature
    [STD_TEMP], are parameters. *)
Class values : Type := {
  R_gas : R;
  STD_TEMP : R
}.

End constants.

Module scipy.

(** The two fields of SciPy's [RootResults] that the code reads. *)
Record RootResults : Type := {
  root : R;
  converged : bool
}.

(** [root_scalar f a b] stands for
    [root_scalar(f, method="brentq", bracket=[a, b])]. *)
Class optimize : Type := {
  root_scalar : (R -> R) -> R -> R -> result RootResults
}.

(** Two end values that are both positive, or both negative. *)
Definition same_sign (x y : R) : Prop :=
  (0 < x /\ 0 < y) \/ (x < 0 /\ y < 0).

(** What [brentq] does with a bracket: it compares the signs of the two
    end values itself and raises [ValueError] when they are the same;
    otherwise it returns a result, and a converged root lies between the
    two ends. *)
Definition brentq `{optimize} : Prop :=
  forall (f : R -> R) (a b : R),
    (same_sign (f a) (f b) -> root_scalar f a b = Raise ValueError) /\
    (~ same_sign (f a) (f b) ->
     exists sol, root_scalar f a b = Ok sol /\
       (converged sol = true -> Rmin a b <= root sol <= Rmax a b)).

End scipy.

(** ** pyreactor/reaction.py *)

Module reaction.
Import component.

Record Reaction : Type := {
  reactants : list Component;
  products : list Component;
  rxn_std_dh : R;
  rxn_std_ds : R;
  eos : string;
  reac_temp : R
}.

Section Methods.
Context {consts : constants.values}.
Context {numpy_lib : np.predicates}.
Context {scipy_lib : scipy.optimize}.

(** Body of the loop over [self.reactants] in [calculate_rxn_gibbs]; the
    state is [(rxn_enthalpy, rxn_entropy)]. *)
Definition gibbs_reactant (self : Reaction) (std_temp : R)
    (acc : R * np.float64) (comp : Component) : result (R * np.float64) :=
  let '(rxn_enthalpy, rxn_entropy) := acc in
  dh <- enthalpy_change comp (reac_temp self) std_temp ;;
  let rxn_enthalpy := rxn_enthalpy + dh * IZR (order comp) in
  ds <- entropy_change comp (reac_temp self) std_temp ;;
  let rxn_entropy := (rxn_entropy + ds * IZR (order comp))%np in
  Ok (rxn_enthalpy, rxn_entropy).

(** Body of the loop over [self.products]. *)
Definition gibbs_product (self : Reaction) (std_temp : R)
    (acc : R * np.float64) (comp : Component) : result (R * np.float64) :=
  let '(rxn_enthalpy, rxn_entropy) := acc in
  dh <- enthalpy_change comp std_temp (reac_temp self) ;;
  let rxn_enthalpy := rxn_enthalpy + dh * IZR (order comp) in
  ds <- entropy_change comp std_temp (reac_temp self) ;;
  let rxn_entropy := (rxn_entropy + ds * IZR (order comp))%np in
  Ok (rxn_enthalpy, rxn_entropy).

Definition calculate_rxn_gibbs (self : Reaction) (std_temp : R)
  : result np.float64 :=
  let rxn_enthalpy := 0 in
  let rxn_entropy := np.Fin 0 in
  acc <- foldM (gibbs_reactant self std_temp) (reactants self)
               (rxn_enthalpy, rxn_entropy) ;;
  '(rxn_enthalpy, rxn_entropy) <-
    foldM (gibbs_product self std_temp) (products self) acc ;;
  let rxn_enthalpy := rxn_enthalpy + rxn_std_dh self in
  let rxn_entropy := (rxn_entropy + rxn_std_ds self)%np in
  Ok (rxn_enthalpy - reac_temp self * rxn_entropy)%np.

(** [std_temp] is left to its default, [STD_TEMP]. *)
Definition calculate_rxn_k (self : Reaction) : result np.float64 :=
  rxn_gibbs <- calculate_rxn_gibbs self constants.STD_TEMP ;;
  q <- np.truediv (- rxn_gibbs)%np (constants.R_gas * reac_temp self) ;;
  Ok (np.exp q).

(** Body of the loop over [enumerate(self.products)] in
    [reaction_equation]; the state is
    [(numerator, equil_prod, delta_mols)]. *)
Definition quotient_product (chi : R) (prod_init : list R)
    (acc : R * R * Z) (item : nat * Component) : result (R * R * Z) :=
  let '(numerator, equil_prod, delta_mols) := acc in
  let '(index, comp) := item in
  n0 <- py.getitem prod_init index ;;
  let prod_term := n0 + IZR (order comp) * chi in
  p <- py.pow prod_term (order comp) ;;
  Ok (numerator * p, equil_prod + prod_term, (delta_mols + order comp)%Z).

(** Body of the loop over [enumerate(self.reactants)]; the state is
    [(denominator, equil_reac, delta_mols)]. *)
Definition quotient_reactant (chi : R) (reac_init : list R)
    (acc : R * R * Z) (item : nat * Component) : result (R * R * Z) :=
  let '(denominator, equil_reac, delta_mols) := acc in
  let '(index, comp) := item in
  n0 <- py.getitem reac_init index ;;
  let reac_term := n0 - IZR (order comp) * chi in
  p <- py.pow reac_term (order comp) ;;
  Ok (denominator * p, equil_reac + reac_term, (delta_mols - order comp)%Z).

Definition reaction_equation (self : Reaction) (chi pressure : R)
    (reac_init prod_init : list R) : result R :=
  let numerator := 1 in
  let denominator := 1 in
  let equil_prod := 0 in
  let equil_reac := 0 in
  let delta_mols := 0%Z in
  '(numerator, equil_prod, delta_mols) <-
    foldM (quotient_product chi prod_init) (py.enumerate (products self))
          (numerator, equil_prod, delta_mols) ;;
  '(denominator, equil_reac, delta_mols) <-
    foldM (quotient_reactant chi reac_init) (py.enumerate (reactants self))
          (denominator, equil_reac, delta_mols) ;;
  total_mol_term <- py.pow (equil_prod + equil_reac) (- delta_mols) ;;
  pressure_term <- py.pow pressure delta_mols ;;
  q <- py.truediv numerator denominator ;;
  Ok (q * total_mol_term * pressure_term).

Definition epsilon : R := 1e-5.

(** The value [residual] returns in place of a non-finite or failed
    evaluation. *)
Definition penalty : R := 1e10.

(** [n0 / comp.order for comp, n0 in zip(comps, init)]. *)
Definition ratios (comps : list Component) (init : list R) : result (list R) :=
  mapM (fun '(comp, n0) => py.truediv n0 (IZR (order comp)))
       (py.zip comps init).

(** The first two assignments of [calculate_conversion] after [epsilon]:
    the pair [(chi_min, chi_max)]. *)
Definition bracket (self : Reaction) (reac_init prod_init : list R)
  : result (R * R) :=
  rs <- ratios (products self) prod_init ;;
  m <- py.max rs ;;
  let chi_min := - m + epsilon in
  rs <- ratios (reactants self) reac_init ;;
  m <- py.min rs ;;
  let chi_max := m - epsilon in
  Ok (chi_min, chi_max).

(** The closure [residual] of [calculate_conversion]: [except Exception]
    catches whatever [reaction_equation] raises. *)
Definition residual (self : Reaction) (pressure : R)
    (reac_init prod_init : list R) (k_eq : R) (chi : R) : R :=
  match reaction_equation self chi pressure reac_init prod_init with
  | Ok q =>
      let val := q - k_eq in
      if negb (np.isfinite val) then penalty else val
  | Raise _ => penalty
  end.

Definition calculate_conversion (self : Reaction) (pressure : R)
    (reac_init prod_init : list R) (k_eq : R) : result R :=
  '(chi_min, chi_max) <- bracket self reac_init prod_init ;;
  let residual := residual self pressure reac_init prod_init k_eq in
  let f_min := residual chi_min in
  let f_max := residual chi_max in
  if Rgt_dec (py.mul f_min f_max) 0 then
    Raise (RuntimeError (NoSignChange chi_min f_min chi_max f_max))
  else
    sol <- scipy.root_scalar residual chi_min chi_max ;;
    if scipy.converged sol then Ok (scipy.root sol)
    else Raise (RuntimeError NotConverged).

End Methods.

End reaction.

(** ** reaction.py, the top-level copy *)

Module legacy.
Import component reaction.

Section Methods.
Context {numpy_lib : np.predicates}.
Context {scipy_lib : scipy.optimize}.

Definition epsilon : R := 1e-5.

(** The first two assignments of this copy's [calculate_conversion]. *)
Definition bracket (self : Reaction) (reac_init prod_init : list R)
  : result (R * R) :=
  rs <- ratios (products self) prod_init ;;
  m <- py.max rs ;;
  let chi_min := - m - epsilon in
  rs <- ratios (reactants self) reac_init ;;
  m <- py.min rs ;;
  let chi_max := m + epsilon in
  Ok (chi_min, chi_max).

(** [reaction_equation] and the closure [residual] are, line for line,
    those of [pyreactor/reaction.py]. *)
Definition calculate_conversion (self : Reaction) (pressure : R)
    (reac_init prod_init : list R) (K : R) : result R :=
  '(chi_min, chi_max) <- bracket self reac_init prod_init ;;
  let residual := residual self pressure reac_init prod_init K in
  let f_min := residual chi_min in
  let f_max := residual chi_max in
  if Rgt_dec (py.mul f_min f_max) 0 then
    Raise (RuntimeError (NoSignChange chi_min f_min chi_max f_max))
  else
    sol <- scipy.root_scalar residual chi_min chi_max ;;
    if scipy.converged sol then Ok (scipy.root sol)
    else Raise (RuntimeError NotConverged).

End Methods.

End legacy.

(** ** Vocabulary of the specification *)

Module spec.
Import component reaction.

(** [n0 / comp.order] for one pair of [zip(comps, init)]. *)
Definition ratio (item : Component * R) : R :=
  let '(comp, n0) := item in n0 / IZR (order comp).

(** [q] is [init[j] / order_j] for some position [j] of the species list. *)
Definition ratio_of (comps : list Component) (init : list R) (q : R) : Prop :=
  exists (j : nat) (comp : Component) (n0 : R),
    nth_error comps j = Some comp /\ nth_error init j = Some n0 /\
    q = n0 / IZR (order comp).

Definition is_minimum (P : R -> Prop) (m : R) : Prop :=
  P m /\ forall q, P q -> m <= q.

Definition is_maximum (P : R -> Prop) (m : R) : Prop :=
  P m /\ forall q, P q -> q <= m.

Definition Rprod (l : list R) : R := fold_right Rmult 1 l.
Definition Rsum (l : list R) : R := fold_right Rplus 0 l.
Definition Zsum (l : list Z) : Z := fold_right Z.add 0%Z l.

(** Current moles at extent [chi] of the product, or of the reactant, of
    a pair (species, initial moles). *)
Definition product_moles (chi : R) (item : Component * R) : R :=
  snd item + IZR (order (fst item)) * chi.

Definition reactant_moles (chi : R) (item : Component * R) : R :=
  snd item - IZR (order (fst item)) * chi.

(** The product over products [i] of
    [(prod_init[i] + order_i * chi) ^ order_i]. *)
Definition numerator (self : Reaction) (chi : R) (prod_init : list R) : R :=
  Rprod (map (fun item => powerRZ (product_moles chi item) (order (fst item)))
             (combine (products self) prod_init)).

(** The product over reactants [j] of
    [(reac_init[j] - order_j * chi) ^ order_j]. *)
Definition denominator (self : Reaction) (chi : R) (reac_init : list R) : R :=
  Rprod (map (fun item => powerRZ (reactant_moles chi item) (order (fst item)))
             (combine (reactants self) reac_init)).

Definition net_mole_change (self : Reaction) : Z :=
  Zsum (map order (products self)) - Zsum (map order (reactants self)).

Definition total_moles (self : Reaction) (chi : R)
    (reac_init prod_init : list R) : R :=
  Rsum (map (product_moles chi) (combine (products self) prod_init))
  + Rsum (map (reactant_moles chi) (combine (reactants self) reac_init)).

(** The reaction quotient of section 4.3. *)
Definition Q (self : Reaction) (chi pressure : R)
    (reac_init prod_init : list R) : R :=
  numerator self chi prod_init / denominator self chi reac_init
  * powerRZ (total_moles self chi reac_init prod_init) (- net_mole_change self)
  * powerRZ pressure (net_mole_change self).

(** Where that expression has a value: no zero is raised to a negative
    power and the denominator is not zero. *)
Definition pow_defined (x : R) (n : Z) : Prop := (n < 0)%Z -> x <> 0.

Definition Q_defined (self : Reaction) (chi pressure : R)
    (reac_init prod_init : list R) : Prop :=
  Forall (fun item => pow_defined (product_moles chi item) (order (fst item)))
         (combine (products self) prod_init) /\
  Forall (fun item => pow_defined (reactant_moles chi item) (order (fst item)))
         (combine (reactants self) reac_init) /\
  pow_defined (total_moles self chi reac_init prod_init)
              (- net_mole_change self) /\
  pow_defined pressure (net_mole_change self) /\
  denominator self chi reac_init <> 0.

(** The invariant of the data model on a species list: no order is zero
    (the spec asks for strictly positive orders). *)
Definition orders_nonzero (comps : list Component) : Prop :=
  Forall (fun comp => order comp <> 0%Z) comps.

End spec.

(** ** Sample data *)

(** The Haber process of [example.py] and [main.py]. *)
Module example.
Import component reaction.

Definition N2_COEFFS : R * R * R * R * R :=
  (19.50583, 19.88705, -8.598535, 1.369784, 0.527601).
Definition H2_COEFFS : R * R * R * R * R :=
  (33.066178, -11.363417, 11.432816, -2.772874, -0.158558).
Definition NH3_COEFFS : R * R * R * R * R :=
  (19.99563, 49.77119, -15.37599, 1.921168, 0.189174).

Definition ammonia : Component :=
  {| name := "NH3"; order := 2; cp_coeffs := NH3_COEFFS |}.
Definition hydrogen : Component :=
  {| name := "H2"; order := 3; cp_coeffs := H2_COEFFS |}.
Definition nitrogen : Component :=
  {| name := "N2"; order := 1; cp_coeffs := N2_COEFFS |}.

Definition haber_process : Reaction :=
  {| reactants := [nitrogen; hydrogen]; products := [ammonia];
     rxn_std_dh := -92000; rxn_std_ds := -199; eos := "ideal";
     reac_temp := 500 |}.

(** The same reaction at the reference temperature. *)
Definition haber_at_std : Reaction :=
  {| reactants := [nitrogen; hydrogen]; products := [ammonia];
     rxn_std_dh := -92000; rxn_std_ds := -199; eos := "ideal";
     reac_temp := 298.15 |}.

(** The same reaction under another equation-of-state tag. *)
Definition haber_process_vdw : Reaction :=
  {| reactants := [nitrogen; hydrogen]; products := [ammonia];
     rxn_std_dh := -92000; rxn_std_ds := -199; eos := "van der Waals";
     reac_temp := 500 |}.

(** A reaction without products, and one without reactants. *)
Definition no_products : Reaction :=
  {| reactants := [nitrogen; hydrogen]; products := [];
     rxn_std_dh := 0; rxn_std_ds := 0; eos := "ideal"; reac_temp := 500 |}.

(** A dissociation A <-> 2 B without heat capacities. *)
Definition species_A : Component :=
  {| name := "A"; order := 1; cp_coeffs := (0, 0, 0, 0, 0) |}.
Definition species_B : Component :=
  {| name := "B"; order := 2; cp_coeffs := (0, 0, 0, 0, 0) |}.
Definition dissociation : Reaction :=
  {| reactants := [species_A]; products := [species_B];
     rxn_std_dh := 0; rxn_std_ds := 0; eos := "ideal"; reac_temp := 298.15 |}.

(** Values for the constants: R in J/(mol K), the reference temperature
    of the spec. *)
Definition si_constants : constants.values :=
  {| constants.R_gas := 8.314; constants.STD_TEMP := 298.15 |}.

(** A finiteness test on the reals: within the range of binary64. *)
Definition binary64_range : np.predicates :=
  {| np.isfinite := fun x =>
       if Rle_dec (Rabs x) 1.7976931348623157e308 then true else false |}.

(** A bracketing solver to run the code with: [n] halvings of the
    bracket, keeping the half on which the sign changes. *)
Fixpoint bisect (n : nat) (f : R -> R) (a b : R) : R :=
  match n with
  | O => a
  | S n' =>
      let mid := (a + b) / 2 in
      if Rle_dec (f a * f mid) 0 then bisect n' f a mid
      else bisect n' f mid b
  end.

Arguments bisect : simpl never.

Definition bisection : scipy.optimize :=
  {| scipy.root_scalar := fun f a b =>
       Ok {| scipy.root := bisect 60 f a b; scipy.converged := true |} |}.

(** The same halvings behind the sign test of [brentq]. *)
Definition checked_bisection : scipy.optimize :=
  {| scipy.root_scalar := fun f a b =>
       if Rlt_dec 0 (f a * f b) then Raise ValueError
       else Ok {| scipy.root := bisect 60 f a b; scipy.converged := true |} |}.

(** A solver that always reports non-convergence. *)
Definition stalled : scipy.optimize :=
  {| scipy.root_scalar := fun f a b =>
       Ok {| scipy.root := a; scipy.converged := false |} |}.

End example.

(** ** reaction.py, the top-level copy: the equilibrium constant *)

Module toplevel.
Import component reaction.

Section Methods.
Context {consts : constants.values}.

(** [calculate_rxn_k(self, rxn_gibbs)] of the top-level copy, called
    with a Python float: the free energy is an argument here, not
    recomputed.  The result of [np.exp] is 0.0 on underflow, as in
    [np.exp] above. *)
Definition calculate_rxn_k (self : Reaction) (rxn_gibbs : R) : result R :=
  q <- py.truediv (- rxn_gibbs) (constants.R_gas * reac_temp self) ;;
  Ok (py.flush (exp q)).

End Methods.

End toplevel.

(** ** Vocabulary for relations between calls *)

Module relate.
Import component reaction.

(** The Shomate enthalpy and entropy polynomials in the scaled
    temperature [t = T / 1000], as [enthalpy_change] and [entropy_change]
    write them. *)
Definition shomate_H (comp : Component) (t : R) : R :=
  let '(A, B, C, D, E) := cp_coeffs comp in
  (A * t) + (B * t ^ 2 / 2) + (C * t ^ 3 / 3) + (D * t ^ 4 / 4) - E / t.

Definition shomate_S (comp : Component) (t : R) : R :=
  let '(A, B, C, D, E) := cp_coeffs comp in
  A * ln t + (B * t) + (C * t ^ 2 / 2) + (D * t ^ 3 / 3) - E / (2 * t ^ 2).

(** Change of a species' enthalpy, or entropy, from [std_temp] to [T],
    weighted by its order. *)
Definition heating_H (std_temp T : R) (comp : Component) : R :=
  IZR (order comp)
  * (shomate_H comp (T / 1000) - shomate_H comp (std_temp / 1000)).

Definition heating_S (std_temp T : R) (comp : Component) : R :=
  IZR (order comp)
  * (shomate_S comp (T / 1000) - shomate_S comp (std_temp / 1000)).

(** Products minus reactants, added to the standard values. *)
Definition total_dH (self : Reaction) (std_temp : R) : R :=
  rxn_std_dh self
  + spec.Rsum (map (heating_H std_temp (reac_temp self)) (products self))
  - spec.Rsum (map (heating_H std_temp (reac_temp self)) (reactants self)).

Definition total_dS (self : Reaction) (std_temp : R) : R :=
  rxn_std_ds self
  + spec.Rsum (map (heating_S std_temp (reac_temp self)) (products self))
  - spec.Rsum (map (heating_S std_temp (reac_temp self)) (reactants self)).

(** The largest binary64 number. *)
Definition max_float : R := 1.7976931348623157e308.

(** An exponent [x] for which neither [exp x] nor [exp (- x)] leaves the
    range of binary64 (up to about 709.78 in absolute value). *)
Definition exp_in_range (x : R) : Prop := exp (Rabs x) <= max_float.

(** A temperature of ordinary size: its scaled square does not underflow
    and its scaled fourth power does not overflow in binary64. *)
Definition ordinary (T : R) : Prop := 1e-150 <= Rabs T <= 1e70.

(** The reaction read from right to left. *)
Definition reverse (self : Reaction) : Reaction :=
  {| reactants := products self; products := reactants self;
     rxn_std_dh := - rxn_std_dh self; rxn_std_ds := - rxn_std_ds self;
     eos := eos self; reac_temp := reac_temp self |}.

(** Every amount of a list multiplied by [k]. *)
Definition scale (k : R) (init : list R) : list R := map (Rmult k) init.

(** A pair of [zip(comps, init)] whose species has order zero. *)
Definition zero_order (item : Component * R) : Prop :=
  order (fst item) = 0%Z.

Definition orders_positive (comps : list Component) : Prop :=
  Forall (fun comp => (0 < order comp)%Z) comps.

(** Every current amount of the mixture at extent [chi] is positive. *)
Definition amounts_positive (self : Reaction) (chi : R)
    (reac_init prod_init : list R) : Prop :=
  Forall (fun item => 0 < spec.product_moles chi item)
         (combine (products self) prod_init) /\
  Forall (fun item => 0 < spec.reactant_moles chi item)
         (combine (reactants self) reac_init).

End relate.

(** ** More sample data *)

Module sample.
Import component reaction.

(** Water-gas shift, CO + H2O <-> CO2 + H2: as many moles on each side. *)
Definition carbon_monoxide : Component :=
  {| name := "CO"; order := 1; cp_coeffs := (25.56759, 6.09613, 4.054656, -2.671301, 0.131021) |}.
Definition water : Component :=
  {| name := "H2O"; order := 1; cp_coeffs := (30.092, 6.832514, 6.793435, -2.53448, 0.082139) |}.
Definition carbon_dioxide : Component :=
  {| name := "CO2"; order := 1; cp_coeffs := (24.99735, 55.18696, -33.69137, 7.948387, -0.136638) |}.
Definition hydrogen : Component :=
  {| name := "H2"; order := 1; cp_coeffs := example.H2_COEFFS |}.
Definition water_gas_shift : Reaction :=
  {| reactants := [carbon_monoxide; water];
     products := [carbon_dioxide; hydrogen];
     rxn_std_dh := -41000; rxn_std_ds := -42; eos := "ideal";
     reac_temp := 600 |}.

(** The Haber process at absolute zero, and below it. *)
Definition haber_at_zero : Reaction :=
  {| reactants := [example.nitrogen; example.hydrogen];
     products := [example.ammonia];
     rxn_std_dh := -92000; rxn_std_ds := -199; eos := "ideal";
     reac_temp := 0 |}.
Definition haber_below_zero : Reaction :=
  {| reactants := [example.nitrogen; example.hydrogen];
     products := [example.ammonia];
     rxn_std_dh := -92000; rxn_std_ds := -199; eos := "ideal";
     reac_temp := -100 |}.

(** An isomerisation A <-> B with unit orders. *)
Definition isomer_A : Component :=
  {| name := "A"; order := 1; cp_coeffs := (0, 0, 0, 0, 0) |}.
Definition isomer_B : Component :=
  {| name := "B"; order := 1; cp_coeffs := (0, 0, 0, 0, 0) |}.
Definition isomerisation : Reaction :=
  {| reactants := [isomer_A]; products := [isomer_B];
     rxn_std_dh := 0; rxn_std_ds := 0; eos := "ideal"; reac_temp := 298.15 |}.

(** An endothermic reaction, 1 MJ/mol, in the cold. *)
Definition endothermic : Reaction :=
  {| reactants := [isomer_A]; products := [isomer_B];
     rxn_std_dh := 1e6; rxn_std_ds := 0; eos := "ideal"; reac_temp := 100 |}.

(** A species whose order is zero. *)
Definition inert : Component :=
  {| name := "Ar"; order := 0; cp_coeffs := (20.786, 0, 0, 0, 0) |}.

End sample.
(** ** Underflow *)

Lemma underflow_limit_pos : 0 < py.underflow_limit.
Proof.
  unfold py.underflow_limit. apply Rinv_0_lt_compat. apply pow_lt. lra.
Qed.

Lemma underflow_limit_lt_1 : py.underflow_limit < 1.
Proof.
  unfold py.underflow_limit. rewrite <- Rinv_1.
  apply Rinv_lt_contravar.
  - rewrite Rmult_1_l. apply pow_lt. lra.
  - apply Rlt_pow_R1; [lra | lia].
Qed.

Lemma flush_above (x : R) : py.underflow_limit < x -> py.flush x = x.
Proof.
  intros H. unfold py.flush.
  destruct (Rle_dec (Rabs x) py.underflow_limit) as [Hle|_]; [|reflexivity].
  exfalso. pose proof (Rle_abs x). lra.
Qed.

Lemma flush_below (x : R) : Rabs x <= py.underflow_limit -> py.flush x = 0.
Proof.
  intros H. unfold py.flush.
  destruct (Rle_dec (Rabs x) py.underflow_limit); [reflexivity | contradiction].
Qed.

(** The flushed value is positive exactly when the exact one is above the
    limit. *)
Lemma flush_positive (x : R) : py.flush x > 0 <-> py.underflow_limit < x.
Proof.
  pose proof underflow_limit_pos as Hpos. split.
  - unfold py.flush.
    destruct (Rle_dec (Rabs x) py.underflow_limit) as [Hle|Hgt]; [lra|].
    intros Hx. rewrite Rabs_right in Hgt by lra. lra.
  - intros H. rewrite flush_above by assumption. lra.
Qed.

Lemma flush_nonpositive (x : R) : x <= 0 -> ~ py.flush x > 0.
Proof.
  intros Hx H. apply flush_positive in H.
  pose proof underflow_limit_pos. lra.
Qed.

Lemma flush_bounds (x : R) : 0 <= x -> 0 <= py.flush x <= x.
Proof.
  intros Hx. unfold py.flush.
  destruct (Rle_dec (Rabs x) py.underflow_limit); lra.
Qed.

Lemma mul_positive (x y : R) :
  py.mul x y > 0 <-> py.underflow_limit < x * y.
Proof. apply flush_positive. Qed.

Lemma same_sign_product (x y : R) : scipy.same_sign x y <-> 0 < x * y.
Proof.
  unfold scipy.same_sign. split.
  - intros [[Hx Hy] | [Hx Hy]]; nra.
  - intros H. destruct (Rtotal_order x 0) as [Hx | [-> | Hx]].
    + right. split; [assumption|].
      destruct (Rlt_dec y 0) as [Hy|Hy]; [assumption | exfalso; nra].
    + exfalso. lra.
    + left. split; [assumption|].
      destruct (Rlt_dec 0 y) as [Hy|Hy]; [assumption | exfalso; nra].
Qed.


Lemma flush_exp (x : R) :
  (py.underflow_limit < exp x -> py.flush (exp x) = exp x) /\
  (exp x <= py.underflow_limit -> py.flush (exp x) = 0).
Proof.
  split; [apply flush_above|].
  intros H. apply flush_below. rewrite Rabs_right; [exact H|].
  left. apply exp_pos.
Qed.

(** [2 ^ n <= exp n]: the exponential of 1 is above 2. *)
Lemma pow2_le_exp (n : nat) : 2 ^ n <= exp (INR n).
Proof.
  induction n as [|n IH].
  - simpl. rewrite exp_0. lra.
  - rewrite S_INR, exp_plus. change (2 ^ S n) with (2 * 2 ^ n).
    pose proof (exp_ineq1 1 ltac:(lra)) as He.
    assert (0 < 2 ^ n) by (apply pow_lt; lra).
    rewrite (Rmult_comm 2). apply Rmult_le_compat; lra.
Qed.

(** Below -1075 the exponential underflows (it already does below about
    -745.13). *)
Lemma exp_underflows (x : R) : x <= -1075 -> exp x <= py.underflow_limit.
Proof.
  intros Hx. unfold py.underflow_limit.
  assert (Hn : INR 1075 = 1075) by (rewrite INR_IZR_INZ; reflexivity).
  apply Rle_trans with (exp (- INR 1075)).
  - destruct (Req_dec_T x (- INR 1075)) as [-> | Hne]; [lra|].
    left. apply exp_increasing. lra.
  - rewrite exp_Ropp. apply Rinv_le_contravar; [apply pow_lt; lra|].
    apply pow2_le_exp.
Qed.

Lemma max_float_lt_pow2 : relate.max_float < 2 ^ 1075.
Proof.
  unfold relate.max_float.
  replace (2 ^ 1075) with (IZR (Z.pow_pos 2 1075)).
  - lra.
  - rewrite pow_IZR. reflexivity.
Qed.

(** Within the range neither the exponential nor its inverse underflows. *)
Lemma exp_in_range_above (x : R) :
  relate.exp_in_range x ->
  py.underflow_limit < exp x /\ py.underflow_limit < exp (- x).
Proof.
  unfold relate.exp_in_range. intros H.
  assert (Hlim : py.underflow_limit < exp (- Rabs x)).
  { unfold py.underflow_limit. rewrite exp_Ropp.
    apply Rinv_lt_contravar.
    - apply Rmult_lt_0_compat; [apply exp_pos | apply pow_lt; lra].
    - pose proof max_float_lt_pow2. lra. }
  assert (Hmono : forall y, - Rabs x <= y -> exp (- Rabs x) <= exp y).
  { intros y [Hy | <-]; [left; apply exp_increasing; exact Hy | lra]. }
  pose proof (Rle_abs x) as H1. pose proof (Rle_abs (- x)) as H2.
  rewrite Rabs_Ropp in H2.
  split; eapply Rlt_le_trans; try exact Hlim; apply Hmono; lra.
Qed.

(** * Properties *)

Import component reaction.
Local Open Scope py_scope.

(** ** The monad *)

Lemma bind_Ok {A B : Type} (m : result A) (k : A -> result B) (a : A) :
  m = Ok a -> bind m k = k a.
Proof. intros ->. reflexivity. Qed.

Lemma bind_Raise {A B : Type} (m : result A) (k : A -> result B) (e : exn) :
  m = Raise e -> bind m k = Raise e.
Proof. intros ->. reflexivity. Qed.

(** ** [max] and [min] *)

Lemma fold_max_spec (l : list R) (a : R) :
  let r := fold_left (fun max_item item =>
                        if Rgt_dec item max_item then item else max_item) l a in
  (r = a \/ In r l) /\ a <= r /\ forall x, In x l -> x <= r.
Proof.
  revert a. induction l as [|y l IH]; intros a; simpl.
  - repeat split; auto; try lra. intros x [].
  - destruct (Rgt_dec y a) as [Hgt|Hle].
    + destruct (IH y) as (Hin & Hge & Hall). repeat split.
      * destruct Hin as [-> | Hin]; auto.
      * lra.
      * intros x [<- | Hx]; auto.
    + destruct (IH a) as (Hin & Hge & Hall). repeat split.
      * destruct Hin as [-> | Hin]; auto.
      * lra.
      * intros x [<- | Hx]; auto. lra.
Qed.

Lemma fold_min_spec (l : list R) (a : R) :
  let r := fold_left (fun min_item item =>
                        if Rlt_dec item min_item then item else min_item) l a in
  (r = a \/ In r l) /\ r <= a /\ forall x, In x l -> r <= x.
Proof.
  revert a. induction l as [|y l IH]; intros a; simpl.
  - repeat split; auto; try lra. intros x [].
  - destruct (Rlt_dec y a) as [Hlt|Hge].
    + destruct (IH y) as (Hin & Hle & Hall). repeat split.
      * destruct Hin as [-> | Hin]; auto.
      * lra.
      * intros x [<- | Hx]; auto.
    + destruct (IH a) as (Hin & Hle & Hall). repeat split.
      * destruct Hin as [-> | Hin]; auto.
      * lra.
      * intros x [<- | Hx]; auto. lra.
Qed.

Lemma py_max_spec (l : list R) :
  l <> [] -> exists m, py.max l = Ok m /\ In m l /\ forall x, In x l -> x <= m.
Proof.
  destruct l as [|a l]; [congruence|]. intros _.
  destruct (fold_max_spec l a) as (Hin & Hge & Hall).
  eexists. split; [reflexivity|]. split.
  - destruct Hin as [-> | Hin]; [left; reflexivity | right; exact Hin].
  - intros x [<- | Hx]; auto.
Qed.

Lemma py_min_spec (l : list R) :
  l <> [] -> exists m, py.min l = Ok m /\ In m l /\ forall x, In x l -> m <= x.
Proof.
  destruct l as [|a l]; [congruence|]. intros _.
  destruct (fold_min_spec l a) as (Hin & Hle & Hall).
  eexists. split; [reflexivity|]. split.
  - destruct Hin as [-> | Hin]; [left; reflexivity | right; exact Hin].
  - intros x [<- | Hx]; auto.
Qed.

(** ** The ratios [n0 / comp.order] *)

Lemma ratios_Ok (comps : list Component) (init : list R) :
  spec.orders_nonzero comps ->
  ratios comps init = Ok (map spec.ratio (combine comps init)).
Proof.
  unfold ratios, py.zip. revert init.
  induction comps as [|c comps IH]; intros init Hnz; [reflexivity|].
  destruct init as [|n0 init]; [reflexivity|].
  inversion Hnz as [|? ? Hc Hrest]; subst. simpl.
  unfold py.truediv at 1.
  destruct (Req_dec_T (IZR (order c)) 0) as [Hz|_].
  - apply eq_IZR_R0 in Hz. contradiction.
  - simpl. rewrite (IH init Hrest). reflexivity.
Qed.

Lemma ratio_of_iff (comps : list Component) (init : list R) (q : R) :
  In q (map spec.ratio (combine comps init)) <-> spec.ratio_of comps init q.
Proof.
  unfold spec.ratio_of. revert init.
  induction comps as [|c comps IH]; intros init; simpl.
  - split; [intros [] | intros ([|j] & comp & n0 & H & _); discriminate].
  - destruct init as [|n init]; simpl.
    + split; [intros [] |].
      intros (j & comp & n0 & _ & H & _). destruct j; discriminate.
    + split.
      * intros [<- | Hin].
        -- exists 0%nat, c, n. auto.
        -- apply IH in Hin. destruct Hin as (j & comp & n0 & H1 & H2 & H3).
           exists (S j), comp, n0. auto.
      * intros ([|j] & comp & n0 & H1 & H2 & H3); simpl in *.
        -- left. congruence.
        -- right. apply IH. exists j, comp, n0. auto.
Qed.

(** What both copies of the bracket computation start from: the largest
    product ratio and the smallest reactant ratio. *)
Lemma extremal_ratios (comps : list Component) (init : list R) :
  comps <> [] -> List.length init = List.length comps -> spec.orders_nonzero comps ->
  exists rs, ratios comps init = Ok rs /\
    (exists M, py.max rs = Ok M /\ spec.is_maximum (spec.ratio_of comps init) M) /\
    (exists m, py.min rs = Ok m /\ spec.is_minimum (spec.ratio_of comps init) m).
Proof.
  intros Hne Hlen Hnz. exists (map spec.ratio (combine comps init)).
  split; [apply ratios_Ok; assumption|].
  assert (Hrs : map spec.ratio (combine comps init) <> []).
  { destruct comps, init; simpl in *; congruence. }
  split.
  - destruct (py_max_spec _ Hrs) as (M & HM & Hin & Hall). exists M.
    split; [assumption|]. split.
    + apply ratio_of_iff. assumption.
    + intros q Hq. apply Hall, ratio_of_iff. assumption.
  - destruct (py_min_spec _ Hrs) as (m & Hm & Hin & Hall). exists m.
    split; [assumption|]. split.
    + apply ratio_of_iff. assumption.
    + intros q Hq. apply Hall, ratio_of_iff. assumption.
Qed.

Lemma ratios_Raise (comps : list Component) (init : list R) (e : exn) :
  ratios comps init = Raise e -> e = ZeroDivisionError.
Proof.
  unfold ratios, py.zip. revert init.
  induction comps as [|c comps IH]; intros init; [discriminate|].
  destruct init as [|n0 init]; [discriminate|]. simpl.
  unfold py.truediv at 1.
  destruct (Req_dec_T (IZR (order c)) 0) as [_|_]; simpl; [congruence|].
  destruct (mapM _ (combine comps init)) eqn:Hrest; simpl; [discriminate|].
  intros [= <-]. apply (IH init). exact Hrest.
Qed.

Lemma py_max_Raise (l : list R) (e : exn) : py.max l = Raise e -> e = ValueError.
Proof. destruct l; simpl; congruence. Qed.

Lemma py_min_Raise (l : list R) (e : exn) : py.min l = Raise e -> e = ValueError.
Proof. destruct l; simpl; congruence. Qed.

(** ** The search bracket *)

(** C1.  For a reaction with at least one reactant and one product, initial
    moles matching the species position by position and no zero order, the
    bracket of [calculate_conversion] is
    [chi_min = -(max_i prod_init[i] / order_i) + epsilon] and
    [chi_max = (min_j reac_init[j] / order_j) - epsilon] with
    [epsilon = 1e-5]: each end lies strictly inside the interval without the
    margin. *)
Theorem bracket_margins (self : Reaction) (reac_init prod_init : list R) :
  reactants self <> [] -> products self <> [] ->
  List.length reac_init = List.length (reactants self) ->
  List.length prod_init = List.length (products self) ->
  spec.orders_nonzero (reactants self) -> spec.orders_nonzero (products self) ->
  exists pmax rmin : R,
    spec.is_maximum (spec.ratio_of (products self) prod_init) pmax /\
    spec.is_minimum (spec.ratio_of (reactants self) reac_init) rmin /\
    bracket self reac_init prod_init = Ok (- pmax + epsilon, rmin - epsilon) /\
    epsilon = 1e-5 /\
    - pmax < - pmax + epsilon /\ rmin - epsilon < rmin.
Proof.
  intros Hr Hp Hlr Hlp Hzr Hzp.
  destruct (extremal_ratios _ _ Hp Hlp Hzp) as (ps & Hps & (hi & Hmax & Hhi) & _).
  destruct (extremal_ratios _ _ Hr Hlr Hzr) as (rs & Hrs & _ & (lo & Hmin & Hlo)).
  exists hi, lo. repeat split; try apply Hhi; try apply Hlo.
  - unfold bracket. rewrite Hps. simpl. rewrite Hmax. simpl.
    rewrite Hrs. simpl. rewrite Hmin. reflexivity.
  - unfold epsilon. lra.
  - unfold epsilon. lra.
Qed.

Lemma bracket_margins_witness :
  exists pmax rmin : R,
    spec.is_maximum
      (spec.ratio_of (products example.haber_process) [0]) pmax /\
    spec.is_minimum
      (spec.ratio_of (reactants example.haber_process) [100; 300]) rmin /\
    bracket example.haber_process [100; 300] [0]
      = Ok (- pmax + epsilon, rmin - epsilon) /\
    epsilon = 1e-5 /\
    - pmax < - pmax + epsilon /\ rmin - epsilon < rmin.
Proof.
  apply (bracket_margins example.haber_process [100; 300] [0]);
    simpl; try discriminate; try reflexivity;
    repeat constructor; simpl; discriminate.
Defined.

(** The bracket on the Haber process of [example.py]: N2 limits the
    reaction at 100 mol. *)
Example bracket_haber :
  bracket example.haber_process [100; 300] [0]
  = Ok (- (0 / 2) + 1e-5, 100 / 1 - 1e-5).
Proof.
  unfold bracket, ratios, py.zip, py.truediv. simpl.
  repeat match goal with
         | |- context [Req_dec_T ?x ?y] => destruct (Req_dec_T x y); [lra|]; simpl
         end.
  destruct (Rlt_dec (300 / 3) (100 / 1)); [lra|]. reflexivity.
Qed.

(** C9.  On the same species and initial moles (non-empty, matching, no zero
    order) the two copies of [calculate_conversion] compute brackets that
    differ in the sign of the margin only: the top-level copy's [chi_min] is
    [2 * epsilon] below and its [chi_max] is [2 * epsilon] above those of
    [pyreactor/reaction.py]; the former lie outside, the latter inside, the
    interval without margin; [epsilon] is [1e-5] in both. *)
Theorem legacy_bracket_wider (self : Reaction) (reac_init prod_init : list R) :
  reactants self <> [] -> products self <> [] ->
  List.length reac_init = List.length (reactants self) ->
  List.length prod_init = List.length (products self) ->
  spec.orders_nonzero (reactants self) -> spec.orders_nonzero (products self) ->
  exists chi_min chi_max pmax rmin : R,
    bracket self reac_init prod_init = Ok (chi_min, chi_max) /\
    legacy.bracket self reac_init prod_init
      = Ok (chi_min - 2 * epsilon, chi_max + 2 * epsilon) /\
    spec.is_maximum (spec.ratio_of (products self) prod_init) pmax /\
    spec.is_minimum (spec.ratio_of (reactants self) reac_init) rmin /\
    chi_min - 2 * epsilon < - pmax < chi_min /\
    chi_max < rmin < chi_max + 2 * epsilon /\
    epsilon = 1e-5 /\ legacy.epsilon = 1e-5.
Proof.
  intros Hr Hp Hlr Hlp Hzr Hzp.
  destruct (extremal_ratios _ _ Hp Hlp Hzp) as (ps & Hps & (pmax & Hmax & Hpmax) & _).
  destruct (extremal_ratios _ _ Hr Hlr Hzr) as (rs & Hrs & _ & (rmin & Hmin & Hrmin)).
  exists (- pmax + epsilon), (rmin - epsilon), pmax, rmin.
  unfold bracket, legacy.bracket.
  rewrite Hps, Hrs. simpl. rewrite Hmax, Hmin. simpl.
  unfold epsilon, legacy.epsilon.
  repeat split; try assumption; try lra; try apply Hpmax; try apply Hrmin.
  f_equal. f_equal; lra.
Qed.

Lemma legacy_bracket_wider_witness :
  exists chi_min chi_max pmax rmin : R,
    bracket example.haber_process [100; 300] [0] = Ok (chi_min, chi_max) /\
    legacy.bracket example.haber_process [100; 300] [0]
      = Ok (chi_min - 2 * epsilon, chi_max + 2 * epsilon) /\
    spec.is_maximum
      (spec.ratio_of (products example.haber_process) [0]) pmax /\
    spec.is_minimum
      (spec.ratio_of (reactants example.haber_process) [100; 300]) rmin /\
    chi_min - 2 * epsilon < - pmax < chi_min /\
    chi_max < rmin < chi_max + 2 * epsilon /\
    epsilon = 1e-5 /\ legacy.epsilon = 1e-5.
Proof.
  apply (legacy_bracket_wider example.haber_process [100; 300] [0]);
    simpl; try discriminate; try reflexivity;
    repeat constructor; simpl; discriminate.
Defined.

(** ** Empty species lists *)

Section EmptySpecies.
Context {numpy_lib : np.predicates} {scipy_lib : scipy.optimize}.

(** C10.  When the list of products or the list of reactants is empty,
    [calculate_conversion] raises while it computes the bracket, whatever
    [np.isfinite] and the root finder are: the exception is that of the
    bracket computation ([ValueError] from [max] or [min] of an empty
    sequence, unless a zero order raised [ZeroDivisionError] first). *)
Theorem empty_species_list_raises (self : Reaction) (pressure : R)
    (reac_init prod_init : list R) (k_eq : R) :
  products self = [] \/ reactants self = [] ->
  exists e : exn,
    bracket self reac_init prod_init = Raise e /\
    calculate_conversion self pressure reac_init prod_init k_eq = Raise e /\
    (e = ValueError \/ e = ZeroDivisionError) /\
    (spec.orders_nonzero (products self) -> e = ValueError).
Proof.
  intros Hempty.
  assert (Hb : exists e, bracket self reac_init prod_init = Raise e /\
                 (e = ValueError \/ e = ZeroDivisionError) /\
                 (spec.orders_nonzero (products self) -> e = ValueError)).
  { unfold bracket. destruct Hempty as [Hp | Hr].
    - rewrite Hp. simpl. exists ValueError. auto.
    - destruct (ratios (products self) prod_init) as [ps|e] eqn:Hps; simpl.
      + destruct (py.max ps) as [m|e] eqn:Hmax; simpl.
        * rewrite Hr. simpl. exists ValueError. auto.
        * apply py_max_Raise in Hmax. subst e. exists ValueError. auto.
      + exists e. split; [reflexivity|].
        pose proof (ratios_Raise _ _ _ Hps) as ->. split; [auto|].
        intros Hnz. rewrite (ratios_Ok _ _ Hnz) in Hps. discriminate. }
  destruct Hb as (e & Hb & He). exists e. split; [exact Hb|]. split; [|exact He].
  unfold calculate_conversion. rewrite Hb. reflexivity.
Qed.

End EmptySpecies.

Lemma empty_species_list_raises_witness :
  exists e : exn,
    bracket example.no_products [100; 300] [] = Raise e /\
    @calculate_conversion example.binary64_range example.bisection
      example.no_products 100 [100; 300] [] 1e-5 = Raise e /\
    (e = ValueError \/ e = ZeroDivisionError) /\
    (spec.orders_nonzero (products example.no_products) -> e = ValueError).
Proof.
  apply (@empty_species_list_raises example.binary64_range example.bisection
           example.no_products 100 [100; 300] [] 1e-5).
  left. reflexivity.
Defined.

(** ** The reaction quotient *)

Lemma py_pow_defined (x : R) (n : Z) :
  spec.pow_defined x n -> py.pow x n = Ok (powerRZ x n).
Proof.
  unfold spec.pow_defined, py.pow. intros H.
  destruct (n <? 0)%Z eqn:Hn; [|reflexivity].
  apply Z.ltb_lt in Hn. destruct (Req_dec_T x 0) as [Hx|_]; [|reflexivity].
  exfalso. exact (H Hn Hx).
Qed.

Lemma py_pow_undefined (x : R) (n : Z) :
  ~ spec.pow_defined x n -> py.pow x n = Raise ZeroDivisionError.
Proof.
  unfold spec.pow_defined, py.pow. intros H.
  destruct (n <? 0)%Z eqn:Hn.
  - destruct (Req_dec_T x 0) as [_|Hx]; [reflexivity|].
    exfalso. apply H. intros _. exact Hx.
  - exfalso. apply H. intros Hlt. apply Z.ltb_ge in Hn. lia.
Qed.

Lemma pow_defined_dec (x : R) (n : Z) :
  spec.pow_defined x n \/ ~ spec.pow_defined x n.
Proof.
  unfold spec.pow_defined. destruct (Z_lt_dec n 0) as [Hn|Hn].
  - destruct (Req_dec_T x 0) as [Hx|Hx]; [right | left]; auto.
  - left. intros Hlt. contradiction.
Qed.

Lemma Ok_triple (a a' b b' : R) (c c' : Z) :
  a = a' -> b = b' -> c = c' -> Ok (a, b, c) = Ok (a', b', c').
Proof. intros -> -> ->. reflexivity. Qed.

Lemma getitem_middle {A : Type} (pre : list A) (x : A) (post : list A) :
  py.getitem (pre ++ x :: post) (List.length pre) = Ok x.
Proof.
  unfold py.getitem. rewrite nth_error_app2 by lia.
  rewrite Nat.sub_diag. reflexivity.
Qed.

(** The loop over the products, started at position [length pre] of the
    initial moles [pre ++ init]. *)
Lemma product_loop (chi : R) (comps : list Component) :
  forall (pre init : list R) (n e : R) (d : Z),
    List.length init = List.length comps ->
    (Forall (fun item => spec.pow_defined (spec.product_moles chi item)
                                          (order (fst item)))
            (combine comps init) ->
     foldM (quotient_product chi (pre ++ init))
           (py.enumerate_from (List.length pre) comps) (n, e, d)
     = Ok (n * spec.Rprod (map (fun item => powerRZ (spec.product_moles chi item)
                                                    (order (fst item)))
                               (combine comps init)),
           e + spec.Rsum (map (spec.product_moles chi) (combine comps init)),
           (d + spec.Zsum (map order comps))%Z)) /\
    (~ Forall (fun item => spec.pow_defined (spec.product_moles chi item)
                                            (order (fst item)))
              (combine comps init) ->
     foldM (quotient_product chi (pre ++ init))
           (py.enumerate_from (List.length pre) comps) (n, e, d)
     = Raise ZeroDivisionError).
Proof.
  induction comps as [|c comps IH]; intros pre init n e d Hlen.
  - destruct init; [|discriminate]. simpl. split.
    + intros _. apply Ok_triple; simpl; [ring | ring | lia].
    + intros H. exfalso. apply H. constructor.
  - destruct init as [|x init]; [discriminate|]. simpl in Hlen.
    injection Hlen as Hlen.
    assert (Hpre : pre ++ x :: init = (pre ++ [x]) ++ init)
      by (rewrite <- app_assoc; reflexivity).
    assert (HS : S (List.length pre) = List.length (pre ++ [x]))
      by (rewrite length_app; simpl; lia).
    destruct (IH (pre ++ [x]) init
                 (n * powerRZ (x + IZR (order c) * chi) (order c))
                 (e + (x + IZR (order c) * chi))
                 (d + order c)%Z Hlen) as [IHok IHraise].
    simpl. rewrite getitem_middle. simpl.
    destruct (pow_defined_dec (x + IZR (order c) * chi) (order c)) as [Hd|Hd].
    + rewrite (py_pow_defined _ _ Hd). simpl. rewrite HS, Hpre. split.
      * intros HF. inversion HF as [|? ? _ HF']; subst.
        rewrite (IHok HF').
        apply Ok_triple; unfold spec.product_moles; simpl; [ring | ring | lia].
      * intros HF. apply IHraise. intros HF'. apply HF.
        constructor; assumption.
    + rewrite (py_pow_undefined _ _ Hd). simpl. split.
      * intros HF. inversion HF as [|? ? Hhd _]; subst. contradiction.
      * reflexivity.
Qed.

(** The loop over the reactants. *)
Lemma reactant_loop (chi : R) (comps : list Component) :
  forall (pre init : list R) (n e : R) (d : Z),
    List.length init = List.length comps ->
    (Forall (fun item => spec.pow_defined (spec.reactant_moles chi item)
                                          (order (fst item)))
            (combine comps init) ->
     foldM (quotient_reactant chi (pre ++ init))
           (py.enumerate_from (List.length pre) comps) (n, e, d)
     = Ok (n * spec.Rprod (map (fun item => powerRZ (spec.reactant_moles chi item)
                                                    (order (fst item)))
                               (combine comps init)),
           e + spec.Rsum (map (spec.reactant_moles chi) (combine comps init)),
           (d - spec.Zsum (map order comps))%Z)) /\
    (~ Forall (fun item => spec.pow_defined (spec.reactant_moles chi item)
                                            (order (fst item)))
              (combine comps init) ->
     foldM (quotient_reactant chi (pre ++ init))
           (py.enumerate_from (List.length pre) comps) (n, e, d)
     = Raise ZeroDivisionError).
Proof.
  induction comps as [|c comps IH]; intros pre init n e d Hlen.
  - destruct init; [|discriminate]. simpl. split.
    + intros _. apply Ok_triple; simpl; [ring | ring | lia].
    + intros H. exfalso. apply H. constructor.
  - destruct init as [|x init]; [discriminate|]. simpl in Hlen.
    injection Hlen as Hlen.
    assert (Hpre : pre ++ x :: init = (pre ++ [x]) ++ init)
      by (rewrite <- app_assoc; reflexivity).
    assert (HS : S (List.length pre) = List.length (pre ++ [x]))
      by (rewrite length_app; simpl; lia).
    destruct (IH (pre ++ [x]) init
                 (n * powerRZ (x - IZR (order c) * chi) (order c))
                 (e + (x - IZR (order c) * chi))
                 (d - order c)%Z Hlen) as [IHok IHraise].
    simpl. rewrite getitem_middle. simpl.
    destruct (pow_defined_dec (x - IZR (order c) * chi) (order c)) as [Hd|Hd].
    + rewrite (py_pow_defined _ _ Hd). simpl. rewrite HS, Hpre. split.
      * intros HF. inversion HF as [|? ? _ HF']; subst.
        rewrite (IHok HF').
        apply Ok_triple; unfold spec.reactant_moles; simpl; [ring | ring | lia].
      * intros HF. apply IHraise. intros HF'. apply HF.
        constructor; assumption.
    + rewrite (py_pow_undefined _ _ Hd). simpl. split.
      * intros HF. inversion HF as [|? ? Hhd _]; subst. contradiction.
      * reflexivity.
Qed.

Lemma reaction_equation_steps (self : Reaction) (chi pressure : R)
    (reac_init prod_init : list R) :
  List.length reac_init = List.length (reactants self) ->
  List.length prod_init = List.length (products self) ->
  Forall (fun item => spec.pow_defined (spec.product_moles chi item)
                                       (order (fst item)))
         (combine (products self) prod_init) ->
  Forall (fun item => spec.pow_defined (spec.reactant_moles chi item)
                                       (order (fst item)))
         (combine (reactants self) reac_init) ->
  reaction_equation self chi pressure reac_init prod_init
  = (total_mol_term <- py.pow (spec.total_moles self chi reac_init prod_init)
                              (- spec.net_mole_change self) ;;
     pressure_term <- py.pow pressure (spec.net_mole_change self) ;;
     q <- py.truediv (spec.numerator self chi prod_init)
                     (spec.denominator self chi reac_init) ;;
     Ok (q * total_mol_term * pressure_term)).
Proof.
  intros Hlr Hlp HP HR. unfold reaction_equation, py.enumerate.
  destruct (product_loop chi (products self) [] prod_init 1 0 0%Z Hlp) as [Hp _].
  simpl in Hp. rewrite (Hp HP). simpl.
  destruct (reactant_loop chi (reactants self) [] reac_init 1 0
              (spec.Zsum (map order (products self))) Hlr) as [Hr _].
  simpl in Hr. 
  replace (0 + spec.Zsum (map order (products self)))%Z
    with (spec.Zsum (map order (products self))) by lia.
  rewrite (Hr HR). simpl.
  fold (spec.net_mole_change self).
  rewrite !Rmult_1_l, !Rplus_0_l.
  reflexivity.
Qed.

Lemma py_truediv_Ok (x y : R) : y <> 0 -> py.truediv x y = Ok (x / y).
Proof.
  intros Hy. unfold py.truediv. destruct (Req_dec_T y 0); [contradiction|reflexivity].
Qed.

Lemma py_truediv_Raise (x y : R) : y = 0 -> py.truediv x y = Raise ZeroDivisionError.
Proof.
  intros Hy. unfold py.truediv. destruct (Req_dec_T y 0); [reflexivity|contradiction].
Qed.

Lemma Forall_pow_defined_dec (f : Component * R -> R) (l : list (Component * R)) :
  Forall (fun item => spec.pow_defined (f item) (order (fst item))) l \/
  ~ Forall (fun item => spec.pow_defined (f item) (order (fst item))) l.
Proof.
  induction l as [|a l [IH|IH]].
  - left. constructor.
  - destruct (pow_defined_dec (f a) (order (fst a))) as [Ha|Ha].
    + left. constructor; assumption.
    + right. intros H. inversion H; contradiction.
  - right. intros H. inversion H; contradiction.
Qed.

Lemma reaction_equation_defined (self : Reaction) (chi pressure : R)
    (reac_init prod_init : list R) :
  List.length reac_init = List.length (reactants self) ->
  List.length prod_init = List.length (products self) ->
  spec.Q_defined self chi pressure reac_init prod_init ->
  reaction_equation self chi pressure reac_init prod_init
  = Ok (spec.Q self chi pressure reac_init prod_init).
Proof.
  intros Hlr Hlp (HP & HR & Ht & Hpr & Hden).
  rewrite (reaction_equation_steps _ _ _ _ _ Hlr Hlp HP HR).
  rewrite (py_pow_defined _ _ Ht). simpl.
  rewrite (py_pow_defined _ _ Hpr). simpl.
  rewrite (py_truediv_Ok _ _ Hden). reflexivity.
Qed.

Lemma reaction_equation_undefined (self : Reaction) (chi pressure : R)
    (reac_init prod_init : list R) :
  List.length reac_init = List.length (reactants self) ->
  List.length prod_init = List.length (products self) ->
  ~ spec.Q_defined self chi pressure reac_init prod_init ->
  reaction_equation self chi pressure reac_init prod_init
  = Raise ZeroDivisionError.
Proof.
  intros Hlr Hlp Hnot.
  destruct (Forall_pow_defined_dec (spec.product_moles chi)
              (combine (products self) prod_init)) as [HP|HP].
  2:{ unfold reaction_equation, py.enumerate.
      destruct (product_loop chi (products self) [] prod_init 1 0 0%Z Hlp)
        as [_ Hp].
      simpl in Hp. rewrite (Hp HP). reflexivity. }
  destruct (Forall_pow_defined_dec (spec.reactant_moles chi)
              (combine (reactants self) reac_init)) as [HR|HR].
  2:{ unfold reaction_equation, py.enumerate.
      destruct (product_loop chi (products self) [] prod_init 1 0 0%Z Hlp)
        as [Hp _].
      simpl in Hp. rewrite (Hp HP). simpl.
      destruct (reactant_loop chi (reactants self) [] reac_init
                  1 0 (0 + spec.Zsum (map order (products self)))%Z Hlr)
        as [_ Hr].
      simpl in Hr. rewrite (Hr HR). reflexivity. }
  rewrite (reaction_equation_steps _ _ _ _ _ Hlr Hlp HP HR).
  destruct (pow_defined_dec (spec.total_moles self chi reac_init prod_init)
              (- spec.net_mole_change self)) as [Ht|Ht].
  2:{ rewrite (py_pow_undefined _ _ Ht). reflexivity. }
  rewrite (py_pow_defined _ _ Ht). simpl.
  destruct (pow_defined_dec pressure (spec.net_mole_change self)) as [Hpr|Hpr].
  2:{ rewrite (py_pow_undefined _ _ Hpr). reflexivity. }
  rewrite (py_pow_defined _ _ Hpr). simpl.
  destruct (Req_dec_T (spec.denominator self chi reac_init) 0) as [Hden|Hden].
  - rewrite (py_truediv_Raise _ _ Hden). reflexivity.
  - exfalso. apply Hnot. repeat split; assumption.
Qed.

(** C2.  With initial moles matching the species position by position,
    [reaction_equation] returns
    [(numerator / denominator) * total_moles ^ (- net_mole_change)
     * pressure ^ net_mole_change], where the numerator is the product of
    [(prod_init[i] + order_i * chi) ^ order_i] over the products, the
    denominator the product of [(reac_init[j] - order_j * chi) ^ order_j] over
    the reactants, [net_mole_change] the sum of the product orders minus the
    sum of the reactant orders and [total_moles] the sum of all current moles;
    where that expression divides by zero, and only there, the call raises
    [ZeroDivisionError]. *)
Theorem reaction_equation_formula (self : Reaction) (chi pressure : R)
    (reac_init prod_init : list R) :
  List.length reac_init = List.length (reactants self) ->
  List.length prod_init = List.length (products self) ->
  (spec.Q_defined self chi pressure reac_init prod_init ->
   reaction_equation self chi pressure reac_init prod_init
   = Ok (spec.Q self chi pressure reac_init prod_init)) /\
  (~ spec.Q_defined self chi pressure reac_init prod_init ->
   reaction_equation self chi pressure reac_init prod_init
   = Raise ZeroDivisionError).
Proof.
  intros Hlr Hlp. split.
  - apply reaction_equation_defined; assumption.
  - apply reaction_equation_undefined; assumption.
Qed.

(** The species have positive orders: no power can fail on its base. *)
Lemma positive_orders_defined (f : Component * R -> R) (comps : list Component)
    (init : list R) :
  Forall (fun comp => (0 < order comp)%Z) comps ->
  Forall (fun item => spec.pow_defined (f item) (order (fst item)))
         (combine comps init).
Proof.
  intros Hpos. apply Forall_forall. intros [c n0] Hin.
  apply in_combine_l in Hin.
  rewrite Forall_forall in Hpos. specialize (Hpos c Hin).
  unfold spec.pow_defined. simpl. lia.
Qed.

Lemma Q_defined_haber :
  spec.Q_defined example.haber_process 1 100 [100; 300] [0].
Proof.
  unfold spec.Q_defined. split; [|split; [|split; [|split]]].
  - apply positive_orders_defined. repeat constructor; simpl; lia.
  - apply positive_orders_defined. repeat constructor; simpl; lia.
  - intros H. vm_compute in H. discriminate.
  - intros _. lra.
  - unfold spec.denominator, spec.Rprod, spec.reactant_moles. simpl. lra.
Qed.

Lemma reaction_equation_formula_witness :
  reaction_equation example.haber_process 1 100 [100; 300] [0]
  = Ok (spec.Q example.haber_process 1 100 [100; 300] [0]).
Proof.
  apply (reaction_equation_formula example.haber_process 1 100 [100; 300] [0]);
    [reflexivity | reflexivity | exact Q_defined_haber].
Defined.

(** At one mole of extent the Haber mixture of [example.py] holds 2 mol of
    NH3, 99 mol of N2 and 297 mol of H2. *)
Example Q_haber :
  spec.Q example.haber_process 1 100 [100; 300] [0]
  = 2 ^ 2 / (99 * 297 ^ 3) * (2 + 99 + 297) ^ 2 * / 100 ^ 2.
Proof.
  unfold spec.Q, spec.numerator, spec.denominator, spec.total_moles,
    spec.net_mole_change, spec.Rprod, spec.Rsum, spec.Zsum,
    spec.product_moles, spec.reactant_moles.
  simpl. field.
Qed.

(** ** Monotonicity for one reactant and one product *)

(** The quotient of [A <-> B] with orders [m] and [n], as one exponential. *)
Lemma single_species_Q (self : Reaction) (a b : Component)
    (pressure r0 p0 chi : R) :
  reactants self = [a] -> products self = [b] ->
  0 < pressure ->
  0 < p0 + IZR (order b) * chi -> 0 < r0 - IZR (order a) * chi ->
  spec.Q self chi pressure [r0] [p0]
  = exp (IZR (order b) * ln (p0 + IZR (order b) * chi)
         - IZR (order a) * ln (r0 - IZR (order a) * chi)
         - (IZR (order b) - IZR (order a))
           * ln ((p0 + IZR (order b) * chi) + (r0 - IZR (order a) * chi))
         + (IZR (order b) - IZR (order a)) * ln pressure).
Proof.
  intros Hr Hp HP HA HB.
  unfold spec.Q, spec.numerator, spec.denominator, spec.total_moles,
    spec.net_mole_change.
  rewrite Hr, Hp. simpl.
  unfold spec.product_moles, spec.reactant_moles. simpl.
  rewrite !Rmult_1_r, !Rplus_0_r, !Z.add_0_r.
  set (A := p0 + IZR (order b) * chi) in *.
  set (B := r0 - IZR (order a) * chi) in *.
  assert (HT : 0 < A + B) by lra.
  rewrite !powerRZ_Rpower by assumption.
  unfold Rpower, Rdiv.
  rewrite <- !exp_Ropp, <- !exp_plus.
  f_equal. rewrite opp_IZR, minus_IZR. ring.
Qed.

(** The comparison of the exponents, on the logarithms: [alpha] is the
    growth of [ln A], [beta] the decrease of [ln B], [tau] the growth of
    [ln (A + B)]. *)
Lemma exponent_increases (n m alpha beta tau : R) :
  0 < n -> 0 < m -> 0 < alpha -> 0 < beta -> tau < alpha -> - tau < beta ->
  (n - m) * tau < n * alpha + m * beta.
Proof.
  intros Hn Hm Ha Hb Hta Htb.
  destruct (Rle_dec m n) as [Hle|Hgt].
  - assert ((n - m) * tau <= (n - m) * alpha) by nra. nra.
  - assert ((m - n) * (- tau) <= (m - n) * beta) by nra. nra.
Qed.

Lemma ln_ratio_lt (x y u v : R) :
  0 < x -> 0 < y -> 0 < u -> 0 < v -> x * v < u * y -> ln x - ln y < ln u - ln v.
Proof.
  intros Hx Hy Hu Hv H.
  assert (ln (x * v) < ln (u * y)) as Hln.
  { apply ln_increasing; [nra | assumption]. }
  rewrite !ln_mult in Hln by assumption. lra.
Qed.

Lemma single_species_defined (self : Reaction) (a b : Component)
    (pressure r0 p0 chi : R) :
  reactants self = [a] -> products self = [b] ->
  (0 < order a)%Z -> (0 < order b)%Z -> 0 < pressure ->
  0 < p0 + IZR (order b) * chi -> 0 < r0 - IZR (order a) * chi ->
  spec.Q_defined self chi pressure [r0] [p0].
Proof.
  intros Hr Hp Hm Hn HP HA HB. unfold spec.Q_defined.
  rewrite Hr, Hp. split; [|split; [|split; [|split]]].
  - apply positive_orders_defined. repeat constructor. assumption.
  - apply positive_orders_defined. repeat constructor. assumption.
  - intros _. unfold spec.total_moles. rewrite Hr, Hp. simpl.
    unfold spec.product_moles, spec.reactant_moles. simpl. lra.
  - intros _. lra.
  - unfold spec.denominator. rewrite Hr. simpl.
    unfold spec.reactant_moles. simpl. rewrite Rmult_1_r.
    apply Rgt_not_eq. apply powerRZ_lt. assumption.
Qed.

(** C5.  For a reaction with one reactant of order [m > 0] and one product
    of order [n > 0] and a positive pressure, [reaction_equation] is strictly
    increasing in [chi] wherever both current amounts
    [prod_init[0] + n * chi] and [reac_init[0] - m * chi] are positive: it
    returns a value at any two such extents, the larger at the larger
    extent.  The sign of the initial amounts plays no part. *)
Theorem quotient_strictly_increasing (self : Reaction) (a b : Component)
    (pressure r0 p0 chi1 chi2 : R) :
  reactants self = [a] -> products self = [b] ->
  (0 < order a)%Z -> (0 < order b)%Z -> 0 < pressure ->
  0 < p0 + IZR (order b) * chi1 -> 0 < r0 - IZR (order a) * chi1 ->
  0 < p0 + IZR (order b) * chi2 -> 0 < r0 - IZR (order a) * chi2 ->
  chi1 < chi2 ->
  exists q1 q2 : R,
    reaction_equation self chi1 pressure [r0] [p0] = Ok q1 /\
    reaction_equation self chi2 pressure [r0] [p0] = Ok q2 /\
    q1 < q2.
Proof.
  intros Hr Hp Hm Hn HP HA1 HB1 HA2 HB2 Hchi.
  exists (spec.Q self chi1 pressure [r0] [p0]),
         (spec.Q self chi2 pressure [r0] [p0]).
  split; [|split].
  - apply reaction_equation_defined; [rewrite Hr | rewrite Hp |]; try reflexivity.
    apply (single_species_defined self a b); assumption.
  - apply reaction_equation_defined; [rewrite Hr | rewrite Hp |]; try reflexivity.
    apply (single_species_defined self a b); assumption.
  - rewrite (single_species_Q self a b pressure r0 p0 chi1) by assumption.
    rewrite (single_species_Q self a b pressure r0 p0 chi2) by assumption.
    apply exp_increasing.
    apply IZR_lt in Hm, Hn.
    set (m := IZR (order a)) in *. set (n := IZR (order b)) in *.
    set (A1 := p0 + n * chi1) in *. set (A2 := p0 + n * chi2) in *.
    set (B1 := r0 - m * chi1) in *. set (B2 := r0 - m * chi2) in *.
    assert (HA : A1 < A2) by (unfold A1, A2; nra).
    assert (HB : B2 < B1) by (unfold B1, B2; nra).
    assert (Halpha : 0 < ln A2 - ln A1)
      by (pose proof (ln_increasing A1 A2 HA1 HA); lra).
    assert (Hbeta : 0 < ln B1 - ln B2)
      by (pose proof (ln_increasing B2 B1 HB2 HB); lra).
    assert (Htau1 : ln (A2 + B2) - ln (A1 + B1) < ln A2 - ln A1)
      by (apply ln_ratio_lt; nra).
    assert (Htau2 : - (ln (A2 + B2) - ln (A1 + B1)) < ln B1 - ln B2).
    { replace (- (ln (A2 + B2) - ln (A1 + B1)))
        with (ln (A1 + B1) - ln (A2 + B2)) by ring.
      apply ln_ratio_lt; nra. }
    pose proof (exponent_increases n m _ _ _ Hn Hm Halpha Hbeta Htau1 Htau2).
    lra.
Qed.

Lemma quotient_strictly_increasing_witness :
  exists q1 q2 : R,
    reaction_equation example.dissociation 1 2 [10] [5] = Ok q1 /\
    reaction_equation example.dissociation 3 2 [10] [5] = Ok q2 /\
    q1 < q2.
Proof.
  apply (quotient_strictly_increasing example.dissociation
           example.species_A example.species_B 2 10 5 1 3);
    try reflexivity; simpl; lra.
Defined.

(** ** Free energy and equilibrium constant *)

Lemma scaled_temp_nonzero (T : R) : T <> 0 -> T / 1000 <> 0.
Proof. intros H. unfold Rdiv. apply Rmult_integral_contrapositive_currified; lra. Qed.

Lemma entropy_divisor_nonzero (T : R) : T <> 0 -> 2 * (T / 1000) ^ 2 <> 0.
Proof.
  intros H. pose proof (scaled_temp_nonzero T H) as Ht.
  apply Rmult_integral_contrapositive_currified; [lra|].
  apply pow_nonzero. assumption.
Qed.

(** Between two non-zero temperatures the integrals have a value. *)
Lemma enthalpy_change_total (comp : Component) (T1 T2 : R) :
  T1 <> 0 -> T2 <> 0 -> exists dh, enthalpy_change comp T1 T2 = Ok dh.
Proof.
  intros H1 H2. unfold enthalpy_change.
  destruct (cp_coeffs comp) as [[[[A B] C] D] E].
  rewrite (py_truediv_Ok _ _ (scaled_temp_nonzero T1 H1)). simpl.
  rewrite (py_truediv_Ok _ _ (scaled_temp_nonzero T2 H2)). simpl.
  eexists. reflexivity.
Qed.

Lemma entropy_change_total (comp : Component) (T1 T2 : R) :
  T1 <> 0 -> T2 <> 0 -> exists ds, entropy_change comp T1 T2 = Ok ds.
Proof.
  intros H1 H2. unfold entropy_change.
  destruct (cp_coeffs comp) as [[[[A B] C] D] E].
  rewrite (py_truediv_Ok _ _ (entropy_divisor_nonzero T1 H1)). simpl.
  rewrite (py_truediv_Ok _ _ (entropy_divisor_nonzero T2 H2)). simpl.
  eexists. reflexivity.
Qed.

(** Over a degenerate interval the integrals vanish (section 8 of the
    spec). *)
Lemma enthalpy_change_same (comp : Component) (T : R) :
  T <> 0 -> enthalpy_change comp T T = Ok 0.
Proof.
  intros H. unfold enthalpy_change.
  destruct (cp_coeffs comp) as [[[[A B] C] D] E].
  rewrite (py_truediv_Ok _ _ (scaled_temp_nonzero T H)). simpl.
  f_equal. ring.
Qed.

Lemma entropy_change_same (comp : Component) (T : R) :
  0 < T -> entropy_change comp T T = Ok (np.Fin 0).
Proof.
  intros H. unfold entropy_change.
  destruct (cp_coeffs comp) as [[[[A B] C] D] E].
  assert (Hnz : T <> 0) by lra.
  rewrite (py_truediv_Ok _ _ (entropy_divisor_nonzero T Hnz)). simpl.
  unfold np.log. destruct (Rlt_dec 0 (T / 1000)) as [_|Hneg].
  - simpl. do 2 f_equal. ring.
  - exfalso. apply Hneg. lra.
Qed.

Lemma gibbs_reactant_same (self : Reaction) (comps : list Component) (h s : R) :
  0 < reac_temp self ->
  foldM (gibbs_reactant self (reac_temp self)) comps (h, np.Fin s)
  = Ok (h, np.Fin s).
Proof.
  intros HT. assert (Hnz : reac_temp self <> 0) by lra.
  induction comps as [|c comps IH]; [reflexivity|].
  simpl. unfold gibbs_reactant at 1.
  rewrite (enthalpy_change_same c _ Hnz). simpl.
  rewrite (entropy_change_same c _ HT). simpl.
  replace (h + 0 * IZR (order c)) with h by ring.
  replace (s + 0 * IZR (order c)) with s by ring.
  exact IH.
Qed.

Lemma gibbs_product_same (self : Reaction) (comps : list Component) (h s : R) :
  0 < reac_temp self ->
  foldM (gibbs_product self (reac_temp self)) comps (h, np.Fin s)
  = Ok (h, np.Fin s).
Proof.
  intros HT. assert (Hnz : reac_temp self <> 0) by lra.
  induction comps as [|c comps IH]; [reflexivity|].
  simpl. unfold gibbs_product at 1.
  rewrite (enthalpy_change_same c _ Hnz). simpl.
  rewrite (entropy_change_same c _ HT). simpl.
  replace (h + 0 * IZR (order c)) with h by ring.
  replace (s + 0 * IZR (order c)) with s by ring.
  exact IH.
Qed.

Lemma calculate_rxn_gibbs_same (self : Reaction) :
  0 < reac_temp self ->
  calculate_rxn_gibbs self (reac_temp self)
  = Ok (np.Fin (rxn_std_dh self - reac_temp self * rxn_std_ds self)).
Proof.
  intros HT. unfold calculate_rxn_gibbs.
  rewrite (gibbs_reactant_same self _ 0 0 HT). simpl.
  rewrite (gibbs_product_same self _ 0 0 HT). simpl.
  do 2 f_equal. ring.
Qed.

(** C6.  At a positive reaction temperature, [calculate_rxn_gibbs] called
    with that same temperature as reference returns
    [rxn_std_dh - reac_temp * rxn_std_ds], whatever the species and their
    coefficients. *)
Theorem gibbs_at_reference_temperature (self : Reaction) :
  0 < reac_temp self ->
  calculate_rxn_gibbs self (reac_temp self)
  = Ok (np.Fin (rxn_std_dh self - reac_temp self * rxn_std_ds self)).
Proof. exact (calculate_rxn_gibbs_same self). Qed.

Lemma gibbs_at_reference_temperature_witness :
  calculate_rxn_gibbs example.haber_process 500 = Ok (np.Fin (-92000 - 500 * -199)).
Proof.
  apply (gibbs_at_reference_temperature example.haber_process). simpl. lra.
Defined.

Lemma gibbs_reactant_total (self : Reaction) (std_temp : R)
    (comps : list Component) :
  reac_temp self <> 0 -> std_temp <> 0 ->
  forall acc, exists acc',
    foldM (gibbs_reactant self std_temp) comps acc = Ok acc'.
Proof.
  intros HT Hstd. induction comps as [|c comps IH]; intros [h s].
  - eexists. reflexivity.
  - simpl. unfold gibbs_reactant at 1.
    destruct (enthalpy_change_total c _ _ HT Hstd) as (dh & ->). simpl.
    destruct (entropy_change_total c _ _ HT Hstd) as (ds & ->). simpl.
    apply IH.
Qed.

Lemma gibbs_product_total (self : Reaction) (std_temp : R)
    (comps : list Component) :
  reac_temp self <> 0 -> std_temp <> 0 ->
  forall acc, exists acc',
    foldM (gibbs_product self std_temp) comps acc = Ok acc'.
Proof.
  intros HT Hstd. induction comps as [|c comps IH]; intros [h s].
  - eexists. reflexivity.
  - simpl. unfold gibbs_product at 1.
    destruct (enthalpy_change_total c _ _ Hstd HT) as (dh & ->). simpl.
    destruct (entropy_change_total c _ _ Hstd HT) as (ds & ->). simpl.
    apply IH.
Qed.

Lemma calculate_rxn_gibbs_total (self : Reaction) (std_temp : R) :
  reac_temp self <> 0 -> std_temp <> 0 ->
  exists G, calculate_rxn_gibbs self std_temp = Ok G.
Proof.
  intros HT Hstd. unfold calculate_rxn_gibbs.
  destruct (gibbs_reactant_total self std_temp (reactants self) HT Hstd
              (0, np.Fin 0)) as (acc & ->). simpl.
  destruct (gibbs_product_total self std_temp (products self) HT Hstd acc)
    as ([h s] & ->). simpl.
  eexists. reflexivity.
Qed.

Section EquilibriumConstant.
Context {consts : constants.values}.

(** C7, amended.  With non-zero gas constant and default reference
    temperature, a reaction at a non-zero temperature has a free energy
    [G] at that reference, and [calculate_rxn_k] returns [np.exp] of
    [- G / (R * reac_temp)].  When [G] is a finite number [g] the result is
    the positive number [exp (- g / (R * reac_temp))] as long as that
    exponential is above the underflow limit of binary64, and it is 0.0,
    not a positive number, at or below the limit. *)
Theorem rxn_k_is_exponential (self : Reaction) :
  reac_temp self <> 0 ->
  constants.R_gas <> 0 -> constants.STD_TEMP <> 0 ->
  exists G : np.float64,
    calculate_rxn_gibbs self constants.STD_TEMP = Ok G /\
    calculate_rxn_k self
    = Ok (np.exp (np.lift1 (fun x => x / (constants.R_gas * reac_temp self))
                           (- G)%np)) /\
    forall g : R, G = np.Fin g ->
      (py.underflow_limit < exp (- g / (constants.R_gas * reac_temp self)) ->
       calculate_rxn_k self
       = Ok (np.Fin (exp (- g / (constants.R_gas * reac_temp self)))) /\
       0 < exp (- g / (constants.R_gas * reac_temp self))) /\
      (exp (- g / (constants.R_gas * reac_temp self)) <= py.underflow_limit ->
       calculate_rxn_k self = Ok (np.Fin 0)).
Proof.
  intros HT HR Hstd.
  destruct (calculate_rxn_gibbs_total self constants.STD_TEMP HT Hstd)
    as (G & HG).
  assert (Hk : calculate_rxn_k self
               = Ok (np.exp (np.lift1
                               (fun x => x / (constants.R_gas * reac_temp self))
                               (- G)%np))).
  { unfold calculate_rxn_k. rewrite HG. simpl. unfold np.truediv.
    destruct (Req_dec_T (constants.R_gas * reac_temp self) 0) as [Hz|_].
    - exfalso. apply Rmult_integral in Hz. tauto.
    - reflexivity. }
  exists G. split; [exact HG|]. split; [exact Hk|].
  intros g ->. rewrite Hk. simpl.
  destruct (flush_exp (- g / (constants.R_gas * reac_temp self)))
    as [Habove Hbelow].
  split; intros H.
  - rewrite (Habove H). split; [reflexivity | apply exp_pos].
  - rewrite (Hbelow H). reflexivity.
Qed.

End EquilibriumConstant.

Lemma rxn_k_is_exponential_witness :
  exists G : np.float64,
    calculate_rxn_gibbs example.haber_process 298.15 = Ok G /\
    @calculate_rxn_k example.si_constants example.haber_process
    = Ok (np.exp (np.lift1 (fun x => x / (8.314 * 500)) (- G)%np)) /\
    forall g : R, G = np.Fin g ->
      (py.underflow_limit < exp (- g / (8.314 * 500)) ->
       @calculate_rxn_k example.si_constants example.haber_process
       = Ok (np.Fin (exp (- g / (8.314 * 500)))) /\
       0 < exp (- g / (8.314 * 500))) /\
      (exp (- g / (8.314 * 500)) <= py.underflow_limit ->
       @calculate_rxn_k example.si_constants example.haber_process
       = Ok (np.Fin 0)).
Proof.
  apply (@rxn_k_is_exponential example.si_constants example.haber_process);
    simpl; lra.
Defined.

(** At the reference temperature the free energy of the Haber process is
    its standard value, and the constant is its exponential: the exponent
    is positive, far from underflow. *)
Example rxn_k_haber_at_std :
  @calculate_rxn_k example.si_constants example.haber_at_std
  = Ok (np.Fin (exp (- (-92000 - 298.15 * -199) / (8.314 * 298.15)))).
Proof.
  unfold calculate_rxn_k.
  change (@constants.STD_TEMP example.si_constants)
    with (reac_temp example.haber_at_std).
  rewrite calculate_rxn_gibbs_same by (simpl; lra).
  simpl. unfold np.truediv.
  destruct (Req_dec_T (8.314 * 298.15) 0) as [Hz|_]; [lra|]. simpl.
  rewrite flush_above; [reflexivity|].
  apply Rlt_trans with 1; [apply underflow_limit_lt_1|].
  rewrite <- exp_0. apply exp_increasing.
  apply Rdiv_lt_0_compat; lra.
Qed.

(** ** The residual *)

Section Residual.
Context {numpy_lib : np.predicates}.

Lemma residual_cases (self : Reaction) (pressure : R)
    (reac_init prod_init : list R) (k_eq chi : R) :
  (forall q, reaction_equation self chi pressure reac_init prod_init = Ok q ->
             np.isfinite (q - k_eq) = true ->
             residual self pressure reac_init prod_init k_eq chi = q - k_eq) /\
  (forall q, reaction_equation self chi pressure reac_init prod_init = Ok q ->
             np.isfinite (q - k_eq) = false ->
             residual self pressure reac_init prod_init k_eq chi = penalty) /\
  (forall e, reaction_equation self chi pressure reac_init prod_init = Raise e ->
             residual self pressure reac_init prod_init k_eq chi = penalty).
Proof.
  unfold residual. repeat split.
  - intros q -> Hfin. simpl. rewrite Hfin. reflexivity.
  - intros q -> Hfin. simpl. rewrite Hfin. reflexivity.
  - intros e ->. reflexivity.
Qed.

Lemma residual_finite (self : Reaction) (pressure : R)
    (reac_init prod_init : list R) (k_eq chi : R) :
  np.isfinite penalty = true ->
  np.isfinite (residual self pressure reac_init prod_init k_eq chi) = true.
Proof.
  intros Hpen. unfold residual.
  destruct (reaction_equation self chi pressure reac_init prod_init) as [q|e];
    [|exact Hpen].
  simpl. destruct (np.isfinite (q - k_eq)) eqn:Hfin; simpl; assumption.
Qed.

(** C4.  With a finiteness test that accepts the penalty [1e10], the
    closure [residual] is a total function of [chi]: it is [Q(chi) - K]
    when the quotient evaluates and that difference is finite, the penalty
    when the difference is not finite or [reaction_equation] raises; its
    value is finite in every case. *)
Theorem residual_absorbs_failures (self : Reaction) (pressure : R)
    (reac_init prod_init : list R) (k_eq chi : R) :
  np.isfinite penalty = true ->
  penalty = 1e10 /\
  (forall q, reaction_equation self chi pressure reac_init prod_init = Ok q ->
             np.isfinite (q - k_eq) = true ->
             residual self pressure reac_init prod_init k_eq chi = q - k_eq) /\
  (forall q, reaction_equation self chi pressure reac_init prod_init = Ok q ->
             np.isfinite (q - k_eq) = false ->
             residual self pressure reac_init prod_init k_eq chi = penalty) /\
  (forall e, reaction_equation self chi pressure reac_init prod_init = Raise e ->
             residual self pressure reac_init prod_init k_eq chi = penalty) /\
  np.isfinite (residual self pressure reac_init prod_init k_eq chi) = true.
Proof.
  intros Hpen. split; [reflexivity|].
  destruct (residual_cases self pressure reac_init prod_init k_eq chi)
    as (H1 & H2 & H3).
  repeat split; try assumption.
  apply residual_finite. assumption.
Qed.

End Residual.

Lemma binary64_range_penalty :
  @np.isfinite example.binary64_range penalty = true.
Proof.
  unfold penalty. simpl.
  destruct (Rle_dec (Rabs 1e10) 1.7976931348623157e308) as [_|H]; [reflexivity|].
  exfalso. apply H. rewrite Rabs_pos_eq; lra.
Qed.

(** The residual at the right end of the Haber bracket, where N2 is used up:
    the quotient raises and the penalty is returned. *)
Example residual_haber_exhausted :
  @residual example.binary64_range example.haber_process 100 [100; 300] [0]
    1e-5 100 = 1e10.
Proof.
  pose proof (reaction_equation_undefined example.haber_process 100 100
                [100; 300] [0] eq_refl eq_refl) as H.
  unfold residual. rewrite H; [reflexivity|].
  intros (_ & _ & _ & _ & Hden). apply Hden.
  unfold spec.denominator, spec.Rprod, spec.reactant_moles. simpl. lra.
Qed.

Lemma residual_absorbs_failures_witness :
  penalty = 1e10 /\
  (forall q, reaction_equation example.haber_process 1 100 [100; 300] [0] = Ok q ->
             @np.isfinite example.binary64_range (q - 1e-5) = true ->
             @residual example.binary64_range example.haber_process 100
               [100; 300] [0] 1e-5 1 = q - 1e-5) /\
  (forall q, reaction_equation example.haber_process 1 100 [100; 300] [0] = Ok q ->
             @np.isfinite example.binary64_range (q - 1e-5) = false ->
             @residual example.binary64_range example.haber_process 100
               [100; 300] [0] 1e-5 1 = penalty) /\
  (forall e, reaction_equation example.haber_process 1 100 [100; 300] [0] = Raise e ->
             @residual example.binary64_range example.haber_process 100
               [100; 300] [0] 1e-5 1 = penalty) /\
  @np.isfinite example.binary64_range
    (@residual example.binary64_range example.haber_process 100
       [100; 300] [0] 1e-5 1) = true.
Proof.
  apply (@residual_absorbs_failures example.binary64_range
           example.haber_process 100 [100; 300] [0] 1e-5 1).
  exact binary64_range_penalty.
Defined.

(** ** The conversion solver *)

Section Conversion.
Context {numpy_lib : np.predicates} {scipy_lib : scipy.optimize}.

(** The outcome of [calculate_conversion] once the bracket is known. *)
Lemma conversion_after_bracket (self : Reaction) (pressure : R)
    (reac_init prod_init : list R) (k_eq chi_min chi_max : R) :
  bracket self reac_init prod_init = Ok (chi_min, chi_max) ->
  let f := residual self pressure reac_init prod_init k_eq in
  (py.mul (f chi_min) (f chi_max) > 0 ->
   calculate_conversion self pressure reac_init prod_init k_eq
   = Raise (RuntimeError
              (NoSignChange chi_min (f chi_min) chi_max (f chi_max)))) /\
  (~ py.mul (f chi_min) (f chi_max) > 0 ->
   (forall e, scipy.root_scalar f chi_min chi_max = Raise e ->
      calculate_conversion self pressure reac_init prod_init k_eq = Raise e) /\
   (forall sol, scipy.root_scalar f chi_min chi_max = Ok sol ->
      (scipy.converged sol = true ->
       calculate_conversion self pressure reac_init prod_init k_eq
       = Ok (scipy.root sol)) /\
      (scipy.converged sol = false ->
       calculate_conversion self pressure reac_init prod_init k_eq
       = Raise (RuntimeError NotConverged)))).
Proof.
  intros Hb f. unfold calculate_conversion. rewrite Hb. simpl. fold f.
  destruct (Rgt_dec (py.mul (f chi_min) (f chi_max)) 0) as [Hgt|Hle].
  - split; [reflexivity | contradiction].
  - split; [contradiction|]. intros _. split.
    + intros e ->. reflexivity.
    + intros sol ->. simpl. split; intros ->; reflexivity.
Qed.


(** C8.  Two reactions that agree on everything but the equation-of-state
    tag give the same result, value or exception, in every method. *)
Theorem eos_is_ignored {consts : constants.values} (r1 r2 : Reaction) :
  reactants r1 = reactants r2 -> products r1 = products r2 ->
  rxn_std_dh r1 = rxn_std_dh r2 -> rxn_std_ds r1 = rxn_std_ds r2 ->
  reac_temp r1 = reac_temp r2 ->
  (forall std_temp,
      calculate_rxn_gibbs r1 std_temp = calculate_rxn_gibbs r2 std_temp) /\
  calculate_rxn_k r1 = calculate_rxn_k r2 /\
  (forall chi pressure reac_init prod_init,
      reaction_equation r1 chi pressure reac_init prod_init
      = reaction_equation r2 chi pressure reac_init prod_init) /\
  (forall pressure reac_init prod_init k_eq,
      calculate_conversion r1 pressure reac_init prod_init k_eq
      = calculate_conversion r2 pressure reac_init prod_init k_eq).
Proof.
  destruct r1 as [rs1 ps1 dh1 ds1 eos1 T1], r2 as [rs2 ps2 dh2 ds2 eos2 T2].
  simpl. intros -> -> -> -> ->. repeat split.
Qed.

End Conversion.

Lemma bisect_S (n : nat) (f : R -> R) (a b : R) :
  example.bisect (S n) f a b
  = if Rle_dec (f a * f ((a + b) / 2)) 0
    then example.bisect n f a ((a + b) / 2)
    else example.bisect n f ((a + b) / 2) b.
Proof. reflexivity. Qed.

Lemma bisect_between (n : nat) (f : R -> R) :
  forall a b : R, Rmin a b <= example.bisect n f a b <= Rmax a b.
Proof.
  induction n as [|n IH]; intros a b.
  - change (example.bisect 0 f a b) with a.
    unfold Rmin, Rmax. destruct (Rle_dec a b); lra.
  - rewrite bisect_S.
    destruct (Rle_dec (f a * f ((a + b) / 2)) 0) as [_|_].
    + specialize (IH a ((a + b) / 2)). revert IH. unfold Rmin, Rmax.
      destruct (Rle_dec a ((a + b) / 2)), (Rle_dec a b); lra.
    + specialize (IH ((a + b) / 2) b). revert IH. unfold Rmin, Rmax.
      destruct (Rle_dec ((a + b) / 2) b), (Rle_dec a b); lra.
Qed.

Lemma checked_bisection_brentq : @scipy.brentq example.checked_bisection.
Proof.
  intros f a b. simpl. split.
  - intros Hsign. apply same_sign_product in Hsign.
    destruct (Rlt_dec 0 (f a * f b)); [reflexivity | contradiction].
  - intros Hsign.
    destruct (Rlt_dec 0 (f a * f b)) as [Hpos|_].
    + exfalso. apply Hsign. apply same_sign_product. exact Hpos.
    + eexists. split; [reflexivity|]. intros _. apply bisect_between.
Qed.



Lemma eos_is_ignored_witness :
  (forall std_temp,
      calculate_rxn_gibbs example.haber_process std_temp
      = calculate_rxn_gibbs example.haber_process_vdw std_temp) /\
  @calculate_rxn_k example.si_constants example.haber_process
  = @calculate_rxn_k example.si_constants example.haber_process_vdw /\
  (forall chi pressure reac_init prod_init,
      reaction_equation example.haber_process chi pressure reac_init prod_init
      = reaction_equation example.haber_process_vdw chi pressure
          reac_init prod_init) /\
  (forall pressure reac_init prod_init k_eq,
      @calculate_conversion example.binary64_range example.bisection
        example.haber_process pressure reac_init prod_init k_eq
      = @calculate_conversion example.binary64_range example.bisection
          example.haber_process_vdw pressure reac_init prod_init k_eq).
Proof.
  apply (@eos_is_ignored example.binary64_range example.bisection
           example.si_constants example.haber_process
           example.haber_process_vdw); reflexivity.
Defined.

(** ** The Haber process, end to end *)

Lemma div_lt_upper (n d c : R) : 0 < d -> n < c * d -> n / d < c.
Proof.
  intros Hd H. apply (Rmult_lt_reg_r d); [assumption|].
  unfold Rdiv. rewrite Rmult_assoc, Rinv_l; lra.
Qed.

Lemma div_gt_lower (n d c : R) : 0 < d -> c * d < n -> c < n / d.
Proof.
  intros Hd H. apply (Rmult_lt_reg_r d); [assumption|].
  unfold Rdiv. rewrite Rmult_assoc, Rinv_l; lra.
Qed.

Lemma Q_haber_value (chi : R) :
  0 < chi < 100 ->
  spec.Q example.haber_process chi 100 [100; 300] [0]
  = ((2 * chi) ^ 2 * (400 - 2 * chi) ^ 2)
    / ((100 - chi) * (300 - 3 * chi) ^ 3 * 100 ^ 2).
Proof.
  intros Hchi.
  unfold spec.Q, spec.numerator, spec.denominator, spec.total_moles,
    spec.net_mole_change, spec.Rprod, spec.Rsum, spec.Zsum,
    spec.product_moles, spec.reactant_moles.
  simpl. field. lra.
Qed.

Lemma Q_defined_haber_inside (chi : R) :
  0 < chi < 100 -> spec.Q_defined example.haber_process chi 100 [100; 300] [0].
Proof.
  intros Hchi. unfold spec.Q_defined. split; [|split; [|split; [|split]]].
  - apply positive_orders_defined. repeat constructor; simpl; lia.
  - apply positive_orders_defined. repeat constructor; simpl; lia.
  - intros H. simpl in H. lia.
  - intros _. lra.
  - unfold spec.denominator, spec.Rprod, spec.reactant_moles. simpl.
    rewrite !Rmult_1_r. apply Rmult_integral_contrapositive_currified; [lra|].
    repeat (apply Rmult_integral_contrapositive_currified; [lra|]). lra.
Qed.

Section Haber.
Context {scipy_lib : scipy.optimize}.

Lemma residual_haber_inside (k_eq chi : R) :
  0 < chi < 100 ->
  Rabs (spec.Q example.haber_process chi 100 [100; 300] [0] - k_eq)
    <= 1.7976931348623157e308 ->
  @residual example.binary64_range example.haber_process 100 [100; 300] [0]
    k_eq chi
  = spec.Q example.haber_process chi 100 [100; 300] [0] - k_eq.
Proof.
  intros Hchi Hfin.
  destruct (@residual_cases example.binary64_range example.haber_process 100
              [100; 300] [0] k_eq chi) as (Hval & _).
  apply Hval.
  - apply reaction_equation_defined; try reflexivity.
    apply Q_defined_haber_inside. assumption.
  - simpl. destruct (Rle_dec _ _); [reflexivity | contradiction].
Qed.

(** The residuals at the two ends of the bracket of the Haber process. *)
Lemma residuals_haber (k_eq : R) :
  0 <= k_eq <= 1e30 ->
  let f := @residual example.binary64_range example.haber_process 100
             [100; 300] [0] k_eq in
  - k_eq < f (- (0 / 2) + 1e-5) < 1e-5 - k_eq /\
  1e-5 - k_eq < f (100 / 1 - 1e-5) < 1e24 - k_eq.
Proof.
  intros Hk. simpl.
  assert (Hmin : 0 < spec.Q example.haber_process (- (0 / 2) + 1e-5) 100
                       [100; 300] [0] < 1e-5).
  { rewrite Q_haber_value by lra.
    split; [apply div_gt_lower | apply div_lt_upper]; lra. }
  assert (Hmax : 1e-5 < spec.Q example.haber_process (100 / 1 - 1e-5) 100
                          [100; 300] [0] < 1e24).
  { rewrite Q_haber_value by lra.
    split; [apply div_gt_lower | apply div_lt_upper]; lra. }
  rewrite !residual_haber_inside; try lra; apply Rabs_le; lra.
Qed.

(** With the constant of [main.py] the residual changes sign over the
    bracket and the outcome is that of the root finder. *)
Lemma conversion_haber_solver :
  forall sol,
    scipy.root_scalar
      (@residual example.binary64_range example.haber_process 100
         [100; 300] [0] 1e-5) (- (0 / 2) + 1e-5) (100 / 1 - 1e-5) = Ok sol ->
    @calculate_conversion example.binary64_range scipy_lib
      example.haber_process 100 [100; 300] [0] 1e-5
    = if scipy.converged sol then Ok (scipy.root sol)
      else Raise (RuntimeError NotConverged).
Proof.
  intros sol Hsol.
  destruct (@conversion_after_bracket example.binary64_range scipy_lib
              example.haber_process 100 [100; 300] [0] 1e-5 _ _ bracket_haber)
    as [_ Hchange].
  destruct (residuals_haber 1e-5) as [Hmin Hmax]; [lra|].
  destruct Hchange as [_ Hok]; [apply flush_nonpositive; simpl in *; nra|].
  destruct (Hok sol Hsol) as [Hconv Hstall].
  destruct (scipy.converged sol); auto.
Qed.

(** A constant above every attainable quotient leaves both residuals
    negative: the bracket is rejected, whatever the root finder. *)
Example conversion_haber_no_sign_change :
  exists f_min f_max : R,
    @calculate_conversion example.binary64_range scipy_lib
      example.haber_process 100 [100; 300] [0] 1e30
    = Raise (RuntimeError
               (NoSignChange (- (0 / 2) + 1e-5) f_min (100 / 1 - 1e-5) f_max)) /\
    f_min < 0 /\ f_max < 0.
Proof.
  destruct (@conversion_after_bracket example.binary64_range scipy_lib
              example.haber_process 100 [100; 300] [0] 1e30 _ _ bracket_haber)
    as [Hsame _].
  destruct (residuals_haber 1e30) as [Hmin Hmax]; [lra|].
  pose proof underflow_limit_lt_1 as Hlim.
  simpl in *. do 2 eexists. split; [apply Hsame, mul_positive; nra|]. lra.
Qed.

End Haber.

(** On the inputs of [main.py] the bisection is called and the conversion
    it returns lies inside the bracket. *)
Example conversion_haber :
  exists chi : R,
    @calculate_conversion example.binary64_range example.bisection
      example.haber_process 100 [100; 300] [0] 1e-5 = Ok chi /\
    1e-5 <= chi <= 100 - 1e-5.
Proof.
  eexists. split.
  - rewrite (@conversion_haber_solver example.bisection _ eq_refl). reflexivity.
  - simpl.
    pose proof (bisect_between 60
                  (@residual example.binary64_range example.haber_process 100
                     [100; 300] [0] 1e-5) (- (0 / 2) + 1e-5) (100 / 1 - 1e-5))
      as Hin.
    revert Hin. unfold Rmin, Rmax. destruct (Rle_dec _ _); lra.
Qed.

(** A root finder that gives up makes the call fail with the second
    error. *)
Example conversion_haber_not_converged :
  @calculate_conversion example.binary64_range example.stalled
    example.haber_process 100 [100; 300] [0] 1e-5
  = Raise (RuntimeError NotConverged).
Proof.
  rewrite (@conversion_haber_solver example.stalled _ eq_refl). reflexivity.
Qed.

(** * Further properties of the code *)

(** ** The heat-capacity integrals *)

(** Equal results up to an identity of real arithmetic. *)
Ltac ok_ring :=
  first [ reflexivity
        | apply f_equal; first [ ring | apply f_equal; ring ] ].

Lemma enthalpy_change_value (comp : Component) (T1 T2 : R) :
  T1 <> 0 -> T2 <> 0 ->
  enthalpy_change comp T1 T2
  = Ok (relate.shomate_H comp (T2 / 1000) - relate.shomate_H comp (T1 / 1000)).
Proof.
  intros H1 H2. unfold enthalpy_change, relate.shomate_H.
  destruct (cp_coeffs comp) as [[[[A B] C] D] E].
  rewrite (py_truediv_Ok _ _ (scaled_temp_nonzero T1 H1)). simpl.
  rewrite (py_truediv_Ok _ _ (scaled_temp_nonzero T2 H2)). reflexivity.
Qed.

Lemma entropy_change_value (comp : Component) (T1 T2 : R) :
  0 < T1 -> 0 < T2 ->
  entropy_change comp T1 T2
  = Ok (np.Fin (relate.shomate_S comp (T2 / 1000)
                - relate.shomate_S comp (T1 / 1000))).
Proof.
  intros H1 H2. unfold entropy_change, relate.shomate_S.
  destruct (cp_coeffs comp) as [[[[A B] C] D] E].
  assert (Hz1 : T1 <> 0) by lra. assert (Hz2 : T2 <> 0) by lra.
  rewrite (py_truediv_Ok _ _ (entropy_divisor_nonzero T1 Hz1)). simpl.
  rewrite (py_truediv_Ok _ _ (entropy_divisor_nonzero T2 Hz2)). simpl.
  unfold np.log.
  destruct (Rlt_dec 0 (T1 / 1000)) as [_|Hn]; [|exfalso; apply Hn; lra].
  destruct (Rlt_dec 0 (T2 / 1000)) as [_|Hn]; [|exfalso; apply Hn; lra].
  reflexivity.
Qed.

Lemma entropy_change_antisym (comp : Component) (T1 T2 : R) :
  T1 <> 0 -> T2 <> 0 ->
  exists ds : np.float64,
    entropy_change comp T1 T2 = Ok ds /\
    entropy_change comp T2 T1 = Ok (- ds)%np.
Proof.
  intros H1 H2. unfold entropy_change.
  destruct (cp_coeffs comp) as [[[[A B] C] D] E].
  rewrite (py_truediv_Ok _ _ (entropy_divisor_nonzero T1 H1)). simpl.
  rewrite (py_truediv_Ok _ _ (entropy_divisor_nonzero T2 H2)). simpl.
  unfold np.log.
  destruct (Rlt_dec 0 (T1 / 1000)), (Rlt_dec 0 (T2 / 1000)); simpl;
    eexists; (split; [reflexivity|]); simpl; try reflexivity.
  do 2 f_equal. ring.
Qed.

(** X1.  Swapping the two temperatures of [enthalpy_change] or of
    [entropy_change] changes the sign of the result: between non-zero
    temperatures both calls return, with opposite values (a NaN entropy
    stays a NaN). *)
Theorem integrals_antisymmetric (comp : Component) (T1 T2 : R) :
  T1 <> 0 -> T2 <> 0 ->
  exists (dh : R) (ds : np.float64),
    enthalpy_change comp T1 T2 = Ok dh /\
    enthalpy_change comp T2 T1 = Ok (- dh) /\
    entropy_change comp T1 T2 = Ok ds /\
    entropy_change comp T2 T1 = Ok (- ds)%np.
Proof.
  intros H1 H2.
  destruct (entropy_change_antisym comp T1 T2 H1 H2) as (ds & Hs12 & Hs21).
  exists (relate.shomate_H comp (T2 / 1000) - relate.shomate_H comp (T1 / 1000)), ds.
  rewrite !enthalpy_change_value by assumption.
  repeat split; try assumption. f_equal. ring.
Qed.

Lemma integrals_antisymmetric_witness :
  exists (dh : R) (ds : np.float64),
    enthalpy_change example.ammonia 298.15 500 = Ok dh /\
    enthalpy_change example.ammonia 500 298.15 = Ok (- dh) /\
    entropy_change example.ammonia 298.15 500 = Ok ds /\
    entropy_change example.ammonia 500 298.15 = Ok (- ds)%np.
Proof.
  apply (integrals_antisymmetric example.ammonia 298.15 500); lra.
Defined.

(** X2.  The integrals add up along a path of positive temperatures: from
    [T1] to [T2] and then from [T2] to [T3] gives the change from [T1] to
    [T3], for the enthalpy and for the entropy. *)
Theorem integrals_additive (comp : Component) (T1 T2 T3 : R) :
  0 < T1 -> 0 < T2 -> 0 < T3 ->
  exists h12 h23 s12 s23 : R,
    enthalpy_change comp T1 T2 = Ok h12 /\
    enthalpy_change comp T2 T3 = Ok h23 /\
    enthalpy_change comp T1 T3 = Ok (h12 + h23) /\
    entropy_change comp T1 T2 = Ok (np.Fin s12) /\
    entropy_change comp T2 T3 = Ok (np.Fin s23) /\
    entropy_change comp T1 T3 = Ok (np.Fin (s12 + s23)).
Proof.
  intros H1 H2 H3.
  rewrite !enthalpy_change_value by lra.
  rewrite !entropy_change_value by lra.
  exists (relate.shomate_H comp (T2 / 1000) - relate.shomate_H comp (T1 / 1000)),
         (relate.shomate_H comp (T3 / 1000) - relate.shomate_H comp (T2 / 1000)),
         (relate.shomate_S comp (T2 / 1000) - relate.shomate_S comp (T1 / 1000)),
         (relate.shomate_S comp (T3 / 1000) - relate.shomate_S comp (T2 / 1000)).
  repeat split; ok_ring.
Qed.

Lemma integrals_additive_witness :
  exists h12 h23 s12 s23 : R,
    enthalpy_change example.nitrogen 300 500 = Ok h12 /\
    enthalpy_change example.nitrogen 500 2000 = Ok h23 /\
    enthalpy_change example.nitrogen 300 2000 = Ok (h12 + h23) /\
    entropy_change example.nitrogen 300 500 = Ok (np.Fin s12) /\
    entropy_change example.nitrogen 500 2000 = Ok (np.Fin s23) /\
    entropy_change example.nitrogen 300 2000 = Ok (np.Fin (s12 + s23)).
Proof.
  apply (integrals_additive example.nitrogen 300 500 2000); lra.
Defined.

Lemma scaled_zero : 0 / 1000 = 0.
Proof. lra. Qed.

Lemma entropy_divisor_zero : 2 * (0 / 1000) ^ 2 = 0.
Proof. simpl. lra. Qed.

Lemma enthalpy_change_zero_temp (comp : Component) (T1 T2 : R) :
  T1 = 0 \/ T2 = 0 -> enthalpy_change comp T1 T2 = Raise ZeroDivisionError.
Proof.
  intros Hz. unfold enthalpy_change.
  destruct (cp_coeffs comp) as [[[[A B] C] D] E].
  destruct (Req_dec_T T1 0) as [-> | H1].
  - rewrite (py_truediv_Raise _ _ scaled_zero). reflexivity.
  - destruct Hz as [Hz | ->]; [contradiction|].
    rewrite (py_truediv_Ok _ _ (scaled_temp_nonzero T1 H1)). simpl.
    rewrite (py_truediv_Raise _ _ scaled_zero). reflexivity.
Qed.

Lemma entropy_change_zero_temp (comp : Component) (T1 T2 : R) :
  T1 = 0 \/ T2 = 0 -> entropy_change comp T1 T2 = Raise ZeroDivisionError.
Proof.
  intros Hz. unfold entropy_change.
  destruct (cp_coeffs comp) as [[[[A B] C] D] E].
  destruct (Req_dec_T T1 0) as [-> | H1].
  - rewrite (py_truediv_Raise _ _ entropy_divisor_zero). reflexivity.
  - destruct Hz as [Hz | ->]; [contradiction|].
    rewrite (py_truediv_Ok _ _ (entropy_divisor_nonzero T1 H1)). simpl.
    rewrite (py_truediv_Raise _ _ entropy_divisor_zero). reflexivity.
Qed.

Lemma entropy_change_negative_temp (comp : Component) (T1 T2 : R) :
  T1 <> 0 -> T2 <> 0 -> T1 < 0 \/ T2 < 0 ->
  entropy_change comp T1 T2 = Ok np.NaN.
Proof.
  intros H1 H2 Hneg. unfold entropy_change.
  destruct (cp_coeffs comp) as [[[[A B] C] D] E].
  rewrite (py_truediv_Ok _ _ (entropy_divisor_nonzero T1 H1)). simpl.
  rewrite (py_truediv_Ok _ _ (entropy_divisor_nonzero T2 H2)). simpl.
  unfold np.log.
  destruct (Rlt_dec 0 (T1 / 1000)) as [Hp1|_], (Rlt_dec 0 (T2 / 1000)) as [Hp2|_];
    simpl; try reflexivity.
  exfalso. lra.
Qed.

Lemma ordinary_nonzero (T : R) : relate.ordinary T -> T <> 0.
Proof.
  unfold relate.ordinary. intros [Hlow _] ->. rewrite Rabs_R0 in Hlow. lra.
Qed.

(** X3.  What the two integrals do outside positive temperatures, called
    with Python numbers.  A zero temperature makes both raise
    [ZeroDivisionError], whatever the coefficients (also when [E] is zero).
    Between temperatures of ordinary size (from 1e-150 to 1e70 in absolute
    value, where neither the square underflows nor the fourth power
    overflows) [enthalpy_change] returns a number, and [entropy_change]
    returns a number when both temperatures are positive and NaN, without
    raising, as soon as one is negative. *)
Theorem integrals_edge_cases (comp : Component) (T1 T2 : R) :
  (T1 = 0 \/ T2 = 0 ->
   enthalpy_change comp T1 T2 = Raise ZeroDivisionError /\
   entropy_change comp T1 T2 = Raise ZeroDivisionError) /\
  (relate.ordinary T1 -> relate.ordinary T2 ->
   (exists dh : R, enthalpy_change comp T1 T2 = Ok dh) /\
   (0 < T1 -> 0 < T2 -> exists ds : R, entropy_change comp T1 T2 = Ok (np.Fin ds)) /\
   (T1 < 0 \/ T2 < 0 -> entropy_change comp T1 T2 = Ok np.NaN)).
Proof.
  split.
  - intros Hz. split.
    + apply enthalpy_change_zero_temp. assumption.
    + apply entropy_change_zero_temp. assumption.
  - intros H1 H2. apply ordinary_nonzero in H1, H2. split; [|split].
    + rewrite enthalpy_change_value by assumption. eexists. reflexivity.
    + intros Hp1 Hp2. rewrite entropy_change_value by assumption.
      eexists. reflexivity.
    + apply entropy_change_negative_temp; assumption.
Qed.

(** ** The free energy in closed form *)

Lemma gibbs_reactant_loop (self : Reaction) (std_temp : R)
    (comps : list Component) :
  0 < reac_temp self -> 0 < std_temp ->
  forall h s : R,
    foldM (gibbs_reactant self std_temp) comps (h, np.Fin s)
    = Ok (h - spec.Rsum (map (relate.heating_H std_temp (reac_temp self)) comps),
          np.Fin (s - spec.Rsum (map (relate.heating_S std_temp (reac_temp self))
                                     comps))).
Proof.
  intros HT Hstd. induction comps as [|c comps IH]; intros h s.
  - simpl. rewrite !Rminus_0_r. reflexivity.
  - simpl. unfold gibbs_reactant at 1.
    rewrite enthalpy_change_value by lra. simpl.
    rewrite entropy_change_value by lra. simpl.
    rewrite IH. unfold relate.heating_H, relate.heating_S.
    apply f_equal. apply f_equal2; [|apply f_equal]; ring.
Qed.

Lemma gibbs_product_loop (self : Reaction) (std_temp : R)
    (comps : list Component) :
  0 < reac_temp self -> 0 < std_temp ->
  forall h s : R,
    foldM (gibbs_product self std_temp) comps (h, np.Fin s)
    = Ok (h + spec.Rsum (map (relate.heating_H std_temp (reac_temp self)) comps),
          np.Fin (s + spec.Rsum (map (relate.heating_S std_temp (reac_temp self))
                                     comps))).
Proof.
  intros HT Hstd. induction comps as [|c comps IH]; intros h s.
  - simpl. rewrite !Rplus_0_r. reflexivity.
  - simpl. unfold gibbs_product at 1.
    rewrite enthalpy_change_value by lra. simpl.
    rewrite entropy_change_value by lra. simpl.
    rewrite IH. unfold relate.heating_H, relate.heating_S.
    apply f_equal. apply f_equal2; [|apply f_equal]; ring.
Qed.

Lemma calculate_rxn_gibbs_closed (self : Reaction) (std_temp : R) :
  0 < reac_temp self -> 0 < std_temp ->
  calculate_rxn_gibbs self std_temp
  = Ok (np.Fin (relate.total_dH self std_temp
                - reac_temp self * relate.total_dS self std_temp)).
Proof.
  intros HT Hstd. unfold calculate_rxn_gibbs.
  rewrite gibbs_reactant_loop by assumption. simpl.
  rewrite gibbs_product_loop by assumption. simpl.
  unfold relate.total_dH, relate.total_dS. ok_ring.
Qed.

(** X4.  At positive temperatures [calculate_rxn_gibbs] returns
    [dH - reac_temp * dS], where [dH] is the standard enthalpy change plus
    the heating of every product from the reference to the reaction
    temperature minus that of every reactant, each weighted by its order,
    and [dS] is the same for the entropy. *)
Theorem gibbs_hess_cycle (self : Reaction) (std_temp : R) :
  0 < reac_temp self -> 0 < std_temp ->
  calculate_rxn_gibbs self std_temp
  = Ok (np.Fin (relate.total_dH self std_temp
                - reac_temp self * relate.total_dS self std_temp)).
Proof. exact (calculate_rxn_gibbs_closed self std_temp). Qed.

Lemma gibbs_hess_cycle_witness :
  calculate_rxn_gibbs example.haber_process 298.15
  = Ok (np.Fin (relate.total_dH example.haber_process 298.15
                - 500 * relate.total_dS example.haber_process 298.15)).
Proof.
  apply (gibbs_hess_cycle example.haber_process 298.15); simpl; lra.
Defined.

Lemma calculate_rxn_gibbs_zero_temp (self : Reaction) (std_temp : R) :
  reactants self <> [] \/ products self <> [] ->
  reac_temp self = 0 \/ std_temp = 0 ->
  calculate_rxn_gibbs self std_temp = Raise ZeroDivisionError.
Proof.
  intros Hsome Hz. unfold calculate_rxn_gibbs.
  destruct (reactants self) as [|c rs] eqn:Hr.
  - destruct (products self) as [|c ps] eqn:Hp; [destruct Hsome; congruence|].
    simpl. unfold gibbs_product at 1.
    rewrite enthalpy_change_zero_temp by tauto. reflexivity.
  - simpl. unfold gibbs_reactant at 1.
    rewrite enthalpy_change_zero_temp by tauto. reflexivity.
Qed.

Lemma calculate_rxn_gibbs_no_species (self : Reaction) (std_temp : R) :
  reactants self = [] -> products self = [] ->
  calculate_rxn_gibbs self std_temp
  = Ok (np.Fin (rxn_std_dh self - reac_temp self * rxn_std_ds self)).
Proof.
  intros Hr Hp. unfold calculate_rxn_gibbs. rewrite Hr, Hp. simpl. ok_ring.
Qed.

(** X5.  When [calculate_rxn_gibbs] fails, for temperatures that are
    Python numbers.  With at least one species it raises
    [ZeroDivisionError] as soon as the reaction or the reference temperature
    is zero, and returns when both are of ordinary size (from 1e-150 to 1e70
    in absolute value); without any species it returns
    [rxn_std_dh - reac_temp * rxn_std_ds] at every temperature, zero
    included. *)
Theorem gibbs_error_cases (self : Reaction) (std_temp : R) :
  (reactants self <> [] \/ products self <> [] ->
   reac_temp self = 0 \/ std_temp = 0 ->
   calculate_rxn_gibbs self std_temp = Raise ZeroDivisionError) /\
  (relate.ordinary (reac_temp self) -> relate.ordinary std_temp ->
   exists G : np.float64, calculate_rxn_gibbs self std_temp = Ok G) /\
  (reactants self = [] -> products self = [] ->
   calculate_rxn_gibbs self std_temp
   = Ok (np.Fin (rxn_std_dh self - reac_temp self * rxn_std_ds self))).
Proof.
  split; [|split].
  - apply calculate_rxn_gibbs_zero_temp.
  - intros HT Hstd. apply calculate_rxn_gibbs_total; apply ordinary_nonzero;
      assumption.
  - apply calculate_rxn_gibbs_no_species.
Qed.

Section EquilibriumConstantMore.
Context {consts : constants.values}.

(** X6.  At a reaction temperature that is the Python number zero
    [calculate_rxn_k] raises [ZeroDivisionError] for every list of species
    and every value of the constants: in the first integral when there is
    a species, in the final division otherwise. *)
Theorem rxn_k_at_zero_temperature (self : Reaction) :
  reac_temp self = 0 -> calculate_rxn_k self = Raise ZeroDivisionError.
Proof.
  intros HT. unfold calculate_rxn_k.
  destruct (reactants self) as [|c rs] eqn:Hr.
  - destruct (products self) as [|c ps] eqn:Hp.
    + rewrite calculate_rxn_gibbs_no_species by assumption. simpl.
      unfold np.truediv.
      destruct (Req_dec_T (constants.R_gas * reac_temp self) 0) as [_|Hnz];
        [reflexivity|].
      exfalso. apply Hnz. rewrite HT. ring.
    + rewrite calculate_rxn_gibbs_zero_temp; [reflexivity | | tauto].
      right. rewrite Hp. discriminate.
  - rewrite calculate_rxn_gibbs_zero_temp; [reflexivity | | tauto].
    left. rewrite Hr. discriminate.
Qed.

End EquilibriumConstantMore.

Lemma rxn_k_at_zero_temperature_witness :
  @calculate_rxn_k example.si_constants sample.haber_at_zero
  = Raise ZeroDivisionError.
Proof.
  apply (@rxn_k_at_zero_temperature example.si_constants sample.haber_at_zero).
  reflexivity.
Defined.

(** ** Negative temperatures *)

Lemma gibbs_reactant_nan_step (self : Reaction) (std_temp : R) (c : Component)
    (h : R) (s : np.float64) :
  reac_temp self <> 0 -> std_temp <> 0 -> reac_temp self < 0 \/ std_temp < 0 ->
  exists h', gibbs_reactant self std_temp (h, s) c = Ok (h', np.NaN).
Proof.
  intros HT Hstd Hneg. unfold gibbs_reactant.
  rewrite enthalpy_change_value by assumption. simpl.
  rewrite entropy_change_negative_temp by tauto. simpl.
  eexists. destruct s; reflexivity.
Qed.

Lemma gibbs_product_nan_step (self : Reaction) (std_temp : R) (c : Component)
    (h : R) (s : np.float64) :
  reac_temp self <> 0 -> std_temp <> 0 -> reac_temp self < 0 \/ std_temp < 0 ->
  exists h', gibbs_product self std_temp (h, s) c = Ok (h', np.NaN).
Proof.
  intros HT Hstd Hneg. unfold gibbs_product.
  rewrite enthalpy_change_value by assumption. simpl.
  rewrite entropy_change_negative_temp by tauto. simpl.
  eexists. destruct s; reflexivity.
Qed.

Lemma foldM_cons {A S : Type} (body : S -> A -> result S) (a : A)
    (l : list A) (s : S) :
  foldM body (a :: l) s = bind (body s a) (fun s' => foldM body l s').
Proof. reflexivity. Qed.

Lemma gibbs_reactant_nan_loop (self : Reaction) (std_temp : R)
    (comps : list Component) :
  reac_temp self <> 0 -> std_temp <> 0 -> reac_temp self < 0 \/ std_temp < 0 ->
  forall h, exists h',
    foldM (gibbs_reactant self std_temp) comps (h, np.NaN) = Ok (h', np.NaN).
Proof.
  intros HT Hstd Hneg. induction comps as [|c comps IH]; intros h.
  - eexists. reflexivity.
  - rewrite foldM_cons.
    destruct (gibbs_reactant_nan_step self std_temp c h np.NaN HT Hstd Hneg)
      as (h1 & ->).
    simpl. apply IH.
Qed.

Lemma gibbs_product_nan_loop (self : Reaction) (std_temp : R)
    (comps : list Component) :
  reac_temp self <> 0 -> std_temp <> 0 -> reac_temp self < 0 \/ std_temp < 0 ->
  forall h, exists h',
    foldM (gibbs_product self std_temp) comps (h, np.NaN) = Ok (h', np.NaN).
Proof.
  intros HT Hstd Hneg. induction comps as [|c comps IH]; intros h.
  - eexists. reflexivity.
  - rewrite foldM_cons.
    destruct (gibbs_product_nan_step self std_temp c h np.NaN HT Hstd Hneg)
      as (h1 & ->).
    simpl. apply IH.
Qed.

Lemma calculate_rxn_gibbs_nan (self : Reaction) (std_temp : R) :
  reactants self <> [] \/ products self <> [] ->
  reac_temp self <> 0 -> std_temp <> 0 -> reac_temp self < 0 \/ std_temp < 0 ->
  calculate_rxn_gibbs self std_temp = Ok np.NaN.
Proof.
  intros Hsome HT Hstd Hneg. unfold calculate_rxn_gibbs.
  destruct (reactants self) as [|c rs] eqn:Hr.
  - destruct (products self) as [|c ps] eqn:Hp; [destruct Hsome; congruence|].
    cbv zeta. cbn [foldM bind].
    destruct (gibbs_product_nan_step self std_temp c 0 (np.Fin 0) HT Hstd Hneg)
      as (h1 & ->).
    cbn [bind].
    destruct (gibbs_product_nan_loop self std_temp ps HT Hstd Hneg h1)
      as (h2 & ->).
    reflexivity.
  - cbv zeta. cbn [foldM bind].
    destruct (gibbs_reactant_nan_step self std_temp c 0 (np.Fin 0) HT Hstd Hneg)
      as (h1 & ->).
    cbn [bind].
    destruct (gibbs_reactant_nan_loop self std_temp rs HT Hstd Hneg h1)
      as (h2 & ->).
    cbn [bind].
    destruct (gibbs_product_nan_loop self std_temp (products self) HT Hstd Hneg h2)
      as (h3 & ->).
    reflexivity.
Qed.

Section NegativeTemperature.
Context {consts : constants.values}.

(** X7.  A negative reaction temperature is not rejected: for a reaction
    with at least one species and non-zero constants,
    [calculate_rxn_gibbs] returns NaN and [calculate_rxn_k] returns NaN,
    neither raises. *)
Theorem negative_temperature_gives_nan (self : Reaction) :
  reactants self <> [] \/ products self <> [] ->
  reac_temp self < 0 ->
  constants.R_gas <> 0 -> constants.STD_TEMP <> 0 ->
  calculate_rxn_gibbs self constants.STD_TEMP = Ok np.NaN /\
  calculate_rxn_k self = Ok np.NaN.
Proof.
  intros Hsome HT HR Hstd.
  assert (HG : calculate_rxn_gibbs self constants.STD_TEMP = Ok np.NaN).
  { apply calculate_rxn_gibbs_nan; try assumption; [lra | tauto]. }
  split; [exact HG|].
  unfold calculate_rxn_k. rewrite HG. simpl. unfold np.truediv.
  destruct (Req_dec_T (constants.R_gas * reac_temp self) 0) as [Hz|_];
    [|reflexivity].
  exfalso. apply Rmult_integral in Hz. destruct Hz; [contradiction | lra].
Qed.

End NegativeTemperature.

Lemma negative_temperature_gives_nan_witness :
  calculate_rxn_gibbs sample.haber_below_zero 298.15 = Ok np.NaN /\
  @calculate_rxn_k example.si_constants sample.haber_below_zero = Ok np.NaN.
Proof.
  apply (@negative_temperature_gives_nan example.si_constants
           sample.haber_below_zero); simpl; try lra.
  left. discriminate.
Defined.

(** ** The reverse reaction and the size of the constant *)

Lemma reverse_total_dH (self : Reaction) (std_temp : R) :
  relate.total_dH (relate.reverse self) std_temp = - relate.total_dH self std_temp.
Proof. unfold relate.total_dH, relate.reverse. simpl. ring. Qed.

Lemma reverse_total_dS (self : Reaction) (std_temp : R) :
  relate.total_dS (relate.reverse self) std_temp = - relate.total_dS self std_temp.
Proof. unfold relate.total_dS, relate.reverse. simpl. ring. Qed.

Section EquilibriumConstantValue.
Context {consts : constants.values}.

Lemma calculate_rxn_k_closed (self : Reaction) :
  0 < reac_temp self -> 0 < constants.STD_TEMP -> constants.R_gas <> 0 ->
  calculate_rxn_k self
  = Ok (np.Fin (py.flush
                  (exp (- (relate.total_dH self constants.STD_TEMP
                           - reac_temp self
                             * relate.total_dS self constants.STD_TEMP)
                        / (constants.R_gas * reac_temp self))))).
Proof.
  intros HT Hstd HR. unfold calculate_rxn_k.
  rewrite calculate_rxn_gibbs_closed by assumption. simpl. unfold np.truediv.
  destruct (Req_dec_T (constants.R_gas * reac_temp self) 0) as [Hz|_];
    [|reflexivity].
  exfalso. apply Rmult_integral in Hz. destruct Hz; [contradiction | lra].
Qed.

(** X8.  Reading the reaction from right to left (species lists
    exchanged, standard changes negated) negates the free energy, at
    positive temperatures; and it inverts the equilibrium constant, a
    positive number, as long as [G / (R * reac_temp)] is an exponent for
    which binary64 neither overflows nor underflows. *)
Theorem reverse_reaction_inverts_k (self : Reaction) :
  0 < reac_temp self -> 0 < constants.STD_TEMP -> constants.R_gas <> 0 ->
  exists g : R,
    calculate_rxn_gibbs self constants.STD_TEMP = Ok (np.Fin g) /\
    calculate_rxn_gibbs (relate.reverse self) constants.STD_TEMP
    = Ok (np.Fin (- g)) /\
    (relate.exp_in_range (g / (constants.R_gas * reac_temp self)) ->
     exists k : R,
       0 < k /\
       calculate_rxn_k self = Ok (np.Fin k) /\
       calculate_rxn_k (relate.reverse self) = Ok (np.Fin (/ k))).
Proof.
  intros HT Hstd HR.
  set (g := relate.total_dH self constants.STD_TEMP
            - reac_temp self * relate.total_dS self constants.STD_TEMP).
  exists g.
  split; [apply calculate_rxn_gibbs_closed; assumption|].
  split.
  { rewrite calculate_rxn_gibbs_closed by assumption.
    rewrite reverse_total_dH, reverse_total_dS. simpl. unfold g. ok_ring. }
  intros Hrange. apply exp_in_range_above in Hrange.
  destruct Hrange as [Hrev Hfwd].
  assert (Hden : constants.R_gas * reac_temp self <> 0).
  { intros Hz. apply Rmult_integral in Hz. destruct Hz; [contradiction | lra]. }
  assert (Hx : - g / (constants.R_gas * reac_temp self)
               = - (g / (constants.R_gas * reac_temp self))).
  { field. split; [lra | assumption]. }
  exists (exp (- g / (constants.R_gas * reac_temp self))).
  split; [apply exp_pos|]. split.
  - rewrite calculate_rxn_k_closed by assumption. fold g.
    rewrite flush_above; [reflexivity|]. rewrite Hx. exact Hfwd.
  - rewrite calculate_rxn_k_closed by assumption.
    rewrite reverse_total_dH, reverse_total_dS. simpl.
    replace (- (- relate.total_dH self constants.STD_TEMP
                - reac_temp self * - relate.total_dS self constants.STD_TEMP)
             / (constants.R_gas * reac_temp self))
      with (g / (constants.R_gas * reac_temp self))
      by (unfold g; field; split; [lra | assumption]).
    rewrite flush_above by exact Hrev.
    rewrite Hx, exp_Ropp, Rinv_inv. reflexivity.
Qed.

(** X9.  For a positive gas constant and positive temperatures the
    equilibrium constant is above 1 exactly when the free energy is
    negative, and below 1 exactly when it is positive. *)
Theorem rxn_k_against_one (self : Reaction) :
  0 < reac_temp self -> 0 < constants.STD_TEMP -> 0 < constants.R_gas ->
  exists g k : R,
    calculate_rxn_gibbs self constants.STD_TEMP = Ok (np.Fin g) /\
    calculate_rxn_k self = Ok (np.Fin k) /\
    (1 < k <-> g < 0) /\ (k < 1 <-> 0 < g).
Proof.
  intros HT Hstd HR.
  set (g := relate.total_dH self constants.STD_TEMP
            - reac_temp self * relate.total_dS self constants.STD_TEMP).
  exists g, (py.flush (exp (- g / (constants.R_gas * reac_temp self)))).
  split; [apply calculate_rxn_gibbs_closed; assumption|].
  split; [apply calculate_rxn_k_closed; lra|].
  assert (Hden : 0 < constants.R_gas * reac_temp self) by nra.
  assert (Hsign : forall x, 0 < - x / (constants.R_gas * reac_temp self)
                            <-> x < 0).
  { intros x. unfold Rdiv.
    pose proof (Rinv_0_lt_compat _ Hden) as Hinv. split; intros H; nra. }
  assert (Hsign' : forall x, - x / (constants.R_gas * reac_temp self) < 0
                             <-> 0 < x).
  { intros x. unfold Rdiv.
    pose proof (Rinv_0_lt_compat _ Hden) as Hinv. split; intros H; nra. }
  pose proof (flush_bounds (exp (- g / (constants.R_gas * reac_temp self)))
                (Rlt_le _ _ (exp_pos _))) as [_ Hle].
  pose proof underflow_limit_lt_1 as Hlim.
  split; split; intros H.
  - apply Hsign. apply exp_lt_inv. rewrite exp_0. lra.
  - apply Hsign in H. apply exp_increasing in H. rewrite exp_0 in H.
    rewrite flush_above by lra. exact H.
  - apply Hsign'. apply exp_lt_inv. rewrite exp_0.
    destruct (Rlt_dec (exp (- g / (constants.R_gas * reac_temp self))) 1)
      as [Hlt|Hge]; [exact Hlt|].
    rewrite flush_above in H by lra. lra.
  - apply Hsign' in H. apply exp_increasing in H. rewrite exp_0 in H. lra.
Qed.

(** X10.  The top-level copy's [calculate_rxn_k] takes the free energy as
    an argument, here a Python float.  At [R * reac_temp = 0] it raises
    [ZeroDivisionError]; elsewhere it returns a number that is never
    negative.  As long as the exponents stay where binary64 neither
    overflows nor underflows, the constants are positive, a sum of free
    energies gives the product of the constants and a negated free energy
    the inverse constant. *)
Theorem toplevel_rxn_k_multiplicative (self : Reaction) (g1 g2 : R) :
  (constants.R_gas * reac_temp self <> 0 ->
   (exists k : R, toplevel.calculate_rxn_k self g1 = Ok k /\ 0 <= k) /\
   (relate.exp_in_range (g1 / (constants.R_gas * reac_temp self)) ->
    relate.exp_in_range (g2 / (constants.R_gas * reac_temp self)) ->
    relate.exp_in_range ((g1 + g2) / (constants.R_gas * reac_temp self)) ->
    exists k1 k2 : R,
      0 < k1 /\ 0 < k2 /\
      toplevel.calculate_rxn_k self g1 = Ok k1 /\
      toplevel.calculate_rxn_k self g2 = Ok k2 /\
      toplevel.calculate_rxn_k self (g1 + g2) = Ok (k1 * k2) /\
      toplevel.calculate_rxn_k self (- g1) = Ok (/ k1))) /\
  (constants.R_gas * reac_temp self = 0 ->
   toplevel.calculate_rxn_k self g1 = Raise ZeroDivisionError).
Proof.
  unfold toplevel.calculate_rxn_k. split.
  - intros Hnz. rewrite !py_truediv_Ok by assumption. simpl.
    assert (HR : constants.R_gas <> 0) by (intros H; apply Hnz; rewrite H; ring).
    assert (HT : reac_temp self <> 0) by (intros H; apply Hnz; rewrite H; ring).
    assert (Hneg : forall g, - g / (constants.R_gas * reac_temp self)
                             = - (g / (constants.R_gas * reac_temp self))).
    { intros g. field. tauto. }
    split.
    + eexists. split; [reflexivity|].
      apply flush_bounds. left. apply exp_pos.
    + intros H1 H2 H12.
      apply exp_in_range_above in H1, H2, H12.
      destruct H1 as [H1r H1], H2 as [_ H2], H12 as [_ H12].
      exists (exp (- g1 / (constants.R_gas * reac_temp self))),
             (exp (- g2 / (constants.R_gas * reac_temp self))).
      split; [apply exp_pos|]. split; [apply exp_pos|].
      rewrite !Hneg.
      rewrite !flush_above by assumption.
      split; [reflexivity|]. split; [reflexivity|]. split.
      * rewrite <- exp_plus. do 2 apply f_equal. field. tauto.
      * rewrite Ropp_involutive, exp_Ropp, Rinv_inv.
        rewrite flush_above by assumption. reflexivity.
  - intros Hz. rewrite py_truediv_Raise by assumption. reflexivity.
Qed.

End EquilibriumConstantValue.

Lemma reverse_reaction_inverts_k_witness :
  exists g : R,
    calculate_rxn_gibbs example.haber_process 298.15 = Ok (np.Fin g) /\
    calculate_rxn_gibbs (relate.reverse example.haber_process) 298.15
    = Ok (np.Fin (- g)) /\
    (relate.exp_in_range (g / (8.314 * 500)) ->
     exists k : R,
       0 < k /\
       @calculate_rxn_k example.si_constants example.haber_process
       = Ok (np.Fin k) /\
       @calculate_rxn_k example.si_constants
         (relate.reverse example.haber_process) = Ok (np.Fin (/ k))).
Proof.
  apply (@reverse_reaction_inverts_k example.si_constants example.haber_process);
    simpl; lra.
Defined.

Lemma rxn_k_against_one_witness :
  exists g k : R,
    calculate_rxn_gibbs example.haber_process 298.15 = Ok (np.Fin g) /\
    @calculate_rxn_k example.si_constants example.haber_process = Ok (np.Fin k) /\
    (1 < k <-> g < 0) /\ (k < 1 <-> 0 < g).
Proof.
  apply (@rxn_k_against_one example.si_constants example.haber_process);
    simpl; lra.
Defined.

(** ** An equilibrium constant that underflows *)

Lemma gibbs_endothermic :
  calculate_rxn_gibbs sample.endothermic 298.15 = Ok (np.Fin 1e6).
Proof.
  rewrite calculate_rxn_gibbs_closed by (simpl; lra).
  do 2 apply f_equal.
  unfold relate.total_dH, relate.total_dS, relate.heating_H, relate.heating_S,
    relate.shomate_H, relate.shomate_S.
  simpl. field. lra.
Qed.

(** C7 as stated fails on a reaction with a free energy of 1 MJ/mol at
    100 K: the free energy is finite and the constant returned is 0.0, which
    is not strictly positive. *)
Lemma rxn_k_is_exponential_counterexample :
  calculate_rxn_gibbs sample.endothermic 298.15 = Ok (np.Fin 1e6) /\
  @calculate_rxn_k example.si_constants sample.endothermic = Ok (np.Fin 0).
Proof.
  split; [exact gibbs_endothermic|].
  unfold calculate_rxn_k.
  change (@constants.STD_TEMP example.si_constants) with 298.15.
  rewrite gibbs_endothermic. simpl. unfold np.truediv.
  destruct (Req_dec_T (8.314 * 100) 0) as [Hz|_]; [lra|]. simpl.
  rewrite (proj2 (flush_exp _)); [reflexivity|].
  apply exp_underflows.
  apply Rlt_le, div_lt_upper; lra.
Qed.

(** ** The quotient of a mixture with positive amounts *)

Lemma Rprod_powers_pos (f : Component * R -> R) (l : list (Component * R)) :
  Forall (fun item => 0 < f item) l ->
  0 < spec.Rprod (map (fun item => powerRZ (f item) (order (fst item))) l).
Proof.
  induction 1 as [|item l Hpos _ IH]; simpl; [lra|].
  apply Rmult_lt_0_compat; [apply powerRZ_lt; assumption | exact IH].
Qed.

Lemma Rsum_nonneg (f : Component * R -> R) (l : list (Component * R)) :
  Forall (fun item => 0 < f item) l -> 0 <= spec.Rsum (map f l).
Proof.
  induction 1 as [|item l Hpos _ IH]; simpl; lra.
Qed.

Lemma Rsum_pos (f : Component * R -> R) (l : list (Component * R)) :
  l <> [] -> Forall (fun item => 0 < f item) l -> 0 < spec.Rsum (map f l).
Proof.
  intros Hne Hall. destruct Hall as [|item l Hpos Hrest]; [congruence|].
  simpl. pose proof (Rsum_nonneg f l Hrest). lra.
Qed.

Lemma positive_base_defined (f : Component * R -> R) (l : list (Component * R)) :
  Forall (fun item => 0 < f item) l ->
  Forall (fun item => spec.pow_defined (f item) (order (fst item))) l.
Proof.
  intros Hall. eapply Forall_impl; [|exact Hall].
  intros item Hpos _. apply Rgt_not_eq. exact Hpos.
Qed.

Lemma combine_nil_l {A B : Type} (l : list A) (l' : list B) :
  List.length l' = List.length l -> combine l l' = [] -> l = [].
Proof. destruct l, l'; simpl; congruence. Qed.

(** The total amount of a mixture with positive amounts is positive as
    soon as there is a species; without species the mole change is zero. *)
Lemma total_moles_cases (self : Reaction) (chi : R) (reac_init prod_init : list R) :
  List.length reac_init = List.length (reactants self) ->
  List.length prod_init = List.length (products self) ->
  relate.amounts_positive self chi reac_init prod_init ->
  0 < spec.total_moles self chi reac_init prod_init \/
  (spec.total_moles self chi reac_init prod_init = 0 /\
   spec.net_mole_change self = 0%Z).
Proof.
  intros Hlr Hlp [Hp Hr]. unfold spec.total_moles, spec.net_mole_change.
  pose proof (Rsum_nonneg _ _ Hp) as Hp0.
  pose proof (Rsum_nonneg _ _ Hr) as Hr0.
  destruct (combine (products self) prod_init) as [|ip lp] eqn:Ecp.
  - destruct (combine (reactants self) reac_init) as [|ir lr] eqn:Ecr.
    + right. rewrite (combine_nil_l _ _ Hlp Ecp), (combine_nil_l _ _ Hlr Ecr).
      simpl. split; [lra | reflexivity].
    + left. assert (0 < spec.Rsum (map (spec.reactant_moles chi) (ir :: lr)))
        by (apply Rsum_pos; [discriminate | assumption]).
      simpl in *. lra.
  - left. assert (0 < spec.Rsum (map (spec.product_moles chi) (ip :: lp)))
      by (apply Rsum_pos; [discriminate | assumption]).
    lra.
Qed.

Lemma amounts_positive_defined (self : Reaction) (chi pressure : R)
    (reac_init prod_init : list R) :
  List.length reac_init = List.length (reactants self) ->
  List.length prod_init = List.length (products self) ->
  relate.amounts_positive self chi reac_init prod_init ->
  pressure <> 0 ->
  spec.Q_defined self chi pressure reac_init prod_init.
Proof.
  intros Hlr Hlp Hpos HP.
  pose proof (total_moles_cases self chi reac_init prod_init Hlr Hlp Hpos) as Ht.
  destruct Hpos as [Hp Hr]. unfold spec.Q_defined.
  split; [|split; [|split; [|split]]].
  - apply positive_base_defined. exact Hp.
  - apply positive_base_defined. exact Hr.
  - intros Hneg. destruct Ht as [Ht | [_ Hnet]]; [lra|]. rewrite Hnet in Hneg. lia.
  - intros _. exact HP.
  - apply Rgt_not_eq. apply (Rprod_powers_pos (spec.reactant_moles chi)). exact Hr.
Qed.

Lemma amounts_positive_Q (self : Reaction) (chi pressure : R)
    (reac_init prod_init : list R) :
  List.length reac_init = List.length (reactants self) ->
  List.length prod_init = List.length (products self) ->
  relate.amounts_positive self chi reac_init prod_init ->
  0 < pressure ->
  0 < spec.Q self chi pressure reac_init prod_init.
Proof.
  intros Hlr Hlp Hpos HP.
  pose proof (total_moles_cases self chi reac_init prod_init Hlr Hlp Hpos) as Ht.
  destruct Hpos as [Hp Hr]. unfold spec.Q.
  apply Rmult_lt_0_compat; [apply Rmult_lt_0_compat|].
  - apply Rdiv_lt_0_compat.
    + apply (Rprod_powers_pos (spec.product_moles chi)). exact Hp.
    + apply (Rprod_powers_pos (spec.reactant_moles chi)). exact Hr.
  - destruct Ht as [Ht | [Ht Hnet]].
    + apply powerRZ_lt. exact Ht.
    + rewrite Hnet. simpl. lra.
  - apply powerRZ_lt. exact HP.
Qed.

(** X11.  Where every species has a positive current amount and the
    pressure is positive, [reaction_equation] returns a positive number,
    whatever the orders. *)
Theorem quotient_positive (self : Reaction) (chi pressure : R)
    (reac_init prod_init : list R) :
  List.length reac_init = List.length (reactants self) ->
  List.length prod_init = List.length (products self) ->
  relate.amounts_positive self chi reac_init prod_init ->
  0 < pressure ->
  exists q : R,
    reaction_equation self chi pressure reac_init prod_init = Ok q /\ 0 < q.
Proof.
  intros Hlr Hlp Hpos HP.
  exists (spec.Q self chi pressure reac_init prod_init). split.
  - apply reaction_equation_defined; try assumption.
    apply amounts_positive_defined; try assumption. lra.
  - apply amounts_positive_Q; assumption.
Qed.

Lemma amounts_positive_haber :
  relate.amounts_positive example.haber_process 1 [100; 300] [0].
Proof.
  split; repeat constructor; unfold spec.product_moles, spec.reactant_moles;
    simpl; lra.
Qed.

Lemma quotient_positive_witness :
  exists q : R,
    reaction_equation example.haber_process 1 100 [100; 300] [0] = Ok q /\ 0 < q.
Proof.
  apply (quotient_positive example.haber_process 1 100 [100; 300] [0]);
    [reflexivity | reflexivity | exact amounts_positive_haber | lra].
Defined.

(** ** Pressure *)

Lemma product_loop_delta (chi : R) (init : list R) (comps : list Component) :
  forall (k : nat) (n e : R) (d : Z) (n' e' : R) (d' : Z),
    foldM (quotient_product chi init) (py.enumerate_from k comps) (n, e, d)
    = Ok (n', e', d') ->
    d' = (d + spec.Zsum (map order comps))%Z.
Proof.
  induction comps as [|c comps IH]; intros k n e d n' e' d' H.
  - simpl in H. injection H as _ _ <-. simpl. lia.
  - simpl in H. destruct (py.getitem init k) as [n0|?]; [|discriminate].
    simpl in H. destruct (py.pow _ (order c)) as [p|?]; [|discriminate].
    simpl in H. apply IH in H. simpl. lia.
Qed.

Lemma reactant_loop_delta (chi : R) (init : list R) (comps : list Component) :
  forall (k : nat) (n e : R) (d : Z) (n' e' : R) (d' : Z),
    foldM (quotient_reactant chi init) (py.enumerate_from k comps) (n, e, d)
    = Ok (n', e', d') ->
    d' = (d - spec.Zsum (map order comps))%Z.
Proof.
  induction comps as [|c comps IH]; intros k n e d n' e' d' H.
  - simpl in H. injection H as _ _ <-. simpl. lia.
  - simpl in H. destruct (py.getitem init k) as [n0|?]; [|discriminate].
    simpl in H. destruct (py.pow _ (order c)) as [p|?]; [|discriminate].
    simpl in H. apply IH in H. simpl. lia.
Qed.

(** [reaction_equation] as its two loops followed by the three operations
    in which the pressure takes part. *)
Lemma reaction_equation_loops (self : Reaction) (chi pressure : R)
    (reac_init prod_init : list R) :
  (exists e, reaction_equation self chi pressure reac_init prod_init = Raise e /\
             forall pressure',
               reaction_equation self chi pressure' reac_init prod_init = Raise e) \/
  (exists numerator denominator total : R,
     forall pressure',
       reaction_equation self chi pressure' reac_init prod_init
       = (total_mol_term <- py.pow total (- spec.net_mole_change self) ;;
          pressure_term <- py.pow pressure' (spec.net_mole_change self) ;;
          q <- py.truediv numerator denominator ;;
          Ok (q * total_mol_term * pressure_term))).
Proof.
  unfold reaction_equation, py.enumerate.
  destruct (foldM (quotient_product chi prod_init)
              (py.enumerate_from 0 (products self)) (1, 0, 0%Z))
    as [[[n ep] d1]|e] eqn:Hp.
  - cbn [bind].
    destruct (foldM (quotient_reactant chi reac_init)
                (py.enumerate_from 0 (reactants self)) (1, 0, d1))
      as [[[den er] d2]|e] eqn:Hr.
    + right. exists n, den, (ep + er). intros pressure'.
      apply product_loop_delta in Hp. apply reactant_loop_delta in Hr.
      assert (Hd : d2 = spec.net_mole_change self)
        by (unfold spec.net_mole_change; lia).
      cbn [bind]. rewrite Hd. reflexivity.
    + left. exists e. split; [reflexivity|]. intros pressure'. reflexivity.
  - left. exists e. split; [reflexivity|]. intros pressure'. reflexivity.
Qed.

Lemma py_pow_nonzero (x : R) (n : Z) : x <> 0 -> py.pow x n = Ok (powerRZ x n).
Proof. intros Hx. apply py_pow_defined. intros _. exact Hx. Qed.

(** X12.  The pressure enters the quotient as the factor
    [pressure ** net_mole_change] only: between two non-zero pressures a
    value [q] of [reaction_equation] becomes
    [q * (pressure' / pressure) ** net_mole_change]. *)
Theorem quotient_pressure_law (self : Reaction) (chi pressure pressure' : R)
    (reac_init prod_init : list R) (q : R) :
  pressure <> 0 -> pressure' <> 0 ->
  reaction_equation self chi pressure reac_init prod_init = Ok q ->
  reaction_equation self chi pressure' reac_init prod_init
  = Ok (q * powerRZ (pressure' / pressure) (spec.net_mole_change self)).
Proof.
  intros HP HP' Hq.
  destruct (reaction_equation_loops self chi pressure reac_init prod_init)
    as [(e & He & _) | (n & den & total & Hloops)].
  - rewrite He in Hq. discriminate.
  - rewrite Hloops in Hq. rewrite Hloops.
    destruct (py.pow total (- spec.net_mole_change self)) as [t|?];
      [|discriminate].
    simpl in *. rewrite (py_pow_nonzero _ _ HP) in Hq.
    rewrite (py_pow_nonzero _ _ HP'). simpl in *.
    destruct (py.truediv n den) as [x|?]; [|discriminate].
    simpl in *. injection Hq as <-. apply f_equal.
    replace pressure' with (pressure * (pressure' / pressure)) at 1
      by (field; assumption).
    rewrite powerRZ_mult. ring.
Qed.

Lemma quotient_pressure_law_witness :
  reaction_equation example.haber_process 1 200 [100; 300] [0]
  = Ok (spec.Q example.haber_process 1 100 [100; 300] [0]
        * powerRZ (200 / 100) (spec.net_mole_change example.haber_process)).
Proof.
  apply (quotient_pressure_law example.haber_process 1 100 200 [100; 300] [0]);
    [lra | lra |].
  apply reaction_equation_defined; [reflexivity | reflexivity |].
  exact Q_defined_haber.
Defined.

Section Equimolar.
Context {numpy_lib : np.predicates} {scipy_lib : scipy.optimize}.

Lemma equimolar_quotient (self : Reaction) (chi pressure pressure' : R)
    (reac_init prod_init : list R) :
  spec.net_mole_change self = 0%Z ->
  reaction_equation self chi pressure reac_init prod_init
  = reaction_equation self chi pressure' reac_init prod_init.
Proof.
  intros Hnet.
  destruct (reaction_equation_loops self chi pressure reac_init prod_init)
    as [(e & He & Hall) | (n & den & total & Hloops)].
  - rewrite He, Hall. reflexivity.
  - rewrite !Hloops, Hnet. reflexivity.
Qed.

(** X13.  For a reaction with as many moles of products as of reactants
    (sum of the product orders equal to the sum of the reactant orders) the
    pressure has no effect: [reaction_equation] and [calculate_conversion]
    give the same result, value or exception, at any two pressures, zero
    included. *)
Theorem equimolar_pressure_independent (self : Reaction)
    (pressure pressure' : R) :
  spec.net_mole_change self = 0%Z ->
  (forall chi reac_init prod_init,
      reaction_equation self chi pressure reac_init prod_init
      = reaction_equation self chi pressure' reac_init prod_init) /\
  (forall reac_init prod_init k_eq,
      calculate_conversion self pressure reac_init prod_init k_eq
      = calculate_conversion self pressure' reac_init prod_init k_eq).
Proof.
  intros Hnet. split.
  - intros chi reac_init prod_init. apply equimolar_quotient. exact Hnet.
  - intros reac_init prod_init k_eq.
    assert (Hres : residual self pressure reac_init prod_init k_eq
                   = residual self pressure' reac_init prod_init k_eq).
    { apply functional_extensionality. intros chi. unfold residual.
      rewrite (equimolar_quotient self chi pressure pressure' _ _ Hnet).
      reflexivity. }
    unfold calculate_conversion. rewrite Hres. reflexivity.
Qed.

End Equimolar.

Lemma equimolar_pressure_independent_witness :
  (forall chi reac_init prod_init,
      reaction_equation sample.water_gas_shift chi 1 reac_init prod_init
      = reaction_equation sample.water_gas_shift chi 50 reac_init prod_init) /\
  (forall reac_init prod_init k_eq,
      @calculate_conversion example.binary64_range example.bisection
        sample.water_gas_shift 1 reac_init prod_init k_eq
      = @calculate_conversion example.binary64_range example.bisection
          sample.water_gas_shift 50 reac_init prod_init k_eq).
Proof.
  apply (@equimolar_pressure_independent example.binary64_range
           example.bisection sample.water_gas_shift 1 50).
  reflexivity.
Defined.

(** ** Scaling the mixture *)

Lemma combine_scale (k : R) (comps : list Component) (init : list R) :
  combine comps (relate.scale k init)
  = map (fun item => (fst item, k * snd item)) (combine comps init).
Proof.
  unfold relate.scale. revert init.
  induction comps as [|c comps IH]; intros [|n0 init]; simpl; try reflexivity.
  rewrite IH. reflexivity.
Qed.

Lemma Rprod_powers_scale (k : R) (f : Component * R -> R)
    (l : list (Component * R)) :
  k <> 0 ->
  spec.Rprod (map (fun item => powerRZ (k * f item) (order (fst item))) l)
  = powerRZ k (spec.Zsum (map (fun item => order (fst item)) l))
    * spec.Rprod (map (fun item => powerRZ (f item) (order (fst item))) l).
Proof.
  intros Hk. induction l as [|item l IH]; simpl; [ring|].
  rewrite IH, powerRZ_mult, powerRZ_add by assumption. ring.
Qed.

Lemma Rsum_scale (k : R) (f : Component * R -> R) (l : list (Component * R)) :
  spec.Rsum (map (fun item => k * f item) l) = k * spec.Rsum (map f l).
Proof.
  induction l as [|item l IH]; simpl; [ring|]. rewrite IH. ring.
Qed.

Lemma Zsum_combine_orders (comps : list Component) (init : list R) :
  List.length init = List.length comps ->
  spec.Zsum (map (fun item : Component * R => order (fst item))
                 (combine comps init))
  = spec.Zsum (map order comps).
Proof.
  revert init. induction comps as [|c comps IH]; intros [|n0 init] Hlen;
    simpl in *; try discriminate; [reflexivity|].
  rewrite IH by lia. reflexivity.
Qed.

Section Scaling.
Variables (self : Reaction) (k chi : R) (reac_init prod_init : list R).
Hypothesis Hk : k <> 0.
Hypothesis Hlr : List.length reac_init = List.length (reactants self).
Hypothesis Hlp : List.length prod_init = List.length (products self).

Lemma numerator_scale :
  spec.numerator self (k * chi) (relate.scale k prod_init)
  = powerRZ k (spec.Zsum (map order (products self)))
    * spec.numerator self chi prod_init.
Proof.
  unfold spec.numerator. rewrite combine_scale, map_map.
  rewrite <- (Zsum_combine_orders _ _ Hlp).
  rewrite <- (Rprod_powers_scale k (spec.product_moles chi)) by assumption.
  f_equal. apply map_ext. intros [c n0].
  unfold spec.product_moles. simpl. f_equal. ring.
Qed.

Lemma denominator_scale :
  spec.denominator self (k * chi) (relate.scale k reac_init)
  = powerRZ k (spec.Zsum (map order (reactants self)))
    * spec.denominator self chi reac_init.
Proof.
  unfold spec.denominator. rewrite combine_scale, map_map.
  rewrite <- (Zsum_combine_orders _ _ Hlr).
  rewrite <- (Rprod_powers_scale k (spec.reactant_moles chi)) by assumption.
  f_equal. apply map_ext. intros [c n0].
  unfold spec.reactant_moles. simpl. f_equal. ring.
Qed.

Lemma total_moles_scale :
  spec.total_moles self (k * chi) (relate.scale k reac_init)
    (relate.scale k prod_init)
  = k * spec.total_moles self chi reac_init prod_init.
Proof.
  unfold spec.total_moles. rewrite !combine_scale, !map_map.
  rewrite Rmult_plus_distr_l.
  rewrite <- (Rsum_scale k (spec.product_moles chi)).
  rewrite <- (Rsum_scale k (spec.reactant_moles chi)).
  f_equal; f_equal; apply map_ext; intros [c n0];
    unfold spec.product_moles, spec.reactant_moles; simpl; ring.
Qed.

Lemma pow_defined_scale (x : R) (n : Z) :
  spec.pow_defined (k * x) n <-> spec.pow_defined x n.
Proof.
  unfold spec.pow_defined. split; intros H Hn; specialize (H Hn).
  - intros Hx. apply H. rewrite Hx. ring.
  - apply Rmult_integral_contrapositive_currified; assumption.
Qed.

Lemma Forall_defined_scale (f g : Component * R -> R)
    (l : list (Component * R)) :
  (forall item, g (fst item, k * snd item) = k * f item) ->
  Forall (fun item => spec.pow_defined (g item) (order (fst item)))
         (map (fun item => (fst item, k * snd item)) l) <->
  Forall (fun item => spec.pow_defined (f item) (order (fst item))) l.
Proof.
  intros Hg. rewrite Forall_map. split; intros H;
    (eapply Forall_impl; [|exact H]); intros item; simpl;
    rewrite Hg; apply pow_defined_scale.
Qed.

Lemma Q_defined_scale (pressure : R) :
  spec.Q_defined self (k * chi) pressure (relate.scale k reac_init)
    (relate.scale k prod_init)
  <-> spec.Q_defined self chi pressure reac_init prod_init.
Proof.
  unfold spec.Q_defined.
  rewrite total_moles_scale, denominator_scale, !combine_scale.
  rewrite (Forall_defined_scale (spec.product_moles chi)
             (spec.product_moles (k * chi)))
    by (intros [c n0]; unfold spec.product_moles; simpl; ring).
  rewrite (Forall_defined_scale (spec.reactant_moles chi)
             (spec.reactant_moles (k * chi)))
    by (intros [c n0]; unfold spec.reactant_moles; simpl; ring).
  rewrite pow_defined_scale.
  assert (Hpow : powerRZ k (spec.Zsum (map order (reactants self))) <> 0)
    by (apply powerRZ_NOR; assumption).
  split; intros (H1 & H2 & H3 & H4 & H5); repeat split; try assumption.
  - intros Hz. apply H5. rewrite Hz. ring.
  - apply Rmult_integral_contrapositive_currified; assumption.
Qed.

Lemma Q_scale (pressure : R) :
  spec.denominator self chi reac_init <> 0 ->
  spec.Q self (k * chi) pressure (relate.scale k reac_init)
    (relate.scale k prod_init)
  = spec.Q self chi pressure reac_init prod_init.
Proof.
  intros Hden. unfold spec.Q.
  rewrite total_moles_scale, numerator_scale, denominator_scale.
  unfold spec.net_mole_change.
  set (N := spec.Zsum (map order (products self))).
  set (M := spec.Zsum (map order (reactants self))).
  rewrite (powerRZ_mult (- (N - M)) k).
  replace (- (N - M))%Z with (- N + M)%Z by lia.
  rewrite (powerRZ_add k) by assumption.
  rewrite (powerRZ_neg' k N).
  assert (HN : powerRZ k N <> 0) by (apply powerRZ_NOR; assumption).
  assert (HM : powerRZ k M <> 0) by (apply powerRZ_NOR; assumption).
  field. repeat split; assumption.
Qed.

End Scaling.

(** X14.  The quotient does not depend on the size of the mixture: with
    matching lists, multiplying every initial amount and the extent by the
    same non-zero factor leaves the result of [reaction_equation] unchanged,
    value or exception. *)
Theorem quotient_scale_invariant (self : Reaction) (k chi pressure : R)
    (reac_init prod_init : list R) :
  k <> 0 ->
  List.length reac_init = List.length (reactants self) ->
  List.length prod_init = List.length (products self) ->
  reaction_equation self (k * chi) pressure (relate.scale k reac_init)
    (relate.scale k prod_init)
  = reaction_equation self chi pressure reac_init prod_init.
Proof.
  intros Hk Hlr Hlp.
  assert (Hlr' : List.length (relate.scale k reac_init)
                 = List.length (reactants self))
    by (unfold relate.scale; rewrite length_map; assumption).
  assert (Hlp' : List.length (relate.scale k prod_init)
                 = List.length (products self))
    by (unfold relate.scale; rewrite length_map; assumption).
  pose proof (Q_defined_scale self k chi reac_init prod_init Hk Hlr pressure)
    as Hdef.
  destruct (Classical_Prop.classic
              (spec.Q_defined self chi pressure reac_init prod_init)) as [Hd|Hd].
  - rewrite (reaction_equation_defined _ _ _ _ _ Hlr Hlp Hd).
    rewrite (reaction_equation_defined _ _ _ _ _ Hlr' Hlp' (proj2 Hdef Hd)).
    f_equal. apply Q_scale; try assumption. apply Hd.
  - rewrite (reaction_equation_undefined _ _ _ _ _ Hlr Hlp Hd).
    apply reaction_equation_undefined; try assumption.
    intros H. apply Hd, Hdef. exact H.
Qed.

Lemma quotient_scale_invariant_witness :
  reaction_equation example.haber_process (1000 * 1) 100
    (relate.scale 1000 [100; 300]) (relate.scale 1000 [0])
  = reaction_equation example.haber_process 1 100 [100; 300] [0].
Proof.
  apply (quotient_scale_invariant example.haber_process 1000 1 100
           [100; 300] [0]); [lra | reflexivity | reflexivity].
Defined.

(** ** The quotient of the reverse reaction *)

Lemma reverse_product_moles (chi : R) (item : Component * R) :
  spec.product_moles (- chi) item = spec.reactant_moles chi item.
Proof. unfold spec.product_moles, spec.reactant_moles. ring. Qed.

Lemma reverse_reactant_moles (chi : R) (item : Component * R) :
  spec.reactant_moles (- chi) item = spec.product_moles chi item.
Proof. unfold spec.product_moles, spec.reactant_moles. ring. Qed.

Lemma reverse_amounts_positive (self : Reaction) (chi : R)
    (reac_init prod_init : list R) :
  relate.amounts_positive self chi reac_init prod_init ->
  relate.amounts_positive (relate.reverse self) (- chi) prod_init reac_init.
Proof.
  intros [Hp Hr]. split; simpl.
  - eapply Forall_impl; [|exact Hr]. intros item H.
    rewrite reverse_product_moles. exact H.
  - eapply Forall_impl; [|exact Hp]. intros item H.
    rewrite reverse_reactant_moles. exact H.
Qed.

Lemma reverse_numerator (self : Reaction) (chi : R) (reac_init : list R) :
  spec.numerator (relate.reverse self) (- chi) reac_init
  = spec.denominator self chi reac_init.
Proof.
  unfold spec.numerator, spec.denominator. simpl. f_equal.
  apply map_ext. intros item. rewrite reverse_product_moles. reflexivity.
Qed.

Lemma reverse_denominator (self : Reaction) (chi : R) (prod_init : list R) :
  spec.denominator (relate.reverse self) (- chi) prod_init
  = spec.numerator self chi prod_init.
Proof.
  unfold spec.numerator, spec.denominator. simpl. f_equal.
  apply map_ext. intros item. rewrite reverse_reactant_moles. reflexivity.
Qed.

Lemma reverse_total_moles (self : Reaction) (chi : R)
    (reac_init prod_init : list R) :
  spec.total_moles (relate.reverse self) (- chi) prod_init reac_init
  = spec.total_moles self chi reac_init prod_init.
Proof.
  unfold spec.total_moles. simpl. rewrite Rplus_comm. f_equal; f_equal;
    apply map_ext; intros item;
    [apply reverse_reactant_moles | apply reverse_product_moles].
Qed.

Lemma reverse_net_mole_change (self : Reaction) :
  spec.net_mole_change (relate.reverse self) = (- spec.net_mole_change self)%Z.
Proof. unfold spec.net_mole_change. simpl. lia. Qed.

(** X15.  Where every current amount is positive and the pressure is
    positive, the reverse reaction (species lists and initial moles
    exchanged) taken at the opposite extent has the inverse quotient:
    [reaction_equation] returns [q] for the one and [1 / q] for the other. *)
Theorem reverse_reaction_inverts_quotient (self : Reaction) (chi pressure : R)
    (reac_init prod_init : list R) :
  List.length reac_init = List.length (reactants self) ->
  List.length prod_init = List.length (products self) ->
  relate.amounts_positive self chi reac_init prod_init ->
  0 < pressure ->
  exists q : R,
    0 < q /\
    reaction_equation self chi pressure reac_init prod_init = Ok q /\
    reaction_equation (relate.reverse self) (- chi) pressure prod_init reac_init
    = Ok (/ q).
Proof.
  intros Hlr Hlp Hpos HP.
  exists (spec.Q self chi pressure reac_init prod_init).
  assert (HPnz : pressure <> 0) by lra.
  split; [apply amounts_positive_Q; assumption|].
  split.
  { apply reaction_equation_defined; try assumption.
    apply amounts_positive_defined; assumption. }
  rewrite reaction_equation_defined; try assumption.
  2:{ apply amounts_positive_defined; try assumption.
      apply reverse_amounts_positive. assumption. }
  f_equal. unfold spec.Q.
  rewrite reverse_numerator, reverse_denominator, reverse_total_moles,
    reverse_net_mole_change.
  rewrite (powerRZ_neg' (spec.total_moles self chi reac_init prod_init)
             (- spec.net_mole_change self)).
  rewrite (powerRZ_neg' pressure).
  pose proof (total_moles_cases self chi reac_init prod_init Hlr Hlp Hpos) as Ht.
  destruct Hpos as [Hp Hr].
  pose proof (Rprod_powers_pos (spec.product_moles chi) _ Hp) as Hnum.
  pose proof (Rprod_powers_pos (spec.reactant_moles chi) _ Hr) as Hden.
  fold (spec.numerator self chi prod_init) in Hnum.
  fold (spec.denominator self chi reac_init) in Hden.
  assert (Htot : powerRZ (spec.total_moles self chi reac_init prod_init)
                   (- spec.net_mole_change self) <> 0).
  { destruct Ht as [Ht | [Ht Hnet]].
    - apply powerRZ_NOR. lra.
    - rewrite Hnet. simpl. lra. }
  assert (Hpr : powerRZ pressure (spec.net_mole_change self) <> 0)
    by (apply powerRZ_NOR; assumption).
  field. repeat split; try assumption; lra.
Qed.

Lemma reverse_reaction_inverts_quotient_witness :
  exists q : R,
    0 < q /\
    reaction_equation example.haber_process 1 100 [100; 300] [0] = Ok q /\
    reaction_equation (relate.reverse example.haber_process) (- 1) 100
      [0] [100; 300]
    = Ok (/ q).
Proof.
  apply (reverse_reaction_inverts_quotient example.haber_process 1 100
           [100; 300] [0]);
    [reflexivity | reflexivity | exact amounts_positive_haber | lra].
Defined.

(** ** Initial moles shorter or longer than the species lists *)

Lemma getitem_ext {A : Type} (l l' : list A) (i : nat) :
  nth_error l i = nth_error l' i -> py.getitem l i = py.getitem l' i.
Proof. unfold py.getitem. intros ->. reflexivity. Qed.

Lemma product_loop_ext (chi : R) (comps : list Component) :
  forall (k : nat) (l l' : list R) (st : R * R * Z),
    (forall i, (k <= i < k + List.length comps)%nat ->
               nth_error l i = nth_error l' i) ->
    foldM (quotient_product chi l) (py.enumerate_from k comps) st
    = foldM (quotient_product chi l') (py.enumerate_from k comps) st.
Proof.
  induction comps as [|c comps IH]; intros k l l' [[n e] d] Hnth;
    [reflexivity|].
  simpl. rewrite (getitem_ext l l' k) by (apply Hnth; simpl; lia).
  destruct (py.getitem l' k) as [n0|?]; [|reflexivity]. simpl.
  destruct (py.pow _ (order c)) as [p|?]; [|reflexivity]. simpl.
  apply IH. intros i Hi. apply Hnth. simpl. lia.
Qed.

Lemma reactant_loop_ext (chi : R) (comps : list Component) :
  forall (k : nat) (l l' : list R) (st : R * R * Z),
    (forall i, (k <= i < k + List.length comps)%nat ->
               nth_error l i = nth_error l' i) ->
    foldM (quotient_reactant chi l) (py.enumerate_from k comps) st
    = foldM (quotient_reactant chi l') (py.enumerate_from k comps) st.
Proof.
  induction comps as [|c comps IH]; intros k l l' [[n e] d] Hnth;
    [reflexivity|].
  simpl. rewrite (getitem_ext l l' k) by (apply Hnth; simpl; lia).
  destruct (py.getitem l' k) as [n0|?]; [|reflexivity]. simpl.
  destruct (py.pow _ (order c)) as [p|?]; [|reflexivity]. simpl.
  apply IH. intros i Hi. apply Hnth. simpl. lia.
Qed.

Lemma py_pow_positive_order (x : R) (n : Z) :
  (0 < n)%Z -> py.pow x n = Ok (powerRZ x n).
Proof. intros Hn. apply py_pow_defined. intros Hneg. lia. Qed.

Lemma getitem_in_range {A : Type} (l : list A) (i : nat) :
  (i < List.length l)%nat -> exists a, py.getitem l i = Ok a.
Proof.
  intros Hi. unfold py.getitem.
  destruct (nth_error l i) as [a|] eqn:Hn; [eexists; reflexivity|].
  apply nth_error_None in Hn. lia.
Qed.

Lemma getitem_out_of_range {A : Type} (l : list A) (i : nat) :
  (List.length l <= i)%nat -> py.getitem l i = Raise IndexError.
Proof.
  intros Hi. unfold py.getitem.
  apply nth_error_None in Hi. rewrite Hi. reflexivity.
Qed.

Lemma product_loop_short (chi : R) (l : list R) (comps : list Component) :
  relate.orders_positive comps ->
  forall (k : nat) (st : R * R * Z),
    (k <= List.length l)%nat -> (List.length l < k + List.length comps)%nat ->
    foldM (quotient_product chi l) (py.enumerate_from k comps) st
    = Raise IndexError.
Proof.
  induction 1 as [|c comps Hc _ IH]; intros k [[n e] d] Hk Hshort;
    simpl in *; [lia|].
  destruct (Nat.eq_dec k (List.length l)) as [Heq|Hne].
  - rewrite getitem_out_of_range by lia. reflexivity.
  - destruct (getitem_in_range l k) as (n0 & ->); [lia|]. simpl.
    rewrite py_pow_positive_order by assumption. simpl.
    apply IH; lia.
Qed.

Lemma reactant_loop_short (chi : R) (l : list R) (comps : list Component) :
  relate.orders_positive comps ->
  forall (k : nat) (st : R * R * Z),
    (k <= List.length l)%nat -> (List.length l < k + List.length comps)%nat ->
    foldM (quotient_reactant chi l) (py.enumerate_from k comps) st
    = Raise IndexError.
Proof.
  induction 1 as [|c comps Hc _ IH]; intros k [[n e] d] Hk Hshort;
    simpl in *; [lia|].
  destruct (Nat.eq_dec k (List.length l)) as [Heq|Hne].
  - rewrite getitem_out_of_range by lia. reflexivity.
  - destruct (getitem_in_range l k) as (n0 & ->); [lia|]. simpl.
    rewrite py_pow_positive_order by assumption. simpl.
    apply IH; lia.
Qed.

Lemma product_loop_long (chi : R) (l : list R) (comps : list Component) :
  relate.orders_positive comps ->
  forall (k : nat) (st : R * R * Z),
    (k + List.length comps <= List.length l)%nat ->
    exists st',
      foldM (quotient_product chi l) (py.enumerate_from k comps) st = Ok st'.
Proof.
  induction 1 as [|c comps Hc _ IH]; intros k [[n e] d] Hlong; simpl in *.
  - eexists. reflexivity.
  - destruct (getitem_in_range l k) as (n0 & ->); [lia|]. simpl.
    rewrite py_pow_positive_order by assumption. simpl.
    apply IH. lia.
Qed.

Lemma reaction_equation_short (self : Reaction) (chi pressure : R)
    (reac_init prod_init : list R) :
  relate.orders_positive (reactants self) ->
  relate.orders_positive (products self) ->
  (List.length prod_init < List.length (products self))%nat \/
  (List.length reac_init < List.length (reactants self))%nat ->
  reaction_equation self chi pressure reac_init prod_init = Raise IndexError.
Proof.
  intros Hr Hp Hshort. unfold reaction_equation, py.enumerate.
  destruct (Nat.lt_ge_cases (List.length prod_init) (List.length (products self)))
    as [Hlt|Hge].
  - rewrite product_loop_short by (try assumption; lia). reflexivity.
  - destruct (product_loop_long chi prod_init (products self) Hp 0 (1, 0, 0%Z))
      as ([[n e] d] & ->); [simpl; lia|].
    cbn [bind].
    rewrite reactant_loop_short by (try assumption; lia). reflexivity.
Qed.

(** X16.  With positive orders, an initial-moles list shorter than its
    species list makes [reaction_equation] raise [IndexError], at every
    extent and pressure. *)
Theorem short_initial_moles_raise (self : Reaction) (chi pressure : R)
    (reac_init prod_init : list R) :
  relate.orders_positive (reactants self) ->
  relate.orders_positive (products self) ->
  (List.length prod_init < List.length (products self))%nat \/
  (List.length reac_init < List.length (reactants self))%nat ->
  reaction_equation self chi pressure reac_init prod_init = Raise IndexError.
Proof. exact (reaction_equation_short self chi pressure reac_init prod_init). Qed.

Lemma orders_positive_haber :
  relate.orders_positive (reactants example.haber_process) /\
  relate.orders_positive (products example.haber_process).
Proof. split; repeat constructor; simpl; lia. Qed.

Lemma short_initial_moles_raise_witness :
  reaction_equation example.haber_process 1 100 [100] [0] = Raise IndexError.
Proof.
  apply (short_initial_moles_raise example.haber_process 1 100 [100] [0]);
    [apply orders_positive_haber | apply orders_positive_haber |].
  right. simpl. lia.
Defined.

Lemma combine_surplus {A B : Type} (l : list A) (l' extra : list B) :
  List.length l' = List.length l -> combine l (l' ++ extra) = combine l l'.
Proof.
  revert l'. induction l as [|a l IH]; intros [|b l'] Hlen; simpl in *;
    try discriminate.
  - destruct extra; reflexivity.
  - rewrite IH by lia. reflexivity.
Qed.

Lemma reaction_equation_surplus (self : Reaction) (chi pressure : R)
    (reac_init prod_init extra_r extra_p : list R) :
  List.length reac_init = List.length (reactants self) ->
  List.length prod_init = List.length (products self) ->
  reaction_equation self chi pressure (reac_init ++ extra_r) (prod_init ++ extra_p)
  = reaction_equation self chi pressure reac_init prod_init.
Proof.
  intros Hlr Hlp. unfold reaction_equation, py.enumerate.
  rewrite (product_loop_ext chi (products self) 0 (prod_init ++ extra_p) prod_init)
    by (intros i Hi; apply nth_error_app1; simpl in Hi; lia).
  destruct (foldM (quotient_product chi prod_init) _ _) as [[[n e] d]|?];
    [|reflexivity].
  cbn [bind].
  rewrite (reactant_loop_ext chi (reactants self) 0 (reac_init ++ extra_r) reac_init)
    by (intros i Hi; apply nth_error_app1; simpl in Hi; lia).
  reflexivity.
Qed.

Section Surplus.
Context {numpy_lib : np.predicates} {scipy_lib : scipy.optimize}.

(** X17.  Entries of the initial-moles lists beyond the number of species
    are never read: appending anything to matching lists changes neither
    the result of [reaction_equation] nor that of
    [calculate_conversion]. *)
Theorem surplus_initial_moles_ignored (self : Reaction)
    (reac_init prod_init extra_r extra_p : list R) :
  List.length reac_init = List.length (reactants self) ->
  List.length prod_init = List.length (products self) ->
  (forall chi pressure,
      reaction_equation self chi pressure (reac_init ++ extra_r)
        (prod_init ++ extra_p)
      = reaction_equation self chi pressure reac_init prod_init) /\
  (forall pressure k_eq,
      calculate_conversion self pressure (reac_init ++ extra_r)
        (prod_init ++ extra_p) k_eq
      = calculate_conversion self pressure reac_init prod_init k_eq).
Proof.
  intros Hlr Hlp. split.
  - intros chi pressure. apply reaction_equation_surplus; assumption.
  - intros pressure k_eq.
    assert (Hres : residual self pressure (reac_init ++ extra_r)
                     (prod_init ++ extra_p) k_eq
                   = residual self pressure reac_init prod_init k_eq).
    { apply functional_extensionality. intros chi. unfold residual.
      rewrite reaction_equation_surplus by assumption. reflexivity. }
    unfold calculate_conversion, bracket, ratios, py.zip.
    rewrite !combine_surplus by assumption. rewrite Hres. reflexivity.
Qed.

End Surplus.

Lemma surplus_initial_moles_ignored_witness :
  (forall chi pressure,
      reaction_equation example.haber_process chi pressure
        ([100; 300] ++ [7]) ([0] ++ [8; 9])
      = reaction_equation example.haber_process chi pressure [100; 300] [0]) /\
  (forall pressure k_eq,
      @calculate_conversion example.binary64_range example.bisection
        example.haber_process pressure ([100; 300] ++ [7]) ([0] ++ [8; 9]) k_eq
      = @calculate_conversion example.binary64_range example.bisection
          example.haber_process pressure [100; 300] [0] k_eq).
Proof.
  apply (@surplus_initial_moles_ignored example.binary64_range example.bisection
           example.haber_process [100; 300] [0] [7] [8; 9]); reflexivity.
Defined.

(** ** Where the two ends of the bracket lie *)

Lemma orders_positive_nonzero (comps : list Component) :
  relate.orders_positive comps -> spec.orders_nonzero comps.
Proof.
  intros H. eapply Forall_impl; [|exact H]. intros c Hc. simpl in Hc. lia.
Qed.

Lemma py_max_Ok (l : list R) (m : R) :
  py.max l = Ok m -> In m l /\ forall x, In x l -> x <= m.
Proof.
  intros H. assert (Hne : l <> []) by (intros ->; discriminate).
  destruct (py_max_spec l Hne) as (m' & Hm' & Hin & Hall).
  rewrite H in Hm'. injection Hm' as <-. split; assumption.
Qed.

Lemma py_min_Ok (l : list R) (m : R) :
  py.min l = Ok m -> In m l /\ forall x, In x l -> m <= x.
Proof.
  intros H. assert (Hne : l <> []) by (intros ->; discriminate).
  destruct (py_min_spec l Hne) as (m' & Hm' & Hin & Hall).
  rewrite H in Hm'. injection Hm' as <-. split; assumption.
Qed.

(** The two extremal ratios behind a bracket that was computed. *)
Lemma bracket_Ok_inv (self : Reaction) (reac_init prod_init : list R)
    (chi_min chi_max : R) :
  bracket self reac_init prod_init = Ok (chi_min, chi_max) ->
  exists ps rs pmax rmin,
    ratios (products self) prod_init = Ok ps /\ py.max ps = Ok pmax /\
    ratios (reactants self) reac_init = Ok rs /\ py.min rs = Ok rmin /\
    chi_min = - pmax + epsilon /\ chi_max = rmin - epsilon.
Proof.
  unfold bracket. intros H.
  destruct (ratios (products self) prod_init) as [ps|?] eqn:Hps; [|discriminate].
  simpl in H. destruct (py.max ps) as [pmax|?] eqn:Hmax; [|discriminate].
  simpl in H. destruct (ratios (reactants self) reac_init) as [rs|?] eqn:Hrs;
    [|discriminate].
  simpl in H. destruct (py.min rs) as [rmin|?] eqn:Hmin; [|discriminate].
  simpl in H. injection H as <- <-.
  exists ps, rs, pmax, rmin. repeat split; assumption || reflexivity.
Qed.

Lemma legacy_bracket_Ok_inv (self : Reaction) (reac_init prod_init : list R)
    (chi_min chi_max : R) :
  legacy.bracket self reac_init prod_init = Ok (chi_min, chi_max) ->
  exists ps rs pmax rmin,
    ratios (products self) prod_init = Ok ps /\ py.max ps = Ok pmax /\
    ratios (reactants self) reac_init = Ok rs /\ py.min rs = Ok rmin /\
    chi_min = - pmax - legacy.epsilon /\ chi_max = rmin + legacy.epsilon.
Proof.
  unfold legacy.bracket. intros H.
  destruct (ratios (products self) prod_init) as [ps|?] eqn:Hps; [|discriminate].
  simpl in H. destruct (py.max ps) as [pmax|?] eqn:Hmax; [|discriminate].
  simpl in H. destruct (ratios (reactants self) reac_init) as [rs|?] eqn:Hrs;
    [|discriminate].
  simpl in H. destruct (py.min rs) as [rmin|?] eqn:Hmin; [|discriminate].
  simpl in H. injection H as <- <-.
  exists ps, rs, pmax, rmin. repeat split; assumption || reflexivity.
Qed.

(** For positive orders the list of ratios is that of the zipped pairs. *)
Lemma ratios_positive (comps : list Component) (init : list R) (rs : list R) :
  relate.orders_positive comps ->
  ratios comps init = Ok rs -> rs = map spec.ratio (combine comps init).
Proof.
  intros Hpos H. rewrite ratios_Ok in H by (apply orders_positive_nonzero; assumption).
  injection H as <-. reflexivity.
Qed.

Lemma in_combine_positive (comps : list Component) (init : list R)
    (item : Component * R) :
  relate.orders_positive comps -> In item (combine comps init) ->
  0 < IZR (order (fst item)).
Proof.
  intros Hpos Hin. destruct item as [c n0]. apply in_combine_l in Hin.
  unfold relate.orders_positive in Hpos. rewrite Forall_forall in Hpos.
  apply IZR_lt. simpl. apply Hpos. exact Hin.
Qed.

(** An amount in terms of the ratio of its pair. *)
Lemma reactant_moles_ratio (chi : R) (item : Component * R) :
  0 < IZR (order (fst item)) ->
  spec.reactant_moles chi item = IZR (order (fst item)) * (spec.ratio item - chi).
Proof.
  intros Hpos. destruct item as [c n0]. unfold spec.reactant_moles, spec.ratio.
  simpl in *. field. lra.
Qed.

Lemma product_moles_ratio (chi : R) (item : Component * R) :
  0 < IZR (order (fst item)) ->
  spec.product_moles chi item = IZR (order (fst item)) * (spec.ratio item + chi).
Proof.
  intros Hpos. destruct item as [c n0]. unfold spec.product_moles, spec.ratio.
  simpl in *. field. lra.
Qed.

(** X18.  The upper end of the bracket is admissible: when the bracket is
    computed and the reactant orders are positive, at every extent up to
    [chi_max] each reactant paired with an initial amount keeps at least
    [order * epsilon] moles, a positive amount. *)
Theorem bracket_keeps_reactants_positive (self : Reaction)
    (reac_init prod_init : list R) (chi_min chi_max chi : R) :
  bracket self reac_init prod_init = Ok (chi_min, chi_max) ->
  relate.orders_positive (reactants self) ->
  chi <= chi_max ->
  Forall (fun item =>
            0 < IZR (order (fst item)) * epsilon <= spec.reactant_moles chi item)
         (combine (reactants self) reac_init).
Proof.
  intros Hb Hpos Hchi.
  destruct (bracket_Ok_inv _ _ _ _ _ Hb)
    as (ps & rs & pmax & rmin & _ & _ & Hrs & Hmin & _ & ->).
  apply (ratios_positive _ _ _ Hpos) in Hrs. subst rs.
  apply py_min_Ok in Hmin. destruct Hmin as [_ Hall].
  apply Forall_forall. intros item Hin.
  pose proof (in_combine_positive _ _ _ Hpos Hin) as Hm.
  rewrite (reactant_moles_ratio chi item Hm).
  assert (Hr : rmin <= spec.ratio item) by (apply Hall, in_map; exact Hin).
  unfold epsilon in *. split; nra.
Qed.

Lemma bracket_keeps_reactants_positive_witness :
  Forall (fun item =>
            0 < IZR (order (fst item)) * epsilon <= spec.reactant_moles 50 item)
         (combine (reactants example.haber_process) [100; 300]).
Proof.
  apply (bracket_keeps_reactants_positive example.haber_process [100; 300] [0]
           (- (0 / 2) + 1e-5) (100 / 1 - 1e-5) 50);
    [exact bracket_haber | apply orders_positive_haber | lra].
Defined.

(** X19.  The lower end of the bracket follows the most abundant product:
    when the bracket is computed and the product orders are positive, at
    [chi_min] one paired product holds exactly [order * epsilon] moles, none
    holds more than that, and every product whose ratio
    [prod_init / order] is below [- chi_min] holds a negative amount. *)
Theorem bracket_lower_end (self : Reaction) (reac_init prod_init : list R)
    (chi_min chi_max : R) :
  bracket self reac_init prod_init = Ok (chi_min, chi_max) ->
  relate.orders_positive (products self) ->
  (exists item, In item (combine (products self) prod_init) /\
     spec.product_moles chi_min item = IZR (order (fst item)) * epsilon) /\
  Forall (fun item =>
            spec.product_moles chi_min item <= IZR (order (fst item)) * epsilon /\
            (spec.ratio item < - chi_min -> spec.product_moles chi_min item < 0))
         (combine (products self) prod_init).
Proof.
  intros Hb Hpos.
  destruct (bracket_Ok_inv _ _ _ _ _ Hb)
    as (ps & rs & pmax & rmin & Hps & Hmax & _ & _ & -> & _).
  apply (ratios_positive _ _ _ Hpos) in Hps. subst ps.
  apply py_max_Ok in Hmax. destruct Hmax as [Hin Hall]. split.
  - apply in_map_iff in Hin. destruct Hin as (item & Hratio & Hitem).
    exists item. split; [exact Hitem|].
    pose proof (in_combine_positive _ _ _ Hpos Hitem) as Hn.
    rewrite (product_moles_ratio _ item Hn), Hratio. ring.
  - apply Forall_forall. intros item Hitem.
    pose proof (in_combine_positive _ _ _ Hpos Hitem) as Hn.
    rewrite (product_moles_ratio _ item Hn).
    assert (Hr : spec.ratio item <= pmax) by (apply Hall, in_map; exact Hitem).
    unfold epsilon in *. split; [nra|]. intros Hlt. nra.
Qed.

(** The bracket of a water-gas shift mixture holding 10 mol of CO2 and no
    H2. *)
Example bracket_water_gas_shift :
  bracket sample.water_gas_shift [5; 5] [10; 0]
  = Ok (- (10 / 1) + 1e-5, 5 / 1 - 1e-5).
Proof.
  unfold bracket, ratios, py.zip, py.truediv. simpl.
  repeat match goal with
         | |- context [Req_dec_T ?x ?y] => destruct (Req_dec_T x y); [lra|]; simpl
         end.
  destruct (Rgt_dec (0 / 1) (10 / 1)); [lra|].
  destruct (Rlt_dec (5 / 1) (5 / 1)); [lra|]. reflexivity.
Qed.

Lemma bracket_lower_end_witness :
  (exists item, In item (combine (products sample.water_gas_shift) [10; 0]) /\
     spec.product_moles (- (10 / 1) + 1e-5) item
     = IZR (order (fst item)) * epsilon) /\
  Forall (fun item =>
            spec.product_moles (- (10 / 1) + 1e-5) item
            <= IZR (order (fst item)) * epsilon /\
            (spec.ratio item < - (- (10 / 1) + 1e-5) ->
             spec.product_moles (- (10 / 1) + 1e-5) item < 0))
         (combine (products sample.water_gas_shift) [10; 0]).
Proof.
  apply (bracket_lower_end sample.water_gas_shift [5; 5] [10; 0]
           (- (10 / 1) + 1e-5) (5 / 1 - 1e-5));
    [exact bracket_water_gas_shift | repeat constructor; simpl; lia].
Defined.

(** In that mixture the hydrogen amount at [chi_min] is negative. *)
Example hydrogen_negative_at_chi_min :
  spec.product_moles (- (10 / 1) + 1e-5) (sample.hydrogen, 0) < 0.
Proof. unfold spec.product_moles. simpl. lra. Qed.

(** X20.  Both ends of the top-level copy's bracket lie outside the
    admissible region: when its bracket is computed and the orders are
    positive, at its [chi_max] the limiting reactant holds
    [- order * epsilon] moles and at its [chi_min] the most abundant product
    holds [- order * epsilon] moles, negative amounts. *)
Theorem legacy_bracket_outside (self : Reaction) (reac_init prod_init : list R)
    (chi_min chi_max : R) :
  legacy.bracket self reac_init prod_init = Ok (chi_min, chi_max) ->
  relate.orders_positive (reactants self) ->
  relate.orders_positive (products self) ->
  (exists item, In item (combine (reactants self) reac_init) /\
     spec.reactant_moles chi_max item = - (IZR (order (fst item)) * legacy.epsilon) /\
     spec.reactant_moles chi_max item < 0) /\
  (exists item, In item (combine (products self) prod_init) /\
     spec.product_moles chi_min item = - (IZR (order (fst item)) * legacy.epsilon) /\
     spec.product_moles chi_min item < 0).
Proof.
  intros Hb Hposr Hposp.
  destruct (legacy_bracket_Ok_inv _ _ _ _ _ Hb)
    as (ps & rs & pmax & rmin & Hps & Hmax & Hrs & Hmin & -> & ->).
  apply (ratios_positive _ _ _ Hposp) in Hps. subst ps.
  apply (ratios_positive _ _ _ Hposr) in Hrs. subst rs.
  apply py_max_Ok in Hmax. destruct Hmax as [Hinp _].
  apply py_min_Ok in Hmin. destruct Hmin as [Hinr _].
  apply in_map_iff in Hinp. destruct Hinp as (ip & Hrp & Hinp).
  apply in_map_iff in Hinr. destruct Hinr as (ir & Hrr & Hinr).
  pose proof (in_combine_positive _ _ _ Hposp Hinp) as Hn.
  pose proof (in_combine_positive _ _ _ Hposr Hinr) as Hm.
  split.
  - exists ir. split; [exact Hinr|].
    rewrite (reactant_moles_ratio _ ir Hm), Hrr. unfold legacy.epsilon.
    split; [ring | nra].
  - exists ip. split; [exact Hinp|].
    rewrite (product_moles_ratio _ ip Hn), Hrp. unfold legacy.epsilon.
    split; [ring | nra].
Qed.

(** The bracket the top-level copy computes on the inputs of [main.py]. *)
Example legacy_bracket_haber :
  legacy.bracket example.haber_process [100; 300] [0]
  = Ok (- (0 / 2) - 1e-5, 100 / 1 + 1e-5).
Proof.
  unfold legacy.bracket, ratios, py.zip, py.truediv. simpl.
  repeat match goal with
         | |- context [Req_dec_T ?x ?y] => destruct (Req_dec_T x y); [lra|]; simpl
         end.
  destruct (Rlt_dec (300 / 3) (100 / 1)); [lra|]. reflexivity.
Qed.

Lemma legacy_bracket_outside_witness :
  (exists item, In item (combine (reactants example.haber_process) [100; 300]) /\
     spec.reactant_moles (100 / 1 + 1e-5) item
     = - (IZR (order (fst item)) * legacy.epsilon) /\
     spec.reactant_moles (100 / 1 + 1e-5) item < 0) /\
  (exists item, In item (combine (products example.haber_process) [0]) /\
     spec.product_moles (- (0 / 2) - 1e-5) item
     = - (IZR (order (fst item)) * legacy.epsilon) /\
     spec.product_moles (- (0 / 2) - 1e-5) item < 0).
Proof.
  apply (legacy_bracket_outside example.haber_process [100; 300] [0]
           (- (0 / 2) - 1e-5) (100 / 1 + 1e-5));
    [exact legacy_bracket_haber | apply orders_positive_haber
     | apply orders_positive_haber].
Defined.

(** ** When the bracket cannot be computed *)

Lemma mapM_ratio_zero (l : list (Component * R)) :
  Exists relate.zero_order l ->
  mapM (fun '(comp, n0) => py.truediv n0 (IZR (order comp))) l
  = Raise ZeroDivisionError.
Proof.
  induction l as [|[c n0] l IH]; intros Hex; [inversion Hex|].
  simpl. unfold py.truediv at 1.
  destruct (Req_dec_T (IZR (order c)) 0) as [_|Hnz]; [reflexivity|].
  simpl. rewrite IH; [reflexivity|].
  inversion Hex as [? ? Hz | ? ? Hrest]; subst; [|exact Hrest].
  exfalso. apply Hnz. unfold relate.zero_order in Hz. simpl in Hz.
  rewrite Hz. reflexivity.
Qed.

Lemma mapM_ratio_nonzero (l : list (Component * R)) :
  ~ Exists relate.zero_order l ->
  mapM (fun '(comp, n0) => py.truediv n0 (IZR (order comp))) l
  = Ok (map spec.ratio l).
Proof.
  induction l as [|[c n0] l IH]; intros Hex; [reflexivity|].
  simpl. unfold py.truediv at 1.
  destruct (Req_dec_T (IZR (order c)) 0) as [Hz|_].
  - exfalso. apply Hex. left. unfold relate.zero_order. simpl.
    apply eq_IZR_R0. exact Hz.
  - simpl. rewrite IH; [reflexivity|].
    intros H. apply Hex. right. exact H.
Qed.

Lemma map_ratio_nil (l : list (Component * R)) :
  map spec.ratio l = [] <-> l = [].
Proof. destruct l; simpl; split; congruence. Qed.

(** X21.  When [calculate_conversion] cannot compute its bracket, read in
    the order of evaluation over the pairs of [zip(products, prod_init)] and
    then of [zip(reactants, reac_init)]: a paired species of order zero
    raises [ZeroDivisionError], an empty zip raises [ValueError] from [max]
    or [min]; otherwise the bracket is computed. *)
Theorem bracket_error_table (self : Reaction) (reac_init prod_init : list R) :
  (Exists relate.zero_order (combine (products self) prod_init) ->
   bracket self reac_init prod_init = Raise ZeroDivisionError) /\
  (~ Exists relate.zero_order (combine (products self) prod_init) ->
   (combine (products self) prod_init = [] ->
    bracket self reac_init prod_init = Raise ValueError) /\
   (combine (products self) prod_init <> [] ->
    (Exists relate.zero_order (combine (reactants self) reac_init) ->
     bracket self reac_init prod_init = Raise ZeroDivisionError) /\
    (~ Exists relate.zero_order (combine (reactants self) reac_init) ->
     (combine (reactants self) reac_init = [] ->
      bracket self reac_init prod_init = Raise ValueError) /\
     (combine (reactants self) reac_init <> [] ->
      exists chi_min chi_max : R,
        bracket self reac_init prod_init = Ok (chi_min, chi_max))))).
Proof.
  unfold bracket, ratios, py.zip. split.
  - intros Hz. rewrite (mapM_ratio_zero _ Hz). reflexivity.
  - intros Hnz. rewrite (mapM_ratio_nonzero _ Hnz). cbn [bind]. split.
    + intros ->. reflexivity.
    + intros Hne.
      destruct (py_max_spec (map spec.ratio (combine (products self) prod_init)))
        as (pmax & -> & _); [rewrite map_ratio_nil; exact Hne|].
      cbn [bind]. split.
      * intros Hz. rewrite (mapM_ratio_zero _ Hz). reflexivity.
      * intros Hnzr. rewrite (mapM_ratio_nonzero _ Hnzr). cbn [bind]. split.
        -- intros ->. reflexivity.
        -- intros Hner.
           destruct (py_min_spec
                       (map spec.ratio (combine (reactants self) reac_init)))
             as (rmin & -> & _); [rewrite map_ratio_nil; exact Hner|].
           cbn [bind]. do 2 eexists. reflexivity.
Qed.

(** A species of order zero among the products of the Haber process. *)
Example bracket_zero_order :
  bracket
    {| reactants := [example.nitrogen; example.hydrogen];
       products := [example.ammonia; sample.inert];
       rxn_std_dh := 0; rxn_std_ds := 0; eos := "ideal"; reac_temp := 500 |}
    [100; 300] [0; 1]
  = Raise ZeroDivisionError.
Proof.
  unfold bracket, ratios, py.zip. rewrite mapM_ratio_zero; [reflexivity|].
  apply Exists_cons_tl, Exists_cons_hd. reflexivity.
Qed.

(** ** Roots of the residual *)

Section ResidualRoots.
Context {numpy_lib : np.predicates} {scipy_lib : scipy.optimize}.

Lemma residual_root (self : Reaction) (pressure : R)
    (reac_init prod_init : list R) (k_eq chi : R) :
  np.isfinite 0 = true ->
  residual self pressure reac_init prod_init k_eq chi = 0 <->
  reaction_equation self chi pressure reac_init prod_init = Ok k_eq.
Proof.
  intros Hfin. unfold residual. split.
  - destruct (reaction_equation self chi pressure reac_init prod_init)
      as [q|e]; cbv zeta.
    + destruct (np.isfinite (q - k_eq)); simpl; unfold penalty; intros H.
      * f_equal. lra.
      * lra.
    + unfold penalty. intros H. lra.
  - intros ->. cbv zeta. replace (k_eq - k_eq) with 0 by ring.
    rewrite Hfin. reflexivity.
Qed.

(** X22.  With a finiteness test that accepts 0, the residual vanishes at
    an extent exactly when [reaction_equation] returns the constant
    [k_eq] there: the penalty is never a root. *)
Theorem residual_zero_iff_equilibrium (self : Reaction) (pressure : R)
    (reac_init prod_init : list R) (k_eq chi : R) :
  np.isfinite 0 = true ->
  residual self pressure reac_init prod_init k_eq chi = 0 <->
  reaction_equation self chi pressure reac_init prod_init = Ok k_eq.
Proof. exact (residual_root self pressure reac_init prod_init k_eq chi). Qed.

Lemma residual_short (self : Reaction) (pressure : R)
    (reac_init prod_init : list R) (k_eq chi : R) :
  relate.orders_positive (reactants self) ->
  relate.orders_positive (products self) ->
  (List.length prod_init < List.length (products self))%nat \/
  (List.length reac_init < List.length (reactants self))%nat ->
  residual self pressure reac_init prod_init k_eq chi = penalty.
Proof.
  intros Hr Hp Hshort. unfold residual.
  rewrite reaction_equation_short by assumption. reflexivity.
Qed.

(** X23.  A too short initial-moles list is not reported as such by
    [calculate_conversion]: when the bracket is still computed (the zips
    are not empty) and the orders are positive, every evaluation of the
    quotient raises [IndexError], the residual absorbs it, and the call
    ends in the no-sign-change [RuntimeError] with both residuals equal to
    the penalty. *)
Theorem short_list_ends_in_no_sign_change (self : Reaction) (pressure : R)
    (reac_init prod_init : list R) (k_eq chi_min chi_max : R) :
  bracket self reac_init prod_init = Ok (chi_min, chi_max) ->
  relate.orders_positive (reactants self) ->
  relate.orders_positive (products self) ->
  (List.length prod_init < List.length (products self))%nat \/
  (List.length reac_init < List.length (reactants self))%nat ->
  calculate_conversion self pressure reac_init prod_init k_eq
  = Raise (RuntimeError (NoSignChange chi_min penalty chi_max penalty)).
Proof.
  intros Hb Hr Hp Hshort.
  destruct (conversion_after_bracket self pressure reac_init prod_init k_eq
              _ _ Hb) as [Hsame _].
  cbv zeta in Hsame.
  rewrite !residual_short in Hsame by assumption.
  apply Hsame, mul_positive. unfold penalty.
  pose proof underflow_limit_lt_1. lra.
Qed.

End ResidualRoots.

Lemma binary64_range_zero : @np.isfinite example.binary64_range 0 = true.
Proof.
  simpl. destruct (Rle_dec (Rabs 0) 1.7976931348623157e308) as [_|H];
    [reflexivity|].
  exfalso. apply H. rewrite Rabs_R0. lra.
Qed.

Lemma residual_zero_iff_equilibrium_witness :
  @residual example.binary64_range example.haber_process 100 [100; 300] [0]
    (spec.Q example.haber_process 1 100 [100; 300] [0]) 1 = 0 <->
  reaction_equation example.haber_process 1 100 [100; 300] [0]
  = Ok (spec.Q example.haber_process 1 100 [100; 300] [0]).
Proof.
  apply (@residual_zero_iff_equilibrium example.binary64_range
           example.haber_process 100 [100; 300] [0]
           (spec.Q example.haber_process 1 100 [100; 300] [0]) 1).
  exact binary64_range_zero.
Defined.

(** At one mole of extent the Haber mixture is at equilibrium for the
    constant equal to its quotient there. *)
Example residual_haber_root :
  @residual example.binary64_range example.haber_process 100 [100; 300] [0]
    (spec.Q example.haber_process 1 100 [100; 300] [0]) 1 = 0.
Proof.
  apply (@residual_root example.binary64_range);
    [exact binary64_range_zero|].
  apply reaction_equation_defined; [reflexivity | reflexivity |].
  exact Q_defined_haber.
Qed.

(** The bracket is computed from the one amount that was given. *)
Example bracket_haber_short :
  bracket example.haber_process [100] [0] = Ok (- (0 / 2) + 1e-5, 100 / 1 - 1e-5).
Proof.
  unfold bracket, ratios, py.zip, py.truediv. simpl.
  repeat match goal with
         | |- context [Req_dec_T ?x ?y] => destruct (Req_dec_T x y); [lra|]; simpl
         end.
  reflexivity.
Qed.

Lemma short_list_ends_in_no_sign_change_witness :
  @calculate_conversion example.binary64_range example.bisection
    example.haber_process 100 [100] [0] 1e-5
  = Raise (RuntimeError
             (NoSignChange (- (0 / 2) + 1e-5) penalty (100 / 1 - 1e-5) penalty)).
Proof.
  apply (@short_list_ends_in_no_sign_change example.binary64_range
           example.bisection example.haber_process 100 [100] [0] 1e-5);
    [exact bracket_haber_short | apply orders_positive_haber
     | apply orders_positive_haber | right; simpl; lia].
Defined.

(** ** The bracket check for one reactant and one product *)

Lemma single_species_Q_increasing (self : Reaction) (a b : Component)
    (pressure r0 p0 chi1 chi2 : R) :
  reactants self = [a] -> products self = [b] ->
  (0 < order a)%Z -> (0 < order b)%Z -> 0 < pressure ->
  0 < p0 + IZR (order b) * chi1 -> 0 < r0 - IZR (order a) * chi1 ->
  0 < p0 + IZR (order b) * chi2 -> 0 < r0 - IZR (order a) * chi2 ->
  chi1 < chi2 ->
  spec.Q self chi1 pressure [r0] [p0] < spec.Q self chi2 pressure [r0] [p0].
Proof.
  intros Hr Hp Hm Hn HP HA1 HB1 HA2 HB2 Hchi.
  rewrite (single_species_Q self a b pressure r0 p0 chi1) by assumption.
  rewrite (single_species_Q self a b pressure r0 p0 chi2) by assumption.
  apply exp_increasing.
  apply IZR_lt in Hm, Hn.
  set (m := IZR (order a)) in *. set (n := IZR (order b)) in *.
  set (A1 := p0 + n * chi1) in *. set (A2 := p0 + n * chi2) in *.
  set (B1 := r0 - m * chi1) in *. set (B2 := r0 - m * chi2) in *.
  assert (HA : A1 < A2) by (unfold A1, A2; nra).
  assert (HB : B2 < B1) by (unfold B1, B2; nra).
  assert (Halpha : 0 < ln A2 - ln A1)
    by (pose proof (ln_increasing A1 A2 HA1 HA); lra).
  assert (Hbeta : 0 < ln B1 - ln B2)
    by (pose proof (ln_increasing B2 B1 HB2 HB); lra).
  assert (Htau1 : ln (A2 + B2) - ln (A1 + B1) < ln A2 - ln A1)
    by (apply ln_ratio_lt; nra).
  assert (Htau2 : - (ln (A2 + B2) - ln (A1 + B1)) < ln B1 - ln B2).
  { replace (- (ln (A2 + B2) - ln (A1 + B1)))
      with (ln (A1 + B1) - ln (A2 + B2)) by ring.
    apply ln_ratio_lt; nra. }
  pose proof (exponent_increases n m _ _ _ Hn Hm Halpha Hbeta Htau1 Htau2).
  lra.
Qed.

Lemma single_species_bracket (self : Reaction) (a b : Component) (r0 p0 : R) :
  reactants self = [a] -> products self = [b] ->
  (0 < order a)%Z -> (0 < order b)%Z ->
  bracket self [r0] [p0]
  = Ok (- (p0 / IZR (order b)) + epsilon, r0 / IZR (order a) - epsilon).
Proof.
  intros Hr Hp Hm Hn. apply IZR_lt in Hm, Hn.
  unfold bracket, ratios, py.zip. rewrite Hr, Hp. simpl.
  rewrite !py_truediv_Ok by lra. reflexivity.
Qed.

Lemma single_species_legacy_bracket (self : Reaction) (a b : Component)
    (r0 p0 : R) :
  reactants self = [a] -> products self = [b] ->
  (0 < order a)%Z -> (0 < order b)%Z ->
  legacy.bracket self [r0] [p0]
  = Ok (- (p0 / IZR (order b)) - legacy.epsilon,
        r0 / IZR (order a) + legacy.epsilon).
Proof.
  intros Hr Hp Hm Hn. apply IZR_lt in Hm, Hn.
  unfold legacy.bracket, ratios, py.zip. rewrite Hr, Hp. simpl.
  rewrite !py_truediv_Ok by lra. reflexivity.
Qed.

(** The amounts at the two ends of the bracket. *)
Lemma single_species_ends (m n r0 p0 : R) :
  0 < m -> 0 < n -> 2 * epsilon < r0 / m + p0 / n ->
  let chi_min := - (p0 / n) + epsilon in
  let chi_max := r0 / m - epsilon in
  0 < p0 + n * chi_min /\ 0 < r0 - m * chi_min /\
  0 < p0 + n * chi_max /\ 0 < r0 - m * chi_max /\ chi_min < chi_max.
Proof.
  intros Hm Hn Hwide. cbv zeta. unfold epsilon in *.
  assert (Hr : r0 = m * (r0 / m)) by (field; lra).
  assert (Hp : p0 = n * (p0 / n)) by (field; lra).
  set (x := r0 / m) in *. set (y := p0 / n) in *.
  rewrite Hr, Hp. repeat split; nra.
Qed.

Section SingleSpecies.
Context {numpy_lib : np.predicates} {scipy_lib : scipy.optimize}.

Lemma single_species_check (self : Reaction) (a b : Component)
    (pressure r0 p0 k_eq : R) :
  reactants self = [a] -> products self = [b] ->
  (0 < order a)%Z -> (0 < order b)%Z -> 0 < pressure ->
  2 * epsilon < r0 / IZR (order a) + p0 / IZR (order b) ->
  let chi_min := - (p0 / IZR (order b)) + epsilon in
  let chi_max := r0 / IZR (order a) - epsilon in
  let q_min := spec.Q self chi_min pressure [r0] [p0] in
  let q_max := spec.Q self chi_max pressure [r0] [p0] in
  np.isfinite (q_min - k_eq) = true ->
  np.isfinite (q_max - k_eq) = true ->
  reaction_equation self chi_min pressure [r0] [p0] = Ok q_min /\
  reaction_equation self chi_max pressure [r0] [p0] = Ok q_max /\
  0 < q_min < q_max /\
  (k_eq < q_min \/ q_max < k_eq ->
   (py.underflow_limit < (q_min - k_eq) * (q_max - k_eq) ->
    calculate_conversion self pressure [r0] [p0] k_eq
    = Raise (RuntimeError
               (NoSignChange chi_min (q_min - k_eq) chi_max (q_max - k_eq)))) /\
   ((q_min - k_eq) * (q_max - k_eq) <= py.underflow_limit ->
    scipy.brentq ->
    calculate_conversion self pressure [r0] [p0] k_eq = Raise ValueError)) /\
  (q_min <= k_eq <= q_max ->
   forall sol,
     scipy.root_scalar (residual self pressure [r0] [p0] k_eq)
       chi_min chi_max = Ok sol ->
     calculate_conversion self pressure [r0] [p0] k_eq
     = if scipy.converged sol then Ok (scipy.root sol)
       else Raise (RuntimeError NotConverged)).
Proof.
  intros Hr Hp Hm Hn HP Hwide chi_min chi_max q_min q_max Hfmin Hfmax.
  pose proof (IZR_lt _ _ Hm) as Hm'. pose proof (IZR_lt _ _ Hn) as Hn'.
  destruct (single_species_ends _ _ r0 p0 Hm' Hn' Hwide)
    as (HA1 & HB1 & HA2 & HB2 & Hlt).
  fold chi_min in HA1, HB1, Hlt. fold chi_max in HA2, HB2, Hlt.
  assert (Hqmin : reaction_equation self chi_min pressure [r0] [p0] = Ok q_min).
  { apply reaction_equation_defined; [rewrite Hr | rewrite Hp |];
      try reflexivity.
    apply (single_species_defined self a b); assumption. }
  assert (Hqmax : reaction_equation self chi_max pressure [r0] [p0] = Ok q_max).
  { apply reaction_equation_defined; [rewrite Hr | rewrite Hp |];
      try reflexivity.
    apply (single_species_defined self a b); assumption. }
  assert (Hinc : q_min < q_max).
  { apply (single_species_Q_increasing self a b); assumption. }
  assert (Hpos : 0 < q_min).
  { unfold q_min.
    rewrite (single_species_Q self a b pressure r0 p0 chi_min) by assumption.
    apply exp_pos. }
  destruct (residual_cases self pressure [r0] [p0] k_eq chi_min)
    as (Hvmin & _).
  destruct (residual_cases self pressure [r0] [p0] k_eq chi_max)
    as (Hvmax & _).
  specialize (Hvmin q_min Hqmin Hfmin). specialize (Hvmax q_max Hqmax Hfmax).
  destruct (conversion_after_bracket self pressure [r0] [p0] k_eq
              chi_min chi_max (single_species_bracket self a b r0 p0 Hr Hp Hm Hn))
    as [Hsame Hchange].
  cbv zeta in Hsame, Hchange. rewrite Hvmin, Hvmax in Hsame, Hchange.
  pose proof underflow_limit_pos as Hlim.
  split; [exact Hqmin|]. split; [exact Hqmax|]. split; [lra|]. split.
  - intros Hout. split.
    + intros Habove. apply Hsame, mul_positive. exact Habove.
    + intros Hbelow Hsolver.
      destruct Hchange as [Hraise _].
      { intros Hgt. apply mul_positive in Hgt. lra. }
      apply Hraise.
      destruct (Hsolver (residual self pressure [r0] [p0] k_eq)
                  chi_min chi_max) as [Hrefuse _].
      apply Hrefuse. rewrite Hvmin, Hvmax. unfold scipy.same_sign.
      destruct Hout; [left | right]; lra.
  - intros Hin sol Hsol.
    destruct Hchange as [_ Hok].
    { intros Hgt. apply mul_positive in Hgt. nra. }
    destruct (Hok sol Hsol) as [Hconv Hstall].
    destruct (scipy.converged sol); auto.
Qed.


End SingleSpecies.


Lemma binary64_range_accepts (x : R) :
  -1e300 <= x <= 1e300 -> @np.isfinite example.binary64_range x = true.
Proof.
  intros Hx. simpl.
  destruct (Rle_dec (Rabs x) 1.7976931348623157e308) as [_|H]; [reflexivity|].
  exfalso. apply H. apply Rabs_le. lra.
Qed.


(** ** Two small residuals of the same sign *)

Lemma underflow_limit_above : 1e-330 < py.underflow_limit.
Proof.
  unfold py.underflow_limit.
  replace (2 ^ 1075) with (IZR (Z.pow_pos 2 1075))
    by (rewrite pow_IZR; reflexivity).
  lra.
Qed.

(** The quotient of the same mixture at a pressure of 1e-200. *)
Lemma Q_dissociation_thin (chi : R) :
  -2.5 < chi < 10 ->
  spec.Q example.dissociation chi 1e-200 [10] [5]
  = ((5 + 2 * chi) ^ 2 * 1e-200) / ((10 - chi) * (15 + chi)).
Proof.
  intros Hchi.
  unfold spec.Q, spec.numerator, spec.denominator, spec.total_moles,
    spec.net_mole_change, spec.Rprod, spec.Rsum, spec.Zsum,
    spec.product_moles, spec.reactant_moles.
  simpl. field. lra.
Qed.

(** At that pressure and a constant of zero both residuals are positive,
    about 2.56e-212 and 2.5e-194: their product underflows, the test of
    [calculate_conversion] passes, and the call ends in the [ValueError]
    of the root finder. *)
Example conversion_dissociation_underflow :
  0 < spec.Q example.dissociation (- (5 / 2) + epsilon) 1e-200 [10] [5]
    < 3e-212 /\
  0 < spec.Q example.dissociation (10 / 1 - epsilon) 1e-200 [10] [5]
    < 3e-194 /\
  @calculate_conversion example.binary64_range example.checked_bisection
    example.dissociation 1e-200 [10] [5] 0 = Raise ValueError.
Proof.
  assert (Hmin : 0 < spec.Q example.dissociation (- (5 / 2) + epsilon) 1e-200
                       [10] [5] < 3e-212).
  { unfold epsilon. rewrite Q_dissociation_thin by lra.
    split; [apply div_gt_lower | apply div_lt_upper]; lra. }
  assert (Hmax : 0 < spec.Q example.dissociation (10 / 1 - epsilon) 1e-200
                       [10] [5] < 3e-194).
  { unfold epsilon. rewrite Q_dissociation_thin by lra.
    split; [apply div_gt_lower | apply div_lt_upper]; lra. }
  split; [exact Hmin|]. split; [exact Hmax|].
  destruct (@single_species_check example.binary64_range
              example.checked_bisection example.dissociation
              example.species_A example.species_B 1e-200 10 5 0)
    as (_ & _ & _ & Hout & _);
    try reflexivity; try (simpl; lia); try (unfold epsilon; simpl; lra).
  - apply binary64_range_accepts. simpl. lra.
  - apply binary64_range_accepts. simpl. lra.
  - simpl in Hout. destruct Hout as [_ Hvalue]; [left; lra|].
    apply Hvalue; [|exact checked_bisection_brentq].
    pose proof underflow_limit_above. nra.
Qed.

(** ** The top-level copy on a reaction with unit orders *)

Lemma unit_orders_Q (self : Reaction) (a b : Component)
    (pressure r0 p0 chi : R) :
  reactants self = [a] -> products self = [b] ->
  order a = 1%Z -> order b = 1%Z -> r0 - chi <> 0 ->
  spec.Q_defined self chi pressure [r0] [p0] /\
  spec.Q self chi pressure [r0] [p0] = (p0 + chi) / (r0 - chi).
Proof.
  intros Hr Hp Hm Hn Hden. split.
  - unfold spec.Q_defined, spec.total_moles, spec.net_mole_change,
      spec.denominator.
    rewrite Hr, Hp. simpl. rewrite Hm, Hn.
    unfold spec.pow_defined, spec.reactant_moles. simpl. rewrite Hm.
    split; [|split; [|split; [|split]]].
    + repeat constructor. simpl. rewrite Hn. lia.
    + repeat constructor. simpl. rewrite Hm. lia.
    + intros H. lia.
    + intros H. lia.
    + simpl. intros H. apply Hden. lra.
  - unfold spec.Q, spec.numerator, spec.denominator, spec.total_moles,
      spec.net_mole_change, spec.product_moles, spec.reactant_moles.
    rewrite Hr, Hp. simpl. rewrite Hm, Hn. simpl. field. lra.
Qed.

Section TopLevelCopy.
Context {numpy_lib : np.predicates} {scipy_lib : scipy.optimize}.

(** X25.  The top-level copy cannot solve a reaction A <-> B with unit
    orders: for non-negative initial amounts and a non-negative constant,
    at any pressure, the quotient is negative at both ends of its widened
    bracket, so that both residuals are negative and
    [calculate_conversion] raises the no-sign-change error (the two
    residuals are assumed to pass [np.isfinite]). *)
Theorem legacy_unit_orders_no_sign_change (self : Reaction) (a b : Component)
    (pressure r0 p0 k_eq : R) :
  reactants self = [a] -> products self = [b] ->
  order a = 1%Z -> order b = 1%Z ->
  0 <= r0 -> 0 <= p0 -> 0 <= k_eq ->
  let chi_min := - (p0 / 1) - legacy.epsilon in
  let chi_max := r0 / 1 + legacy.epsilon in
  np.isfinite (spec.Q self chi_min pressure [r0] [p0] - k_eq) = true ->
  np.isfinite (spec.Q self chi_max pressure [r0] [p0] - k_eq) = true ->
  exists f_min f_max : R,
    f_min < 0 /\ f_max < 0 /\
    legacy.calculate_conversion self pressure [r0] [p0] k_eq
    = Raise (RuntimeError (NoSignChange chi_min f_min chi_max f_max)).
Proof.
  intros Hr Hp Hm Hn Hr0 Hp0 Hk chi_min chi_max Hfmin Hfmax.
  assert (Heps : legacy.epsilon = 1e-5) by reflexivity.
  destruct (unit_orders_Q self a b pressure r0 p0 chi_min Hr Hp Hm Hn)
    as [Hdmin HQmin]; [unfold chi_min; lra|].
  destruct (unit_orders_Q self a b pressure r0 p0 chi_max Hr Hp Hm Hn)
    as [Hdmax HQmax]; [unfold chi_max; lra|].
  set (u := 1e-5 / (p0 + r0 + 1e-5)).
  set (v := (p0 + r0 + 1e-5) / 1e-5).
  assert (Hu : 0 < u) by (apply Rdiv_lt_0_compat; lra).
  assert (Hv : 0 < v) by (apply Rdiv_lt_0_compat; lra).
  assert (Huv : u * v = 1) by (unfold u, v; field; lra).
  assert (Hmin : spec.Q self chi_min pressure [r0] [p0] = - u).
  { rewrite HQmin. unfold chi_min, u. rewrite Heps. field. lra. }
  assert (Hmax : spec.Q self chi_max pressure [r0] [p0] = - v).
  { rewrite HQmax. unfold chi_max, v. rewrite Heps. field. lra. }
  assert (Hlmin : List.length [r0] = List.length (reactants self))
    by (rewrite Hr; reflexivity).
  assert (Hlmax : List.length [p0] = List.length (products self))
    by (rewrite Hp; reflexivity).
  destruct (residual_cases self pressure [r0] [p0] k_eq chi_min)
    as (Hvmin & _).
  destruct (residual_cases self pressure [r0] [p0] k_eq chi_max)
    as (Hvmax & _).
  specialize (Hvmin _ (reaction_equation_defined _ _ _ _ _ Hlmin Hlmax Hdmin)
                Hfmin).
  specialize (Hvmax _ (reaction_equation_defined _ _ _ _ _ Hlmin Hlmax Hdmax)
                Hfmax).
  exists (spec.Q self chi_min pressure [r0] [p0] - k_eq),
         (spec.Q self chi_max pressure [r0] [p0] - k_eq).
  split; [lra|]. split; [lra|].
  unfold legacy.calculate_conversion.
  rewrite (single_species_legacy_bracket self a b r0 p0 Hr Hp)
    by (rewrite ?Hm, ?Hn; lia).
  rewrite Hm, Hn. cbn [bind]. fold chi_min. fold chi_max.
  rewrite Hvmin, Hvmax.
  destruct (Rgt_dec _ 0) as [_|Hno]; [reflexivity|].
  exfalso. apply Hno. apply mul_positive. rewrite Hmin, Hmax.
  pose proof underflow_limit_lt_1. nra.
Qed.

End TopLevelCopy.

Lemma Q_isomerisation_value (chi : R) :
  10 - chi <> 0 ->
  spec.Q sample.isomerisation chi 1 [10] [5] = (5 + chi) / (10 - chi).
Proof.
  intros H.
  apply (unit_orders_Q sample.isomerisation sample.isomer_A sample.isomer_B
           1 10 5 chi); try reflexivity. exact H.
Qed.

Lemma legacy_unit_orders_no_sign_change_witness :
  let chi_min := - (5 / 1) - legacy.epsilon in
  let chi_max := 10 / 1 + legacy.epsilon in
  exists f_min f_max : R,
    f_min < 0 /\ f_max < 0 /\
    @legacy.calculate_conversion example.binary64_range example.bisection
      sample.isomerisation 1 [10] [5] 1
    = Raise (RuntimeError (NoSignChange chi_min f_min chi_max f_max)).
Proof.
  assert (Heps : legacy.epsilon = 1e-5) by reflexivity.
  apply (@legacy_unit_orders_no_sign_change example.binary64_range
           example.bisection sample.isomerisation sample.isomer_A
           sample.isomer_B 1 10 5 1);
    try reflexivity; try lra.
  - apply binary64_range_accepts. rewrite Heps.
    rewrite Q_isomerisation_value by lra.
    replace ((5 + (- (5 / 1) - 1e-5)) / (10 - (- (5 / 1) - 1e-5)))
      with (- (1e-5 / (15 + 1e-5))) by (field; lra).
    assert (0 < 1e-5 / (15 + 1e-5) < 1)
      by (split; [apply div_gt_lower | apply div_lt_upper]; lra).
    lra.
  - apply binary64_range_accepts. rewrite Heps.
    rewrite Q_isomerisation_value by lra.
    replace ((5 + (10 / 1 + 1e-5)) / (10 - (10 / 1 + 1e-5)))
      with (- ((15 + 1e-5) / 1e-5)) by (field; lra).
    assert (0 < (15 + 1e-5) / 1e-5 < 1e10)
      by (split; [apply div_gt_lower | apply div_lt_upper]; lra).
    lra.
Defined.
